(** * Ledger upload service (app.py): a shallow embedding and its properties

    The service is a Flask application.  Each route of [app.py] is a short
    sequence of calls to external collaborators (the database driver, the
    spreadsheet API, the generative model) wrapped in one
    [try ... except Exception] block.  The embedding below keeps that shape:

    - Python values are a small inductive type [pyval]; dictionaries are
      association lists in insertion order; [float] is IEEE binary64, taken
      from the standard library's [spec_float].
    - Exceptions are values of [exn]; a computation that may raise has type
      [result A]; code that also talks to the outside world runs in the
      monad [M], a state monad over [world] whose state survives a raise.
    - The outside world is a record of oracles ([backend]) that answer each
      call from the history of calls made so far.
    - A database connection is a transaction: statements act on a pending
      copy of the table, [conn.commit()] publishes it, and a handler that
      leaves through [except] drops it.

    Calls to [logger] have no effect on responses or on the store and are
    left out. *)

From Stdlib Require Import ZArith List String Ascii Bool Lia.
From Stdlib Require Import Permutation Sorted.
From Stdlib Require Import Floats.SpecFloat.
Import ListNotations.

Open Scope string_scope.
Open Scope Z_scope.

(** ** Python values, exceptions and results *)

Module Py.

(** Values that appear in the handlers: what [json.loads] can produce and
    what the handlers themselves build. Strings are the UTF-8 bytes of the
    Python [str]. *)
#[warnings="-register-all"]
Inductive pyval : Type :=
| PyNone
| PyBool (b : bool)
| PyInt (z : Z)
| PyFloat (f : spec_float)
| PyStr (s : string)
| PyList (l : list pyval)
| PyDict (d : list (string * pyval)).

Definition dict := list (string * pyval).

(** Exception classes that can reach a handler's [except Exception]. The
    last constructor stands for whatever an external client library raises;
    it carries the library's message. *)
Inductive exn : Type :=
| JSONDecodeError
| TypeError
| ValueError
| OverflowError
| AttributeError
| KeyError (key : string)
| ExternalError (msg : string).

Inductive result (A : Type) : Type :=
| Ok (a : A)
| Raise (e : exn).
Arguments Ok {A} a.
Arguments Raise {A} e.

Definition rbind {A B} (r : result A) (k : A -> result B) : result B :=
  match r with
  | Ok a => k a
  | Raise e => Raise e
  end.

Fixpoint rmap {A B} (f : A -> result B) (l : list A) : result (list B) :=
  match l with
  | [] => Ok []
  | x :: l' => rbind (f x) (fun y => rbind (rmap f l') (fun ys => Ok (y :: ys)))
  end.

(** *** Dictionaries *)

Fixpoint lookup (k : string) (d : dict) : option pyval :=
  match d with
  | [] => None
  | (k', v) :: d' => if String.eqb k k' then Some v else lookup k d'
  end.

(** [d[k] = v]: overwrite in place, or append a new key. *)
Fixpoint dict_set (d : dict) (k : string) (v : pyval) : dict :=
  match d with
  | [] => [(k, v)]
  | (k', v') :: d' =>
      if String.eqb k k' then (k, v) :: d' else (k', v') :: dict_set d' k v
  end.

(** [x.get(k, default)]; only dictionaries have the method. *)
Definition py_get (x : pyval) (k : string) (default : pyval) : result pyval :=
  match x with
  | PyDict d => Ok (match lookup k d with Some v => v | None => default end)
  | _ => Raise AttributeError
  end.

(** [x[k]] for a string key [k]. *)
Definition py_getitem (x : pyval) (k : string) : result pyval :=
  match x with
  | PyDict d => match lookup k d with Some v => Ok v | None => Raise (KeyError k) end
  | _ => Raise TypeError
  end.

(** A byte that continues a character of more than one byte. *)
Definition is_continuation (c : ascii) : bool :=
  let n := nat_of_ascii c in (Nat.leb 128 n && Nat.leb n 191)%bool.

(** The characters of a string, each with the bytes that encode it. *)
Fixpoint characters (s : list ascii) : list (list ascii) :=
  match s with
  | [] => []
  | c :: s' =>
      match characters s' with
      | (c' :: g) :: gs =>
          if is_continuation c' then (c :: c' :: g) :: gs else [c] :: (c' :: g) :: gs
      | gs => [c] :: gs
      end
  end.

(** [for y in x]: the elements the loop visits. A string yields its
    characters, a dictionary its keys. *)
Definition py_iter (x : pyval) : result (list pyval) :=
  match x with
  | PyList l => Ok l
  | PyDict d => Ok (map (fun kv => PyStr (fst kv)) d)
  | PyStr s =>
      Ok (map (fun g => PyStr (string_of_list_ascii g))
            (characters (list_ascii_of_string s)))
  | _ => Raise TypeError
  end.

(** [s.startswith(p)] *)
Fixpoint startswith (s p : string) : bool :=
  match p, s with
  | EmptyString, _ => true
  | String _ _, EmptyString => false
  | String a p', String b s' => Ascii.eqb a b && startswith s' p'
  end.

(** *** Numbers *)

Definition prec : Z := 53.
Definition emax : Z := 1024.

(** The binary64 value nearest to [m * 10^e] (ties to even), for [m >= 0];
    [neg] is the sign. This is what [float] computes from a decimal
    numeral. *)
Definition float_of_decimal (neg : bool) (m e : Z) : spec_float :=
  if m =? 0 then S754_zero neg
  else if 0 <=? e then
    binary_normalize prec emax (cond_Zopp neg (m * 10 ^ e)) 0 false
  else
    let '(q, e', l) := SFdiv_core_binary prec emax m 0 (10 ^ (- e)) 0 in
    binary_round_aux prec emax neg q e' l.

(** [float(z)] for an integer: nearest binary64, [OverflowError] beyond
    the finite range. *)
Definition float_of_int (z : Z) : result spec_float :=
  match binary_normalize prec emax z 0 false with
  | S754_infinity _ => Raise OverflowError
  | f => Ok f
  end.

(** [int(f)] for a float: truncation towards zero. *)
Definition int_of_float (f : spec_float) : result Z :=
  match f with
  | S754_zero _ => Ok 0
  | S754_nan => Raise ValueError
  | S754_infinity _ => Raise OverflowError
  | S754_finite s m e =>
      Ok (cond_Zopp s (if 0 <=? e then Zpos m * 2 ^ e else Zpos m / 2 ^ (- e)))
  end.

(** The code points of a string, read off its UTF-8 bytes: [need] bytes
    are still missing from the character that has the bits [cp] so far
    and that is to be [least] at least. [-1] stands for bytes that encode
    no character. *)
Fixpoint code_points (need : nat) (cp least : Z) (s : list ascii) : list Z :=
  match s with
  | [] => match need with O => [] | S _ => [-1] end
  | c :: s' =>
      let n := Z.of_nat (nat_of_ascii c) in
      match need with
      | O =>
          if n <? 128 then n :: code_points 0 0 0 s'
          else if n <? 192 then -1 :: code_points 0 0 0 s'
          else if n <? 224 then code_points 1 (n - 192) 128 s'
          else if n <? 240 then code_points 2 (n - 224) 2048 s'
          else if n <? 248 then code_points 3 (n - 240) 65536 s'
          else -1 :: code_points 0 0 0 s'
      | S need' =>
          if (128 <=? n) && (n <? 192) then
            let v := 64 * cp + (n - 128) in
            match need' with
            | O => (if least <=? v then v else -1) :: code_points 0 0 0 s'
            | S _ => code_points need' v least s'
            end
          else -1 :: code_points 0 0 0 s'
      end
  end.

(** White space outside ASCII. *)
Definition unicode_spaces : list Z :=
  [133; 160; 5760; 8192; 8193; 8194; 8195; 8196; 8197; 8198; 8199; 8200; 8201; 8202;
   8232; 8233; 8239; 8287; 12288].

(** The digit zero of every script outside ASCII that has decimal digits
    (Unicode 14); the digits one to nine follow it. *)
Definition decimal_zeros : list Z :=
  [1632; 1776; 1984; 2406; 2534; 2662; 2790; 2918; 3046; 3174; 3302; 3430; 3558;
   3664; 3792; 3872; 4160; 4240; 6112; 6160; 6470; 6608; 6784; 6800; 6992; 7088;
   7232; 7248; 42528; 43216; 43264; 43472; 43504; 43600; 44016; 65296; 66720;
   68912; 69734; 69872; 69942; 70096; 70384; 70736; 70864; 71248; 71360; 71472;
   71904; 72016; 72784; 73040; 73120; 92768; 92864; 93008; 120782; 120792; 120802;
   120812; 120822; 123200; 123632; 125264; 130032].

Definition unicode_decimal (cp : Z) : option Z :=
  match find (fun z => (z <=? cp) && (cp <? z + 10)) decimal_zeros with
  | Some z => Some (cp - z)
  | None => None
  end.

(** What [int] and [float] make of a character before they read the
    numeral: an ASCII character stays, white space outside ASCII becomes a
    blank, a decimal digit of another script becomes the ASCII digit of
    the same value, and nothing else is accepted. *)
Definition numeral_char (cp : Z) : option ascii :=
  if (0 <=? cp) && (cp <? 127) then Some (ascii_of_N (Z.to_N cp))
  else if existsb (Z.eqb cp) unicode_spaces then Some " "%char
  else
    match unicode_decimal cp with
    | Some d => Some (ascii_of_N (Z.to_N (48 + d)))
    | None => None
    end.

Fixpoint numeral_chars (cps : list Z) : option (list ascii) :=
  match cps with
  | [] => Some []
  | cp :: cps' =>
      match numeral_char cp, numeral_chars cps' with
      | Some c, Some cs => Some (c :: cs)
      | _, _ => None
      end
  end.

Definition numeral_text (s : string) : option (list ascii) :=
  numeral_chars (code_points 0 0 0 (list_ascii_of_string s)).

(** The longest digit string that [int] converts. *)
Definition max_str_digits : Z := 4300.

(** ASCII characters that [int] and [float] strip around a numeral. *)
Definition is_space (c : ascii) : bool :=
  let n := Z.of_nat (nat_of_ascii c) in
  ((9 <=? n) && (n <=? 13)) || (n =? 32).

Definition digit_of (c : ascii) : option Z :=
  let n := Z.of_nat (nat_of_ascii c) in
  if (48 <=? n) && (n <=? 57) then Some (n - 48) else None.

Fixpoint lstrip (s : list ascii) : list ascii :=
  match s with
  | c :: s' => if is_space c then lstrip s' else s
  | [] => []
  end.

Definition strip (s : list ascii) : list ascii :=
  rev (lstrip (rev (lstrip s))).

(** A digit string in which single underscores may separate digits:
    [prev] tells whether the previous character was a digit. Returns the
    digits read (most significant first) and the rest of the input; the
    scan stops at the first character that cannot continue the group, and
    fails on an underscore that is not between two digits. *)
Fixpoint digits_us (prev : bool) (s : list ascii) : option (list Z * list ascii) :=
  match s with
  | [] => Some ([], [])
  | c :: s' =>
      match digit_of c with
      | Some d =>
          match digits_us true s' with
          | Some (ds, r) => Some (d :: ds, r)
          | None => None
          end
      | None =>
          if Ascii.eqb c "_" then
            if prev then
              match s' with
              | c' :: _ =>
                  match digit_of c' with
                  | Some _ => digits_us false s'
                  | None => None
                  end
              | [] => None
              end
            else None
          else Some ([], s)
      end
  end.

Definition Z_of_digits (ds : list Z) : Z :=
  fold_left (fun acc d => 10 * acc + d) ds 0.

Definition split_sign (s : list ascii) : bool * list ascii :=
  match s with
  | c :: s' =>
      if Ascii.eqb c "-" then (true, s')
      else if Ascii.eqb c "+" then (false, s')
      else (false, s)
  | [] => (false, [])
  end.

(** [int(s)] for a string, base ten. *)
Definition int_of_str (s : string) : result Z :=
  match numeral_text s with
  | Some text =>
      let '(neg, body) := split_sign (strip text) in
      match digits_us false body with
      | Some (d :: ds, []) =>
          if Z.of_nat (List.length (d :: ds)) <=? max_str_digits
          then Ok (cond_Zopp neg (Z_of_digits (d :: ds)))
          else Raise ValueError
      | _ => Raise ValueError
      end
  | None => Raise ValueError
  end.

Definition lower (c : ascii) : ascii :=
  let n := nat_of_ascii c in
  if (Nat.leb 65 n && Nat.leb n 90)%bool then ascii_of_nat (n + 32) else c.

Definition lower_string (s : list ascii) : string :=
  string_of_list_ascii (map lower s).

(** The exponent part of a decimal numeral: empty, or [e], an optional
    sign and at least one digit. *)
Definition exponent_of (s : list ascii) : option Z :=
  match s with
  | [] => Some 0
  | c :: s' =>
      if Ascii.eqb (lower c) "e" then
        let '(neg, body) := split_sign s' in
        match digits_us false body with
        | Some (d :: ds, []) => Some (cond_Zopp neg (Z_of_digits (d :: ds)))
        | _ => None
        end
      else None
  end.

(** [float] on the ASCII text of a numeral: [inf], [infinity] and [nan]
    in any case, or a decimal numeral with at least one digit in its
    mantissa. *)
Definition float_of_text (text : list ascii) : result spec_float :=
  let '(neg, body) := split_sign (strip text) in
  let word := lower_string body in
  if String.eqb word "inf" || String.eqb word "infinity" then Ok (S754_infinity neg)
  else if String.eqb word "nan" then Ok S754_nan
  else
    match digits_us false body with
    | Some (ip, r) =>
        let frac :=
          match r with
          | c :: r' =>
              if Ascii.eqb c "." then
                match digits_us false r' with
                | Some (fp, r'') => Some (fp, r'')
                | None => None
                end
              else Some ([], r)
          | [] => Some ([], [])
          end in
        match frac with
        | Some (fp, r') =>
            match (ip ++ fp)%list, exponent_of r' with
            | _ :: _, Some ex =>
                Ok (float_of_decimal neg (Z_of_digits (ip ++ fp)%list)
                      (ex - Z.of_nat (List.length fp)))
            | _, _ => Raise ValueError
            end
        | None => Raise ValueError
        end
    | None => Raise ValueError
    end.

(** [float(s)] for a string. *)
Definition float_of_str (s : string) : result spec_float :=
  match numeral_text s with
  | Some text => float_of_text text
  | None => Raise ValueError
  end.

(** The builtin [int(x)]. *)
Definition py_int (x : pyval) : result Z :=
  match x with
  | PyInt z => Ok z
  | PyBool b => Ok (if b then 1 else 0)
  | PyFloat f => int_of_float f
  | PyStr s => int_of_str s
  | PyNone | PyList _ | PyDict _ => Raise TypeError
  end.

(** The builtin [float(x)]. *)
Definition py_float (x : pyval) : result spec_float :=
  match x with
  | PyFloat f => Ok f
  | PyInt z => float_of_int z
  | PyBool b => Ok (if b then float_of_decimal false 1 0 else S754_zero false)
  | PyStr s => float_of_str s
  | PyNone | PyList _ | PyDict _ => Raise TypeError
  end.

End Py.
Export Py.

(** ** The JSON decoder

    [json.loads] belongs to the Python standard library, not to the
    repository; [json_loads] follows its documented behaviour on text:
    blanks around tokens, objects (a repeated key keeps its last value),
    arrays, strings with the escapes of the JSON grammar (control
    characters are refused), integers, decimal numerals read as [float],
    and the constants [true], [false], [null], [NaN], [Infinity] and
    [-Infinity]. The decoder reads the text from left to right and stops
    at the first thing it cannot accept: malformed text raises
    [JSONDecodeError], and an integer numeral with more digits than [int]
    converts raises [ValueError] when the decoder reaches it where a
    value is expected. The interpreter's limit on nesting depth depends
    on the call stack at the time of the call and is not represented.

    The decoder is a scanner, which is a finite-state machine over the
    characters, followed by a parser that keeps the open containers on an
    explicit stack; both are structurally recursive. The scanner marks
    the place where the text stops being made of tokens, so that the
    parser meets the problems of a text in the order of the text. *)

Module Json.

(** [TLong] is an integer numeral with more digits than [int] converts;
    [TBad] marks the place where the text stops being made of tokens. *)
Inductive token : Type :=
| TLBrace | TRBrace | TLBrack | TRBrack | TColon | TComma
| TString (s : string)
| TAtom (v : pyval)
| TLong
| TBad.

(** What a string literal contributes: a character copied from the text,
    or the 16-bit unit of a [\uXXXX] escape. *)
Inductive item : Type :=
| Lit (c : ascii)
| Unit16 (u : Z).

Inductive nstate : Type :=
| NMinus | NZero | NInt | NDot | NFrac | NE | NESign | NExp.

Inductive mode : Type :=
| Idle
| InStr (acc : list item)
| InEsc (acc : list item)
| InHex (acc : list item) (todo : nat) (u : Z)
| InWord (rest : string) (v : pyval)
| InNum (st : nstate) (neg : bool) (ip fp : list Z) (eneg : bool) (ex : list Z).

Definition byte (z : Z) : ascii := ascii_of_N (Z.to_N z).

Definition dquote : ascii := "034"%char.
Definition backslash : ascii := "092"%char.

Definition utf8 (cp : Z) : list ascii :=
  if cp <? 128 then [byte cp]
  else if cp <? 2048 then [byte (192 + cp / 64); byte (128 + cp mod 64)]
  else if cp <? 65536 then
    [byte (224 + cp / 4096); byte (128 + (cp / 64) mod 64); byte (128 + cp mod 64)]
  else
    [byte (240 + cp / 262144); byte (128 + (cp / 4096) mod 64);
     byte (128 + (cp / 64) mod 64); byte (128 + cp mod 64)].

Definition is_high (u : Z) : bool := (55296 <=? u) && (u <=? 56319).
Definition is_low (u : Z) : bool := (56320 <=? u) && (u <=? 57343).

(** A high surrogate escape directly followed by a low surrogate escape
    is one character. *)
Fixpoint decode_items (l : list item) : list ascii :=
  match l with
  | [] => []
  | Lit c :: l' => c :: decode_items l'
  | Unit16 hi :: l' =>
      match l' with
      | Unit16 lo :: l'' =>
          if is_high hi && is_low lo
          then (utf8 (65536 + (hi - 55296) * 1024 + (lo - 56320)) ++ decode_items l'')%list
          else (utf8 hi ++ decode_items l')%list
      | _ => (utf8 hi ++ decode_items l')%list
      end
  end.

Definition string_token (acc : list item) : token :=
  TString (string_of_list_ascii (decode_items (rev acc))).

Definition hex_of (c : ascii) : option Z :=
  let n := Z.of_nat (nat_of_ascii c) in
  if (48 <=? n) && (n <=? 57) then Some (n - 48)
  else if (65 <=? n) && (n <=? 70) then Some (n - 55)
  else if (97 <=? n) && (n <=? 102) then Some (n - 87)
  else None.

Definition escape_of (c : ascii) : option ascii :=
  if Ascii.eqb c dquote then Some c
  else if Ascii.eqb c backslash then Some c
  else if Ascii.eqb c "/" then Some c
  else if Ascii.eqb c "b" then Some (byte 8)
  else if Ascii.eqb c "f" then Some (byte 12)
  else if Ascii.eqb c "n" then Some (byte 10)
  else if Ascii.eqb c "r" then Some (byte 13)
  else if Ascii.eqb c "t" then Some (byte 9)
  else None.

Definition is_blank (c : ascii) : bool :=
  Ascii.eqb c " " || Ascii.eqb c (byte 9) || Ascii.eqb c (byte 10) || Ascii.eqb c (byte 13).

(** An integer numeral is converted by [int]. *)
Definition int_token (neg : bool) (ip : list Z) : token :=
  if Z.of_nat (List.length ip) <=? max_str_digits
  then TAtom (PyInt (cond_Zopp neg (Z_of_digits ip)))
  else TLong.

Definition float_token (neg : bool) (ip fp : list Z) (eneg : bool) (ex : list Z)
    : token :=
  TAtom (PyFloat
    (float_of_decimal neg (Z_of_digits (ip ++ fp)%list)
       (cond_Zopp eneg (Z_of_digits ex) - Z.of_nat (List.length fp)))).

(** The value of a finished numeral, when the machine stopped in an
    accepting state. *)
Definition number_token (st : nstate) (neg : bool) (ip fp : list Z)
    (eneg : bool) (ex : list Z) : option token :=
  match st with
  | NZero | NInt => Some (int_token neg ip)
  | NFrac | NExp => Some (float_token neg ip fp eneg ex)
  | NMinus | NDot | NE | NESign => None
  end.

(** A numeral that breaks off after its dot or its exponent mark: the
    decoder has taken the numeral before that character, and the
    character itself is where the text fails. *)
Definition matched_prefix (st : nstate) (neg : bool) (ip fp : list Z) : list token :=
  match st with
  | NDot => [int_token neg ip]
  | NE | NESign =>
      match fp with
      | [] => [int_token neg ip]
      | _ :: _ => [float_token neg ip fp false []]
      end
  | _ => []
  end.

Definition idle_step (c : ascii) : option (list token * mode) :=
  if is_blank c then Some ([], Idle)
  else if Ascii.eqb c "{" then Some ([TLBrace], Idle)
  else if Ascii.eqb c "}" then Some ([TRBrace], Idle)
  else if Ascii.eqb c "[" then Some ([TLBrack], Idle)
  else if Ascii.eqb c "]" then Some ([TRBrack], Idle)
  else if Ascii.eqb c ":" then Some ([TColon], Idle)
  else if Ascii.eqb c "," then Some ([TComma], Idle)
  else if Ascii.eqb c dquote then Some ([], InStr [])
  else if Ascii.eqb c "-" then Some ([], InNum NMinus true [] [] false [])
  else if Ascii.eqb c "0" then Some ([], InNum NZero false [0] [] false [])
  else if Ascii.eqb c "t" then Some ([], InWord "rue" (PyBool true))
  else if Ascii.eqb c "f" then Some ([], InWord "alse" (PyBool false))
  else if Ascii.eqb c "n" then Some ([], InWord "ull" PyNone)
  else if Ascii.eqb c "N" then Some ([], InWord "aN" (PyFloat S754_nan))
  else if Ascii.eqb c "I" then Some ([], InWord "nfinity" (PyFloat (S754_infinity false)))
  else
    match digit_of c with
    | Some d => Some ([], InNum NInt false [d] [] false [])
    | None => None
    end.

(** A numeral ends at the first character that cannot extend it; that
    character is then read afresh. *)
Definition end_number (st : nstate) (neg : bool) (ip fp : list Z)
    (eneg : bool) (ex : list Z) (c : ascii) : option (list token * mode) :=
  match number_token st neg ip fp eneg ex, idle_step c with
  | Some t, Some (ts, m) => Some (t :: ts, m)
  | _, _ => None
  end.

Definition is_e (c : ascii) : bool := Ascii.eqb c "e" || Ascii.eqb c "E".

Definition num_step (st : nstate) (neg : bool) (ip fp : list Z)
    (eneg : bool) (ex : list Z) (c : ascii) : option (list token * mode) :=
  match st with
  | NMinus =>
      if Ascii.eqb c "I" then Some ([], InWord "nfinity" (PyFloat (S754_infinity true)))
      else if Ascii.eqb c "0" then Some ([], InNum NZero neg [0] [] false [])
      else match digit_of c with
           | Some d => Some ([], InNum NInt neg [d] [] false [])
           | None => None
           end
  | NZero =>
      if Ascii.eqb c "." then Some ([], InNum NDot neg ip fp eneg ex)
      else if is_e c then Some ([], InNum NE neg ip fp eneg ex)
      else end_number st neg ip fp eneg ex c
  | NInt =>
      match digit_of c with
      | Some d => Some ([], InNum NInt neg (ip ++ [d])%list fp eneg ex)
      | None =>
          if Ascii.eqb c "." then Some ([], InNum NDot neg ip fp eneg ex)
          else if is_e c then Some ([], InNum NE neg ip fp eneg ex)
          else end_number st neg ip fp eneg ex c
      end
  | NDot =>
      match digit_of c with
      | Some d => Some ([], InNum NFrac neg ip (fp ++ [d])%list eneg ex)
      | None => None
      end
  | NFrac =>
      match digit_of c with
      | Some d => Some ([], InNum NFrac neg ip (fp ++ [d])%list eneg ex)
      | None =>
          if is_e c then Some ([], InNum NE neg ip fp eneg ex)
          else end_number st neg ip fp eneg ex c
      end
  | NE =>
      if Ascii.eqb c "+" then Some ([], InNum NESign neg ip fp false ex)
      else if Ascii.eqb c "-" then Some ([], InNum NESign neg ip fp true ex)
      else match digit_of c with
           | Some d => Some ([], InNum NExp neg ip fp eneg (ex ++ [d])%list)
           | None => None
           end
  | NESign =>
      match digit_of c with
      | Some d => Some ([], InNum NExp neg ip fp eneg (ex ++ [d])%list)
      | None => None
      end
  | NExp =>
      match digit_of c with
      | Some d => Some ([], InNum NExp neg ip fp eneg (ex ++ [d])%list)
      | None => end_number st neg ip fp eneg ex c
      end
  end.

Definition step (m : mode) (c : ascii) : option (list token * mode) :=
  match m with
  | Idle => idle_step c
  | InStr acc =>
      if Ascii.eqb c dquote then Some ([string_token acc], Idle)
      else if Ascii.eqb c backslash then Some ([], InEsc acc)
      else if Z.of_nat (nat_of_ascii c) <? 32 then None
      else Some ([], InStr (Lit c :: acc))
  | InEsc acc =>
      if Ascii.eqb c "u" then Some ([], InHex acc 4 0)
      else match escape_of c with
           | Some c' => Some ([], InStr (Lit c' :: acc))
           | None => None
           end
  | InHex acc todo u =>
      match hex_of c, todo with
      | Some h, S O => Some ([], InStr (Unit16 (16 * u + h) :: acc))
      | Some h, S n => Some ([], InHex acc n (16 * u + h))
      | _, _ => None
      end
  | InWord rest v =>
      match rest with
      | String c' rest' =>
          if Ascii.eqb c c' then
            match rest' with
            | EmptyString => Some ([TAtom v], Idle)
            | _ => Some ([], InWord rest' v)
            end
          else None
      | EmptyString => None
      end
  | InNum st neg ip fp eneg ex => num_step st neg ip fp eneg ex c
  end.

(** The tokens still to come out of mode [m] when the text fails at the
    next character. *)
Definition pending (m : mode) : list token :=
  match m with
  | InNum st neg ip fp eneg ex =>
      match number_token st neg ip fp eneg ex with
      | Some t => [t]
      | None => matched_prefix st neg ip fp
      end
  | _ => []
  end.

(** The end of the text. *)
Definition finish (m : mode) : list token :=
  match m with
  | Idle => []
  | InNum st neg ip fp eneg ex =>
      match number_token st neg ip fp eneg ex with
      | Some t => [t]
      | None => (matched_prefix st neg ip fp ++ [TBad])%list
      end
  | _ => [TBad]
  end.

Fixpoint scan (m : mode) (s : string) : list token :=
  match s with
  | EmptyString => finish m
  | String c s' =>
      match step m c with
      | Some (ts, m') => (ts ++ scan m' s')%list
      | None => (pending m ++ [TBad])%list
      end
  end.

(** A container that is still open. An object frame remembers the key
    whose value is being read. *)
Inductive frame : Type :=
| InArray (done : list pyval)
| InObject (d : dict) (key : string).

Inductive pstate : Type :=
| PValue (stk : list frame)
| PArrStart (stk : list frame)
| PObjStart (stk : list frame)
| PKey (d : dict) (stk : list frame)
| PColon (d : dict) (key : string) (stk : list frame)
| PArrNext (done : list pyval) (stk : list frame)
| PObjNext (d : dict) (stk : list frame)
| PDone (v : pyval).

(** A finished value goes to the innermost open container. *)
Definition deliver (v : pyval) (stk : list frame) : pstate :=
  match stk with
  | [] => PDone v
  | InArray done :: stk' => PArrNext (v :: done) stk'
  | InObject d key :: stk' => PObjNext (dict_set d key v) stk'
  end.

Definition value_step (stk : list frame) (t : token) : option pstate :=
  match t with
  | TAtom v => Some (deliver v stk)
  | TString s => Some (deliver (PyStr s) stk)
  | TLBrack => Some (PArrStart stk)
  | TLBrace => Some (PObjStart stk)
  | _ => None
  end.

Definition pstep (p : pstate) (t : token) : option pstate :=
  match p with
  | PValue stk => value_step stk t
  | PArrStart stk =>
      match t with
      | TRBrack => Some (deliver (PyList []) stk)
      | _ => value_step (InArray [] :: stk) t
      end
  | PObjStart stk =>
      match t with
      | TRBrace => Some (deliver (PyDict []) stk)
      | TString k => Some (PColon [] k stk)
      | _ => None
      end
  | PKey d stk =>
      match t with
      | TString k => Some (PColon d k stk)
      | _ => None
      end
  | PColon d k stk =>
      match t with
      | TColon => Some (PValue (InObject d k :: stk))
      | _ => None
      end
  | PArrNext done stk =>
      match t with
      | TComma => Some (PValue (InArray done :: stk))
      | TRBrack => Some (deliver (PyList (rev done)) stk)
      | _ => None
      end
  | PObjNext d stk =>
      match t with
      | TComma => Some (PKey d stk)
      | TRBrace => Some (deliver (PyDict d) stk)
      | _ => None
      end
  | PDone _ => None
  end.

(** The parser is at a place where a value may start. *)
Definition expects_value (p : pstate) : bool :=
  match p with
  | PValue _ | PArrStart _ => true
  | _ => false
  end.

(** The error raised at a token that the parser cannot take. *)
Definition refusal (p : pstate) (t : token) : exn :=
  match t with
  | TLong => if expects_value p then ValueError else JSONDecodeError
  | _ => JSONDecodeError
  end.

Fixpoint parse (p : pstate) (ts : list token) : result pstate :=
  match ts with
  | [] => Ok p
  | t :: ts' =>
      match pstep p t with
      | Some p' => parse p' ts'
      | None => Raise (refusal p t)
      end
  end.

Definition json_loads (s : string) : result pyval :=
  match parse (PValue []) (scan Idle s) with
  | Ok (PDone v) => Ok v
  | Ok _ => Raise JSONDecodeError
  | Raise e => Raise e
  end.

End Json.
Export Json.

(** ** The application *)

Module App.

(** *** Requests and responses *)

Inductive http_method : Type := GET | POST | OPTIONS.

(** An uploaded file ([werkzeug]'s [FileStorage]): [content] is what
    [file.read()] returns. *)
Record file : Type := {
  filename : string;
  mimetype : string;
  content : string
}.

(** The parts of [flask.request] that the handlers read. [args] and
    [files] are multi-dictionaries; [json] is the parsed body, or the
    exception that reading it raises. *)
Record request : Type := {
  method : http_method;
  args : list (string * string);
  files : list (string * file);
  json : result pyval
}.

(** A response body: the empty string, [jsonify(v)], or
    [jsonify({'error': prefix + str(e)})] for a caught exception [e]. *)
Inductive body : Type :=
| Empty
| Json (v : pyval)
| JsonError (prefix : string) (e : exn).

Record response : Type := {
  payload : body;
  status : Z
}.

(** [request.args.get(k)] *)
Fixpoint args_get (a : list (string * string)) (k : string) : option string :=
  match a with
  | [] => None
  | (k', v) :: a' => if String.eqb k k' then Some v else args_get a' k
  end.

(** [k in request.files] *)
Definition files_contains (fs : list (string * file)) (k : string) : bool :=
  existsb (fun kf => String.eqb k (fst kf)) fs.

(** [request.files.getlist(k)] *)
Definition files_getlist (fs : list (string * file)) (k : string) : list file :=
  map snd (filter (fun kf => String.eqb k (fst kf)) fs).

(** *** The store and the outside world *)

(** A row of [table_name]: the identifier and the nine data columns in the
    order of [columns]. *)
Record row : Type := {
  Entry_ID : Z;
  cells : list pyval
}.

Definition columns : list string :=
  ["DATE"; "PARTICULARS"; "Voucher_BillNo"; "RECEIPTS_Quantity"; "RECEIPTS_Amount";
   "ISSUED_Quantity"; "ISSUED_Amount"; "BALANCE_Quantity"; "BALANCE_Amount"].

Definition headers : list string := "Entry_ID" :: columns.

(** Calls that leave the process. *)
Inductive event : Type :=
| Generate (f : file)
| Connect
| Insert (params : list pyval)
| Update (params : list pyval)
| Select
| Commit
| SheetsGet (id range : string)
| SheetsCreate (title : string)
| SheetsUpdate (id : string) (values : list (list pyval)).

(** [table_name] holds the committed rows; [journal] lists the external
    calls made so far, newest first; [ticks] counts readings of the
    clock. *)
Record world : Type := {
  table_name : list row;
  journal : list event;
  ticks : nat
}.

(** The collaborators. Every answer may depend on the calls made before.
    The declaration of [table_name] is not part of the repository, so the
    way the database converts statement parameters to its column types
    and assigns identifiers is left to [db_insert] and [db_update]:
    [db_insert], given the rows of the transaction and the parameters,
    returns the new row as stored and the row that [cur.fetchone()] then
    yields; [db_update] returns the cells as stored and the test that
    [WHERE Entry_ID = %s] applies to a row's identifier. [sheets_create]
    returns the [spreadsheetId] of the new spreadsheet and
    [generate_content] the [text] of the model's response. *)
Record backend : Type := {
  strftime_now : nat -> string -> string;
  generate_content : list event -> file -> result string;
  db_connect : list event -> result unit;
  db_insert : list event -> list row -> list pyval -> result (row * pyval);
  db_update : list event -> list pyval -> result ((Z -> bool) * list pyval);
  db_select : list event -> result unit;
  db_commit : list event -> result unit;
  sheets_get : list event -> string -> string -> result pyval;
  sheets_create : list event -> string -> result string;
  sheets_update : list event -> string -> list (list pyval) -> result unit
}.

(** *** The monad of handler code *)

Definition M (A : Type) : Type := world -> result A * world.

Definition ret {A} (a : A) : M A := fun w => (Ok a, w).

Definition bind {A B} (m : M A) (k : A -> M B) : M B :=
  fun w =>
    match m w with
    | (Ok a, w') => k a w'
    | (Raise e, w') => (Raise e, w')
    end.

Definition lift {A} (r : result A) : M A := fun w => (r, w).

Declare Scope handler_scope.
Delimit Scope handler_scope with handler.
Notation "x <- m ;; k" := (bind m (fun x => k))
  (at level 61, m at next level, right associativity) : handler_scope.
Notation "' p <- m ;; k" := (bind m (fun x => match x with p => k end))
  (at level 61, p pattern, m at next level, right associativity) : handler_scope.
Open Scope handler_scope.

Definition log (ev : event) (w : world) : world :=
  {| table_name := table_name w; journal := ev :: journal w; ticks := ticks w |}.

(** An external call: the collaborator answers from the history, and the
    call is recorded whatever the answer. *)
Definition call {A} (ev : event) (answer : list event -> result A) : M A :=
  fun w => (answer (journal w), log ev w).

(** [for x in l: ...] collecting one result per element. *)
Fixpoint for_each {A B} (f : A -> M B) (l : list A) : M (list B) :=
  match l with
  | [] => ret []
  | x :: l' =>
      y <- f x ;;
      ys <- for_each f l' ;;
      ret (y :: ys)
  end.

(** [try: ... except Exception as e: return handler(e)] around a whole
    route. *)
Definition try_except (m : M response) (handler : exn -> response)
    : world -> response * world :=
  fun w =>
    match m w with
    | (Ok r, w') => (r, w')
    | (Raise e, w') => (handler e, w')
    end.

Definition json_response (d : dict) (code : Z) : response :=
  {| payload := Json (PyDict d); status := code |}.

Definition error_response (prefix : string) (e : exn) : response :=
  {| payload := JsonError prefix e; status := 500 |}.

Section Handlers.

Variable B : backend.

(** [datetime.now().strftime(fmt)] *)
Definition now (fmt : string) : M string :=
  fun w =>
    (Ok (strftime_now B (ticks w) fmt),
     {| table_name := table_name w; journal := journal w; ticks := S (ticks w) |}).

(** [get_db_connection()] followed by [conn.cursor(...)]: the transaction
    starts from the committed rows. *)
Definition get_db_connection : M (list row) :=
  _ <- call Connect (db_connect B) ;;
  fun w => (Ok (table_name w), w).

(** [conn.commit()] *)
Definition commit (pending : list row) : M unit :=
  _ <- call Commit (db_commit B) ;;
  fun w =>
    (Ok tt, {| table_name := pending; journal := journal w; ticks := ticks w |}).

(** The [INSERT ... RETURNING Entry_ID] statement of both upload routes,
    with [entry['Entry_ID'] = cur.fetchone()['Entry_ID']]. *)
Definition execute_insert (pending : list row) (entry : dict) : M (list row * dict) :=
  params <- lift (rmap (py_getitem (PyDict entry)) columns) ;;
  ' (stored, fetched) <- call (Insert params) (fun h => db_insert B h pending params) ;;
  id <- lift (py_getitem fetched "Entry_ID") ;;
  ret ((pending ++ [stored])%list, dict_set entry "Entry_ID" id).

(** [for entry in data_entries: cur.execute(...)] *)
Fixpoint insert_all (pending : list row) (data_entries : list dict)
    : M (list row * list dict) :=
  match data_entries with
  | [] => ret (pending, [])
  | entry :: rest =>
      ' (pending1, entry1) <- execute_insert pending entry ;;
      ' (pending2, rest1) <- insert_all pending1 rest ;;
      ret (pending2, entry1 :: rest1)
  end.

(** **** [/get-sheet-data] *)

Definition get_sheet_data (req : request) : world -> response * world :=
  try_except
    (let spreadsheet_id := args_get (args req) "spreadsheet_id" in
     let range_name :=
       match args_get (args req) "range" with
       | Some r => r
       | None => "Sheet1!A1:J"
       end in
     match spreadsheet_id with
     | None | Some EmptyString =>
         ret (json_response [("error", PyStr "Missing spreadsheet_id")] 400)
     | Some id =>
         result <- call (SheetsGet id range_name)
                     (fun h => sheets_get B h id range_name) ;;
         values <- lift (py_get result "values" (PyList [])) ;;
         ret (json_response [("values", values)] 200)
     end)
    (error_response EmptyString).

(** **** [/upload] *)

(** The entry of lines 97-107, for the date just read. *)
Definition upload_entry (date : string) (gemini_result : pyval) : result dict :=
  rbind (py_get gemini_result "description" (PyStr "Processed File")) (fun particulars =>
  rbind (py_get gemini_result "bill_no" (PyStr "N/A")) (fun bill_no =>
  rbind (py_get gemini_result "quantity" (PyInt 0)) (fun receipts_quantity =>
  rbind (rbind (py_get gemini_result "amount" (PyFloat (S754_zero false))) py_float)
    (fun receipts_amount =>
  rbind (py_get gemini_result "quantity" (PyInt 0)) (fun balance_quantity =>
  rbind (rbind (py_get gemini_result "amount" (PyFloat (S754_zero false))) py_float)
    (fun balance_amount =>
  Ok [("DATE", PyStr date);
      ("PARTICULARS", particulars);
      ("Voucher_BillNo", bill_no);
      ("RECEIPTS_Quantity", receipts_quantity);
      ("RECEIPTS_Amount", PyFloat receipts_amount);
      ("ISSUED_Quantity", PyInt 0);
      ("ISSUED_Amount", PyFloat (S754_zero false));
      ("BALANCE_Quantity", balance_quantity);
      ("BALANCE_Amount", PyFloat balance_amount)])))))).

(** The body of the first loop: [gemini_result = {}]. *)
Definition upload_file (f : file) : M dict :=
  let gemini_result := PyDict [] in
  date <- now "%Y-%m-%d" ;;
  lift (upload_entry date gemini_result).

Definition no_valid_files (fs : list file) : bool :=
  match fs with
  | [] => true
  | _ => forallb (fun f => String.eqb (filename f) EmptyString) fs
  end.

Definition upload_files (req : request) : world -> response * world :=
  match method req with
  | OPTIONS => fun w => ({| payload := Empty; status := 200 |}, w)
  | _ =>
    try_except
      (if negb (files_contains (files req) "files") then
         ret (json_response [("error", PyStr "No files uploaded")] 400)
       else
         let fs := files_getlist (files req) "files" in
         if no_valid_files fs then
           ret (json_response [("error", PyStr "No valid files uploaded")] 400)
         else
           data_entries <- for_each upload_file fs ;;
           conn <- get_db_connection ;;
           ' (pending, _) <- insert_all conn data_entries ;;
           _ <- commit pending ;;
           ret (json_response [("message", PyStr "Files processed")] 200))
      (error_response EmptyString)
  end.

(** **** [/upload-flash] *)

(** Lines 160-162: the text is decoded as JSON when it starts with an
    opening brace, and is taken as the description otherwise. *)
Definition parse_gemini_result (gemini_result : string) : result pyval :=
  if startswith gemini_result "{" then json_loads gemini_result
  else Ok (PyDict [("description", PyStr gemini_result);
                   ("bill_no", PyStr "N/A");
                   ("quantity", PyInt 0);
                   ("amount", PyFloat (S754_zero false))]).

(** The entry of lines 163-173, for the date just read. *)
Definition flash_entry (date : string) (gemini_data : pyval) : result dict :=
  rbind (py_get gemini_data "description" (PyStr "Processed File")) (fun particulars =>
  rbind (py_get gemini_data "bill_no" (PyStr "N/A")) (fun bill_no =>
  rbind (rbind (py_get gemini_data "quantity" (PyInt 0)) py_int) (fun receipts_quantity =>
  rbind (rbind (py_get gemini_data "amount" (PyFloat (S754_zero false))) py_float)
    (fun receipts_amount =>
  rbind (rbind (py_get gemini_data "quantity" (PyInt 0)) py_int) (fun balance_quantity =>
  rbind (rbind (py_get gemini_data "amount" (PyFloat (S754_zero false))) py_float)
    (fun balance_amount =>
  Ok [("DATE", PyStr date);
      ("PARTICULARS", particulars);
      ("Voucher_BillNo", bill_no);
      ("RECEIPTS_Quantity", PyInt receipts_quantity);
      ("RECEIPTS_Amount", PyFloat receipts_amount);
      ("ISSUED_Quantity", PyInt 0);
      ("ISSUED_Amount", PyFloat (S754_zero false));
      ("BALANCE_Quantity", PyInt balance_quantity);
      ("BALANCE_Amount", PyFloat balance_amount)])))))).

(** The body of the first loop (lines 152-174). *)
Definition flash_file (f : file) : M dict :=
  gemini_result <- call (Generate f) (fun h => generate_content B h f) ;;
  gemini_data <- lift (parse_gemini_result gemini_result) ;;
  date <- now "%Y-%m-%d" ;;
  lift (flash_entry date gemini_data).

(** One spreadsheet line per record: [[e['Entry_ID'], e['DATE'], ...]]. *)
Definition sheet_line (e : pyval) : result (list pyval) :=
  rmap (py_getitem e) headers.

Definition sheet_values (records : list pyval) : result (list (list pyval)) :=
  rbind (rmap sheet_line records) (fun lines => Ok (map PyStr headers :: lines)).

(** Lines 194-210. *)
Definition publish (title_prefix : string) (records : list pyval) : M string :=
  stamp <- now "%Y%m%d_%H%M%S" ;;
  spreadsheet_id <- call (SheetsCreate (title_prefix ++ stamp))
                      (fun h => sheets_create B h (title_prefix ++ stamp)) ;;
  values <- lift (sheet_values records) ;;
  _ <- call (SheetsUpdate spreadsheet_id values)
         (fun h => sheets_update B h spreadsheet_id values) ;;
  ret ("https://docs.google.com/spreadsheets/d/" ++ spreadsheet_id).

Definition upload_files_flash (req : request) : world -> response * world :=
  match method req with
  | OPTIONS => fun w => ({| payload := Empty; status := 200 |}, w)
  | _ =>
    try_except
      (if negb (files_contains (files req) "files") then
         ret (json_response [("error", PyStr "No files uploaded")] 400)
       else
         let fs := files_getlist (files req) "files" in
         if no_valid_files fs then
           ret (json_response [("error", PyStr "No valid files uploaded")] 400)
         else
           data_entries <- for_each flash_file fs ;;
           conn <- get_db_connection ;;
           ' (pending, data_entries) <- insert_all conn data_entries ;;
           _ <- commit pending ;;
           sheet_url <- publish "Upload_" (map PyDict data_entries) ;;
           ret (json_response
                  [("message", PyStr "Files processed and new spreadsheet created");
                   ("sheet_url", PyStr sheet_url)] 200))
      (error_response "Failed to process files: ")
  end.

(** **** [/results] *)

(** The name under which PostgreSQL reports a column. The statements of
    [app.py] write every column name without quotes, and the database
    folds such an identifier to lower case. *)
Definition column_name (written : string) : string :=
  lower_string (list_ascii_of_string written).

(** A row as [RealDictCursor] returns it: a dictionary keyed by the
    column names that the database reports. *)
Definition row_dict (r : row) : pyval :=
  PyDict ((column_name "Entry_ID", PyInt (Entry_ID r))
          :: combine (map column_name columns) (cells r)).

(** [ORDER BY Entry_ID]: rows by ascending identifier. *)
Fixpoint insert_by_id (r : row) (l : list row) : list row :=
  match l with
  | [] => [r]
  | r' :: l' =>
      if Entry_ID r <=? Entry_ID r' then r :: l else r' :: insert_by_id r l'
  end.

Definition order_by_id (l : list row) : list row :=
  fold_right insert_by_id [] l.

Definition get_results (req : request) : world -> response * world :=
  try_except
    (conn <- get_db_connection ;;
     _ <- call Select (db_select B) ;;
     let data := order_by_id conn in
     ret {| payload := Json (PyList (map row_dict data)); status := 200 |})
    (error_response EmptyString).

(** **** [/update] *)

(** The parameter tuple of the [UPDATE] statement. *)
Definition update_params (update : pyval) : result (list pyval) :=
  rmap (py_getitem update) (columns ++ ["Entry_ID"])%list.

Definition set_cells (hit : Z -> bool) (stored : list pyval) (r : row) : row :=
  if hit (Entry_ID r) then {| Entry_ID := Entry_ID r; cells := stored |} else r.

Definition execute_update (pending : list row) (update : pyval) : M (list row) :=
  params <- lift (update_params update) ;;
  ' (hit, stored) <- call (Update params) (fun h => db_update B h params) ;;
  ret (map (set_cells hit stored) pending).

(** [for update in updates: cur.execute(...)] *)
Fixpoint apply_updates (pending : list row) (updates : list pyval) : M (list row) :=
  match updates with
  | [] => ret pending
  | update :: rest =>
      pending1 <- execute_update pending update ;;
      apply_updates pending1 rest
  end.

Definition update_data (req : request) : world -> response * world :=
  try_except
    (updates <- lift (json req) ;;
     conn <- get_db_connection ;;
     items <- lift (py_iter updates) ;;
     pending <- apply_updates conn items ;;
     _ <- commit pending ;;
     ret (json_response [("message", PyStr "Data updated")] 200))
    (error_response EmptyString).

(** **** [/export-to-sheet] *)

Definition export_to_sheet (req : request) : world -> response * world :=
  try_except
    (data <- lift (json req) ;;
     stamp <- now "%Y%m%d_%H%M%S" ;;
     spreadsheet_id <- call (SheetsCreate ("Exported_Results_" ++ stamp))
                         (fun h => sheets_create B h ("Exported_Results_" ++ stamp)) ;;
     records <- lift (py_iter data) ;;
     values <- lift (sheet_values records) ;;
     _ <- call (SheetsUpdate spreadsheet_id values)
            (fun h => sheets_update B h spreadsheet_id values) ;;
     ret (json_response
            [("message", PyStr "Sheet created");
             ("link", PyStr ("https://docs.google.com/spreadsheets/d/" ++ spreadsheet_id))]
            200))
    (error_response EmptyString).

End Handlers.

End App.
Export App.

(** ** Notions used to state the properties *)

(** *** The extraction policy *)

(** The float [0.0]. *)
Definition zero_float : spec_float := S754_zero false.

(** The binary64 number twelve and a half. *)
Definition float_12_5 : spec_float := S754_finite false 7036874417766400 (-49).

(** [quoted s] is [s] between double quotes. *)
Definition quoted (s : string) : string :=
  String dquote (s ++ String dquote EmptyString).

(** The JSON text of the pen example. *)
Definition pen_text : string :=
  "{" ++ quoted "description" ++ ":" ++ quoted "Pen" ++ ","
      ++ quoted "bill_no" ++ ":" ++ quoted "B1" ++ ","
      ++ quoted "quantity" ++ ":5,"
      ++ quoted "amount" ++ ":12.5}".

(** The four fields the extractor hands to the entry. *)
Record extracted : Type := {
  description : pyval;
  billNo : pyval;
  quantity : pyval;
  amount : pyval
}.

(** [d.get(k, default)] on a dictionary. *)
Definition field (d : dict) (k : string) (default : pyval) : pyval :=
  match lookup k d with
  | Some v => v
  | None => default
  end.

(** The parsing policy in the words of the specification: a text that
    begins with an opening brace is parsed as a JSON object whose four
    named fields are read, a missing one taking its default; any other
    text is the description, with defaults for the rest. *)
Definition spec_extract (text : string) : result extracted :=
  if startswith text "{" then
    rbind (json_loads text) (fun v =>
      match v with
      | PyDict d =>
          Ok {| description := field d "description" (PyStr "Processed File");
                billNo := field d "bill_no" (PyStr "N/A");
                quantity := field d "quantity" (PyInt 0);
                amount := field d "amount" (PyFloat zero_float) |}
      | _ => Raise AttributeError
      end)
  else
    Ok {| description := PyStr text;
          billNo := PyStr "N/A";
          quantity := PyInt 0;
          amount := PyFloat zero_float |}.

(** A freshly created ledger entry with the given receipts. *)
Definition new_entry (date : string) (particulars bill_no : pyval)
    (receipts_quantity : pyval) (receipts_amount : spec_float) : dict :=
  [("DATE", PyStr date);
   ("PARTICULARS", particulars);
   ("Voucher_BillNo", bill_no);
   ("RECEIPTS_Quantity", receipts_quantity);
   ("RECEIPTS_Amount", PyFloat receipts_amount);
   ("ISSUED_Quantity", PyInt 0);
   ("ISSUED_Amount", PyFloat zero_float);
   ("BALANCE_Quantity", receipts_quantity);
   ("BALANCE_Amount", PyFloat receipts_amount)].

(** What the upload-and-publish route does to one response text: lines
    160-173 for the date [date]. *)
Definition extract_entry (date text : string) : result dict :=
  rbind (parse_gemini_result text) (flash_entry date).

(** The entry made from extracted fields: quantity through [int], amount
    through [float]. *)
Definition entry_of_fields (date : string) (x : extracted) : result dict :=
  rbind (py_int (quantity x)) (fun q =>
  rbind (py_float (amount x)) (fun a =>
  Ok (new_entry date (description x) (billNo x) (PyInt q) a))).

(** *** Freshly created entries *)

(** The invariant of a ledger entry at creation. *)
Definition creation_invariant (entry : dict) : Prop :=
  (exists q, lookup "RECEIPTS_Quantity" entry = Some q /\
             lookup "BALANCE_Quantity" entry = Some q) /\
  (exists a, lookup "RECEIPTS_Amount" entry = Some a /\
             lookup "BALANCE_Amount" entry = Some a) /\
  lookup "ISSUED_Quantity" entry = Some (PyInt 0) /\
  lookup "ISSUED_Amount" entry = Some (PyFloat zero_float).

(** An entry as the first loop of either upload route builds it. *)
Definition fresh_entry (entry : dict) : Prop :=
  exists date particulars bill_no q a, entry = new_entry date particulars bill_no q a.

(** The parameters of the [INSERT] statement made from a freshly created
    entry, in the order of [columns]: the balance repeats the receipts
    and nothing is issued. *)
Definition fresh_params (params : list pyval) : Prop :=
  exists date particulars bill_no q a,
    params = [PyStr date; particulars; bill_no; q; PyFloat a;
              PyInt 0; PyFloat zero_float; q; PyFloat a].

(** An [INSERT], if the call is one, carries fresh parameters. *)
Definition insert_is_fresh (ev : event) : Prop :=
  match ev with
  | Insert params => fresh_params params
  | _ => True
  end.

(** *** The routes after their guards *)

(** The code of [/upload] after its two guards (lines 94-129). *)
Definition upload_steps (B : backend) (fs : list file) : M response :=
  data_entries <- for_each (upload_file B) fs ;;
  conn <- get_db_connection B ;;
  ' (pending, _) <- insert_all B conn data_entries ;;
  _ <- commit B pending ;;
  ret (json_response [("message", PyStr "Files processed")] 200).

(** The code of [/upload-flash] after its two guards (lines 149-216). *)
Definition flash_steps (B : backend) (fs : list file) : M response :=
  data_entries <- for_each (flash_file B) fs ;;
  conn <- get_db_connection B ;;
  ' (pending, data_entries) <- insert_all B conn data_entries ;;
  _ <- commit B pending ;;
  sheet_url <- publish B "Upload_" (map PyDict data_entries) ;;
  ret (json_response
         [("message", PyStr "Files processed and new spreadsheet created");
          ("sheet_url", PyStr sheet_url)] 200).

(** The answer of the [except] clause of [/upload-flash]. *)
Definition flash_error : exn -> response := error_response "Failed to process files: ".

(** The code of [/update] inside its [try] (lines 240-262). *)
Definition update_steps (B : backend) (req : request) : M response :=
  updates <- lift (json req) ;;
  conn <- get_db_connection B ;;
  items <- lift (py_iter updates) ;;
  pending <- apply_updates B conn items ;;
  _ <- commit B pending ;;
  ret (json_response [("message", PyStr "Data updated")] 200).

(** *** Calls and their traces *)

(** Kinds of calls. *)
Definition is_generate (ev : event) : bool :=
  match ev with Generate _ => true | _ => false end.

Definition is_insert (ev : event) : bool :=
  match ev with Insert _ => true | _ => false end.

Definition is_update (ev : event) : bool :=
  match ev with Update _ => true | _ => false end.

Definition is_publish (ev : event) : bool :=
  match ev with SheetsCreate _ | SheetsUpdate _ _ => true | _ => false end.

(** [quiet P m]: running [m] leaves the committed table alone and makes
    only external calls that satisfy [P]. *)
Definition quiet {A} (P : event -> Prop) (m : M A) : Prop :=
  forall w r w', m w = (r, w') ->
    table_name w' = table_name w /\
    exists evs, journal w' = (evs ++ journal w)%list /\ Forall P evs.

(** [logs P m]: the external calls that [m] makes all satisfy [P]. *)
Definition logs {A} (P : event -> Prop) (m : M A) : Prop :=
  forall w r w', m w = (r, w') ->
    exists evs, journal w' = (evs ++ journal w)%list /\ Forall P evs.

(** The world once [pending] is committed. *)
Definition publish_table (pending : list row) (w : world) : world :=
  {| table_name := pending; journal := journal w; ticks := ticks w |}.

(** Rows compared by identifier. *)
Definition id_le (a b : row) : Prop := Entry_ID a <= Entry_ID b.

(** *** The decoder inside an object *)

(** The open containers of the parser rest on an object. *)
Fixpoint bottom_obj (stk : list frame) : bool :=
  match stk with
  | [] => false
  | f :: stk' =>
      match stk' with
      | [] => match f with InObject _ _ => true | InArray _ => false end
      | _ :: _ => bottom_obj stk'
      end
  end.

(** The parser is inside a top-level object, or has finished one. *)
Definition rooted (p : pstate) : bool :=
  match p with
  | PValue stk | PArrStart stk | PArrNext _ stk => bottom_obj stk
  | PObjStart stk | PKey _ stk | PColon _ _ stk | PObjNext _ stk =>
      match stk with [] => true | _ :: _ => bottom_obj stk end
  | PDone (PyDict _) => true
  | PDone _ => false
  end.

(** *** A sample deployment *)

(** A sample deployment: the model always answers [text]; the database
    accepts every statement, numbers new rows after the largest
    identifier in sight and compares identifiers as integers; the
    spreadsheet backend works when [sheets_up] holds. *)
Definition sample_backend (text : string) (sheets_up : bool) : backend :=
  {| strftime_now := fun _ fmt =>
       if String.eqb fmt "%Y-%m-%d" then "2024-01-01" else "20240101_120000";
     generate_content := fun _ _ => Ok text;
     db_connect := fun _ => Ok tt;
     db_insert := fun _ pending params =>
       let id := 1 + fold_right Z.max 0 (map Entry_ID pending) in
       Ok ({| Entry_ID := id; cells := params |}, PyDict [("Entry_ID", PyInt id)]);
     db_update := fun _ params =>
       match nth 9 params PyNone with
       | PyInt z => Ok (Z.eqb z, firstn 9 params)
       | _ => Raise (ExternalError "invalid input syntax for type integer")
       end;
     db_select := fun _ => Ok tt;
     db_commit := fun _ => Ok tt;
     sheets_get := fun _ _ _ => Ok (PyDict [("values", PyList [])]);
     sheets_create := fun _ _ =>
       if sheets_up then Ok "sheet-1" else Raise (ExternalError "HttpError 403");
     sheets_update := fun _ _ _ =>
       if sheets_up then Ok tt else Raise (ExternalError "HttpError 403") |}.

Definition sample_file : file :=
  {| filename := "bill.png"; mimetype := "image/png"; content := "PNG" |}.

Definition unnamed_file : file :=
  {| filename := EmptyString; mimetype := "application/octet-stream";
     content := EmptyString |}.

Definition request_with (m : http_method) (fs : list file) (body : result pyval)
    : request :=
  {| method := m; args := []; files := map (fun f => ("files", f)) fs; json := body |}.

Definition no_json : result pyval := Raise (ExternalError "415 Unsupported Media Type").

Definition sample_row (id : Z) : row :=
  {| Entry_ID := id;
     cells := [PyStr "2024-01-01"; PyStr "Pen"; PyStr "B1"; PyInt 5; PyFloat float_12_5;
               PyInt 0; PyFloat zero_float; PyInt 5; PyFloat float_12_5] |}.

Definition world_with (rows : list row) : world :=
  {| table_name := rows; journal := []; ticks := 0 |}.

Definition update_record (id : pyval) (particulars : string) : pyval :=
  PyDict [("Entry_ID", id); ("DATE", PyStr "2024-02-02");
          ("PARTICULARS", PyStr particulars); ("Voucher_BillNo", PyStr "B7");
          ("RECEIPTS_Quantity", PyInt 3); ("RECEIPTS_Amount", PyFloat float_12_5);
          ("ISSUED_Quantity", PyInt 1); ("ISSUED_Amount", PyFloat zero_float);
          ("BALANCE_Quantity", PyInt 2); ("BALANCE_Amount", PyFloat float_12_5)].

Definition update_request (records : list pyval) : request :=
  request_with POST [] (Ok (PyList records)).

(** The value of a result that is known to be [Ok]. *)
Definition value_of {A} (default : A) (r : result A) : A :=
  match r with Ok a => a | Raise _ => default end.

(** A deployment that differs from [B] in what the model answers. *)
Definition with_generate (B : backend)
    (answer : list event -> file -> result string) : backend :=
  {| strftime_now := strftime_now B;
     generate_content := answer;
     db_connect := db_connect B;
     db_insert := db_insert B;
     db_update := db_update B;
     db_select := db_select B;
     db_commit := db_commit B;
     sheets_get := sheets_get B;
     sheets_create := sheets_create B;
     sheets_update := sheets_update B |}.

(** A second file, and a model that answers the pen example for every
    file but this one, for which its text is a torn JSON object. *)
Definition torn_file : file :=
  {| filename := "torn.png"; mimetype := "image/png"; content := "PN" |}.

Definition torn_reply : list event -> file -> result string :=
  fun _ f => if String.eqb (filename f) "torn.png" then Ok "{oops" else Ok pen_text.

(** *** Notions for the remaining properties of the routes *)

(** [request.args.get('range', 'Sheet1!A1:J')] *)
Definition requested_range (req : request) : string :=
  match args_get (args req) "range" with
  | Some r => r
  | None => "Sheet1!A1:J"
  end.

(** Some file carries a filename. *)
Definition has_named_file (fs : list file) : bool :=
  existsb (fun f => negb (String.eqb (filename f) EmptyString)) fs.

(** The parameters [/upload] inserts for every file, on the day [date]. *)
Definition default_params (date : string) : list pyval :=
  [PyStr date; PyStr "Processed File"; PyStr "N/A"; PyInt 0; PyFloat zero_float;
   PyInt 0; PyFloat zero_float; PyInt 0; PyFloat zero_float].

(** What a run of [/upload] may call: the database, and an [INSERT] only
    with the default parameters. *)
Definition is_default_insert (ev : event) : Prop :=
  match ev with
  | Connect | Commit => True
  | Insert params => exists date, params = default_params date
  | _ => False
  end.

(** The keys an update record is read at, in the order of the statement. *)
Definition update_keys : list string := (columns ++ ["Entry_ID"])%list.

(** The keys of a dictionary. *)
Definition keys_of (v : pyval) : list string :=
  match v with
  | PyDict d => map fst d
  | _ => []
  end.

(** A spreadsheet line made from an inserted entry: the identifier, then
    the parameters of a fresh entry. *)
Definition published_line (line : list pyval) : Prop :=
  exists id params, line = id :: params /\ fresh_params params.

(** An entry after its [INSERT]: a fresh entry with [Entry_ID] set. *)
Definition inserted_entry (entry : dict) : Prop :=
  exists fresh id, fresh_entry fresh /\ entry = dict_set fresh "Entry_ID" id.

(** An entry whose quantities are integers and whose amounts are floats. *)
Definition typed_entry (entry : dict) : Prop :=
  exists q a,
    lookup "RECEIPTS_Quantity" entry = Some (PyInt q) /\
    lookup "BALANCE_Quantity" entry = Some (PyInt q) /\
    lookup "RECEIPTS_Amount" entry = Some (PyFloat a) /\
    lookup "BALANCE_Amount" entry = Some (PyFloat a).

Definition sheet_url_of (spreadsheet_id : string) : string :=
  "https://docs.google.com/spreadsheets/d/" ++ spreadsheet_id.

(** The code of [/export-to-sheet] inside its [try] (lines 270-291). *)
Definition export_steps (B : backend) (req : request) : M response :=
  data <- lift (json req) ;;
  stamp <- now B "%Y%m%d_%H%M%S" ;;
  spreadsheet_id <- call (SheetsCreate ("Exported_Results_" ++ stamp))
                      (fun h => sheets_create B h ("Exported_Results_" ++ stamp)) ;;
  records <- lift (py_iter data) ;;
  values <- lift (sheet_values records) ;;
  _ <- call (SheetsUpdate spreadsheet_id values)
         (fun h => sheets_update B h spreadsheet_id values) ;;
  ret (json_response
         [("message", PyStr "Sheet created");
          ("link", PyStr ("https://docs.google.com/spreadsheets/d/" ++ spreadsheet_id))]
         200).

(** The world after one more reading of the clock. *)
Definition tick (w : world) : world :=
  {| table_name := table_name w; journal := journal w; ticks := S (ticks w) |}.

(** A deployment that differs from [B] in how the database answers a
    connection attempt. *)
Definition with_connect (B : backend) (answer : list event -> result unit) : backend :=
  {| strftime_now := strftime_now B;
     generate_content := generate_content B;
     db_connect := answer;
     db_insert := db_insert B;
     db_update := db_update B;
     db_select := db_select B;
     db_commit := db_commit B;
     sheets_get := sheets_get B;
     sheets_create := sheets_create B;
     sheets_update := sheets_update B |}.

Definition database_down : list event -> result unit :=
  fun _ => Raise (ExternalError "OperationalError").

(** The database answers [RETURNING Entry_ID] as it answers every
    statement: with a row keyed by the column name it reports. *)
Definition folded_reply (B : backend) : Prop :=
  forall h pending params stored fetched,
    db_insert B h pending params = Ok (stored, fetched) ->
    exists id, fetched = PyDict [(column_name "Entry_ID", id)].

(** The sample deployment with such a database. *)
Definition folded_backend : backend :=
  let B := sample_backend pen_text true in
  {| strftime_now := strftime_now B;
     generate_content := generate_content B;
     db_connect := db_connect B;
     db_insert := fun _ pending params =>
       let id := 1 + fold_right Z.max 0 (map Entry_ID pending) in
       Ok ({| Entry_ID := id; cells := params |},
           PyDict [(column_name "Entry_ID", PyInt id)]);
     db_update := db_update B;
     db_select := db_select B;
     db_commit := db_commit B;
     sheets_get := sheets_get B;
     sheets_create := sheets_create B;
     sheets_update := sheets_update B |}.

(** A request to [/get-sheet-data] with the given query parameters. *)
Definition query_request (query : list (string * string)) : request :=
  {| method := GET; args := query; files := []; json := no_json |}.

(** A JSON text whose quantity is null. *)
Definition null_quantity_text : string :=
  "{" ++ quoted "description" ++ ":" ++ quoted "Pen" ++ "," ++ quoted "quantity" ++ ":null}".

(** A JSON text whose quantity is a string and whose amount is an
    integer. *)
Definition converted_text : string :=
  "{" ++ quoted "quantity" ++ ":" ++ quoted "7" ++ "," ++ quoted "amount" ++ ":3}".

(** An update record without its date. *)
Definition undated_record : dict :=
  [("Entry_ID", PyInt 1); ("PARTICULARS", PyStr "Ink")].

(** ** The decoder on texts that start with a brace *)

Lemma deliver_rooted (v : pyval) (stk : list frame) :
  bottom_obj stk = true -> rooted (deliver v stk) = true.
Proof.
  destruct stk as [|f stk']; simpl; [discriminate|].
  destruct f, stk'; simpl; auto; discriminate.
Qed.

Lemma deliver_dict_rooted (d : dict) (stk : list frame) :
  match stk with [] => true | _ :: _ => bottom_obj stk end = true ->
  rooted (deliver (PyDict d) stk) = true.
Proof.
  destruct stk as [|f stk']; [reflexivity|].
  intros H. now apply deliver_rooted.
Qed.

Lemma value_step_rooted (stk : list frame) (t : token) (p : pstate) :
  bottom_obj stk = true -> value_step stk t = Some p -> rooted p = true.
Proof.
  intros Hb H. destruct t; simpl in H; inversion H; subst; clear H;
    try (now apply deliver_rooted); simpl; auto.
  destruct stk; [discriminate | exact Hb].
Qed.

Lemma pstep_rooted (p p' : pstate) (t : token) :
  rooted p = true -> pstep p t = Some p' -> rooted p' = true.
Proof.
  intros Hr H. destruct p; simpl in Hr, H.
  - eapply value_step_rooted; eauto.
  - destruct t; try (eapply value_step_rooted; [|exact H]; simpl;
      destruct stk; [discriminate | exact Hr]).
    inversion H; subst. now apply deliver_rooted.
  - destruct t; inversion H; subst; simpl; auto.
    now apply deliver_dict_rooted.
  - destruct t; inversion H; subst; simpl; auto.
  - destruct t; inversion H; subst; simpl. destruct stk; auto.
  - destruct t; inversion H; subst; simpl.
    + now apply deliver_rooted.
    + destruct stk; [discriminate | exact Hr].
  - destruct t; inversion H; subst; simpl; auto.
    now apply deliver_dict_rooted.
  - discriminate.
Qed.

Lemma parse_rooted (ts : list token) (p p' : pstate) :
  rooted p = true -> parse p ts = Ok p' -> rooted p' = true.
Proof.
  revert p. induction ts as [|t ts IH]; simpl; intros p Hr H.
  - inversion H; subst; exact Hr.
  - destruct (pstep p t) as [p1|] eqn:E; [|discriminate].
    eapply IH; [|exact H]. eapply pstep_rooted; eauto.
Qed.

Lemma startswith_brace (text : string) :
  startswith text "{" = true -> exists rest, text = String "{" rest.
Proof.
  destruct text as [|c rest]; cbn [startswith]; [discriminate|].
  destruct (Ascii.eqb_spec "{" c) as [E|E]; cbn [andb]; intros H; [|discriminate H].
  exists rest. now rewrite E.
Qed.

(** A text that starts with a brace decodes to a dictionary or not at
    all. *)
Lemma json_loads_brace (text : string) (v : pyval) :
  startswith text "{" = true -> json_loads text = Ok v -> exists d, v = PyDict d.
Proof.
  intros Hs H. destruct (startswith_brace _ Hs) as [rest ->].
  unfold json_loads in H. simpl in H.
  destruct (parse (PObjStart []) (scan Idle rest)) as [p|e] eqn:E; [|discriminate].
  apply parse_rooted in E; [|reflexivity].
  destruct p; try discriminate. inversion H; subst.
  destruct v; try discriminate. eauto.
Qed.

(** ** Entries *)

Lemma upload_entry_empty (date : string) :
  upload_entry date (PyDict []) =
  Ok (new_entry date (PyStr "Processed File") (PyStr "N/A") (PyInt 0) zero_float).
Proof. reflexivity. Qed.

Lemma flash_entry_fields (date : string) (d : dict) :
  flash_entry date (PyDict d) =
  entry_of_fields date
    {| description := field d "description" (PyStr "Processed File");
       billNo := field d "bill_no" (PyStr "N/A");
       quantity := field d "quantity" (PyInt 0);
       amount := field d "amount" (PyFloat zero_float) |}.
Proof.
  unfold flash_entry, entry_of_fields, py_get, field, zero_float.
  cbn [rbind quantity amount description billNo].
  destruct (py_int _) as [q|e]; cbn [rbind]; [|reflexivity].
  destruct (py_float _) as [a|e]; cbn [rbind]; reflexivity.
Qed.

Lemma flash_entry_shape (date : string) (v : pyval) (entry : dict) :
  flash_entry date v = Ok entry ->
  exists p b q a, entry = new_entry date p b (PyInt q) a.
Proof.
  destruct v; try discriminate. rewrite flash_entry_fields.
  unfold entry_of_fields. cbn [quantity amount description billNo].
  destruct (py_int _) as [q|e]; cbn [rbind]; [|discriminate].
  destruct (py_float _) as [a|e]; cbn [rbind]; [|discriminate].
  intros H; inversion H; subst. eauto.
Qed.

Lemma new_entry_invariant (date : string) (p b q : pyval) (a : spec_float) :
  creation_invariant (new_entry date p b q a).
Proof.
  unfold creation_invariant. repeat split.
  - exists q. split; reflexivity.
  - exists (PyFloat a). split; reflexivity.
Qed.

Lemma freeform_entry (date text : string) :
  startswith text "{" = false ->
  extract_entry date text = Ok (new_entry date (PyStr text) (PyStr "N/A") (PyInt 0) zero_float).
Proof.
  intros Hs. unfold extract_entry, parse_gemini_result. rewrite Hs. reflexivity.
Qed.

(** ** C1: the parsing policy *)

(** C1. For every response text the upload-and-publish route builds its
    entry by the stated policy: the four fields are those of
    [spec_extract] (JSON object with defaults when the text begins with a
    brace, otherwise the text as description and defaults for the rest),
    the quantity passing through [int] and the amount through [float].
    A text that begins with a brace decodes to an object or not at all.
    The text "some prose" gives description "some prose", bill number
    "N/A", quantity 0 and amount 0.0; the JSON text for a pen gives
    description "Pen", bill number "B1", quantity 5 and amount 12.5. *)
Theorem C1_parsing_policy :
  (forall date text,
     extract_entry date text = rbind (spec_extract text) (entry_of_fields date)) /\
  (forall text v,
     startswith text "{" = true -> json_loads text = Ok v -> exists d, v = PyDict d) /\
  (spec_extract "some prose" =
     Ok {| description := PyStr "some prose"; billNo := PyStr "N/A";
           quantity := PyInt 0; amount := PyFloat zero_float |} /\
   forall date,
     extract_entry date "some prose" =
     Ok (new_entry date (PyStr "some prose") (PyStr "N/A") (PyInt 0) zero_float)) /\
  (spec_extract pen_text =
     Ok {| description := PyStr "Pen"; billNo := PyStr "B1";
           quantity := PyInt 5; amount := PyFloat float_12_5 |} /\
   forall date,
     extract_entry date pen_text =
     Ok (new_entry date (PyStr "Pen") (PyStr "B1") (PyInt 5) float_12_5)).
Proof.
  split; [|split; [exact json_loads_brace|split]].
  - intros date text. unfold extract_entry, parse_gemini_result, spec_extract.
    destruct (startswith text "{") eqn:Hs.
    + destruct (json_loads text) as [v|e] eqn:J; cbn [rbind]; [|reflexivity].
      destruct (json_loads_brace _ _ Hs J) as [d ->].
      apply flash_entry_fields.
    + reflexivity.
  - split; [reflexivity|]. intros date. now apply freeform_entry.
  - split; [vm_compute; reflexivity|]. intros date.
    unfold extract_entry.
    replace (parse_gemini_result pen_text)
      with (Ok (PyDict [("description", PyStr "Pen"); ("bill_no", PyStr "B1");
                        ("quantity", PyInt 5); ("amount", PyFloat float_12_5)]))
      by (vm_compute; reflexivity).
    reflexivity.
Qed.

(** ** Reasoning about handler code *)

Lemma bind_inv {A B} (m : M A) (k : A -> M B) (w w' : world) (r : result B) :
  bind m k w = (r, w') ->
  (exists a w1, m w = (Ok a, w1) /\ k a w1 = (r, w')) \/
  (exists e, m w = (Raise e, w') /\ r = Raise e).
Proof.
  unfold bind. destruct (m w) as [[a|e] w1]; intros H.
  - left. eauto.
  - right. inversion H; subst. eauto.
Qed.

Lemma bind_ok {A B} (m : M A) (k : A -> M B) (w w' : world) (b : B) :
  bind m k w = (Ok b, w') ->
  exists a w1, m w = (Ok a, w1) /\ k a w1 = (Ok b, w').
Proof.
  intros H. destruct (bind_inv _ _ _ _ _ H) as [?|(e & _ & ?)]; [assumption | discriminate].
Qed.

Lemma quiet_ret {A} (P : event -> Prop) (a : A) : quiet P (ret a).
Proof.
  intros w r w' H. inversion H; subst. split; [reflexivity|]. now exists [].
Qed.

Lemma quiet_lift {A} (P : event -> Prop) (x : result A) : quiet P (lift x).
Proof.
  intros w r w' H. inversion H; subst. split; [reflexivity|]. now exists [].
Qed.

Lemma quiet_call {A} (P : event -> Prop) (ev : event) (answer : list event -> result A) :
  P ev -> quiet P (call ev answer).
Proof.
  intros HP w r w' H. inversion H; subst. split; [reflexivity|].
  exists [ev]. split; [reflexivity|]. now constructor.
Qed.

Lemma quiet_now (B : backend) (P : event -> Prop) (fmt : string) : quiet P (now B fmt).
Proof.
  intros w r w' H. inversion H; subst. split; [reflexivity|]. now exists [].
Qed.

Lemma quiet_bind {A B} (P : event -> Prop) (m : M A) (k : A -> M B) :
  quiet P m -> (forall a, quiet P (k a)) -> quiet P (bind m k).
Proof.
  intros Hm Hk w r w' H.
  destruct (bind_inv _ _ _ _ _ H) as [(a & w1 & H1 & H2)|(e & H1 & _)].
  - destruct (Hm _ _ _ H1) as (T1 & evs1 & J1 & F1).
    destruct (Hk a _ _ _ H2) as (T2 & evs2 & J2 & F2).
    split; [congruence|]. exists (evs2 ++ evs1)%list. split.
    + rewrite J2, J1. now rewrite app_assoc.
    + apply Forall_app. now split.
  - exact (Hm _ _ _ H1).
Qed.

Lemma quiet_for_each {A B} (P : event -> Prop) (f : A -> M B) (l : list A) :
  (forall x, quiet P (f x)) -> quiet P (for_each f l).
Proof.
  intros Hf. induction l as [|x l IH]; cbn [for_each].
  - apply quiet_ret.
  - apply quiet_bind; [apply Hf|]. intros y.
    apply quiet_bind; [exact IH|]. intros ys. apply quiet_ret.
Qed.

(** Walks through a sequence of binds whose steps are quiet. *)
Ltac quiet_steps :=
  repeat first
    [ apply quiet_ret
    | apply quiet_lift
    | apply quiet_now
    | apply quiet_call; reflexivity
    | apply quiet_bind;
      [|let x := fresh "x" in
        intros x; try match type of x with prod _ _ => destruct x end] ].

Lemma for_each_ok {A B} (Q : B -> Prop) (f : A -> M B) (l : list A) :
  (forall x w y w', f x w = (Ok y, w') -> Q y) ->
  forall w ys w', for_each f l w = (Ok ys, w') ->
    List.length ys = List.length l /\ Forall Q ys.
Proof.
  intros Hf. induction l as [|x l IH]; cbn [for_each]; intros w ys w' H.
  - inversion H; subst. split; [reflexivity | constructor].
  - apply bind_ok in H. destruct H as (y & w1 & H1 & H).
    apply bind_ok in H. destruct H as (ys' & w2 & H2 & H).
    inversion H; subst. destruct (IH _ _ _ H2) as [L F].
    split; [simpl; congruence|]. constructor; [|exact F]. eapply Hf; eauto.
Qed.

Lemma get_db_connection_run (B : backend) (w : world) :
  get_db_connection B w =
  (match db_connect B (journal w) with
   | Ok _ => Ok (table_name w)
   | Raise e => Raise e
   end, log Connect w).
Proof.
  unfold get_db_connection, bind, call.
  destruct (db_connect B (journal w)); reflexivity.
Qed.

Lemma commit_run (B : backend) (pending : list row) (w : world) :
  commit B pending w =
  match db_commit B (journal w) with
  | Ok _ => (Ok tt, publish_table pending (log Commit w))
  | Raise e => (Raise e, log Commit w)
  end.
Proof.
  unfold commit, bind, call.
  destruct (db_commit B (journal w)); reflexivity.
Qed.

(** ** C9: the sheet route without an identifier *)

(** C9. A request to [/get-sheet-data] without the [spreadsheet_id]
    parameter is answered 400 with the body
    [{"error": "Missing spreadsheet_id"}]; the world is left as it was, so
    no call reached the spreadsheet backend. *)
Theorem C9_missing_spreadsheet_id (B : backend) (req : request) (w : world) :
  args_get (args req) "spreadsheet_id" = None ->
  get_sheet_data B req w =
  ({| payload := Json (PyDict [("error", PyStr "Missing spreadsheet_id")]);
      status := 400 |}, w).
Proof.
  intros H. unfold get_sheet_data, try_except. rewrite H. reflexivity.
Qed.

(** ** C7: the listing *)

Lemma insert_by_id_perm (r : row) (l : list row) :
  Permutation (insert_by_id r l) (r :: l).
Proof.
  induction l as [|r' l IH]; simpl; [reflexivity|].
  destruct (Entry_ID r <=? Entry_ID r'); [reflexivity|].
  rewrite IH. apply perm_swap.
Qed.

Lemma order_by_id_perm (l : list row) : Permutation (order_by_id l) l.
Proof.
  induction l as [|r l IH]; simpl; [reflexivity|].
  rewrite insert_by_id_perm. now constructor.
Qed.

Lemma insert_by_id_sorted (r : row) (l : list row) :
  Sorted id_le l -> Sorted id_le (insert_by_id r l).
Proof.
  induction 1 as [|r' l Hs IH Hh]; simpl.
  - repeat constructor.
  - destruct (Z.leb_spec (Entry_ID r) (Entry_ID r')).
    + constructor; [now constructor|]. constructor. exact H.
    + constructor; [exact IH|].
      destruct l as [|r'' l]; simpl.
      * constructor. unfold id_le. lia.
      * destruct (Z.leb_spec (Entry_ID r) (Entry_ID r'')).
        -- constructor. unfold id_le. lia.
        -- inversion Hh; subst. now constructor.
Qed.

Lemma order_by_id_sorted (l : list row) : Sorted id_le (order_by_id l).
Proof.
  induction l as [|r l IH]; simpl; [constructor|].
  now apply insert_by_id_sorted.
Qed.

(** C7. With the store reachable, [/results] answers 200 with all the
    rows of the table, each exactly once, in an order where every
    adjacent pair has non-decreasing [Entry_ID]; an empty table gives the
    empty list. *)
Theorem C7_results_sorted (B : backend) (req : request) (w : world) :
  db_connect B (journal w) = Ok tt ->
  db_select B (Connect :: journal w) = Ok tt ->
  exists data,
    fst (get_results B req w) =
      {| payload := Json (PyList (map row_dict data)); status := 200 |} /\
    Permutation data (table_name w) /\
    Sorted id_le data /\
    (table_name w = [] -> data = []).
Proof.
  intros Hc Hs. exists (order_by_id (table_name w)).
  split; [|split; [|split]].
  - unfold get_results, try_except, bind. rewrite get_db_connection_run, Hc.
    unfold call. cbn. rewrite Hs. reflexivity.
  - apply order_by_id_perm.
  - apply order_by_id_sorted.
  - intros ->. reflexivity.
Qed.

(** ** The stages of an upload *)

Lemma try_except_inv (m : M response) (h : exn -> response) (w w' : world)
    (resp : response) :
  try_except m h w = (resp, w') ->
  m w = (Ok resp, w') \/ exists e, m w = (Raise e, w') /\ resp = h e.
Proof.
  unfold try_except. destruct (m w) as [[r|e] w1]; intros H; inversion H; subst.
  - now left.
  - right. eauto.
Qed.

Lemma files_getlist_absent (fs : list (string * file)) (k : string) :
  files_contains fs k = false -> files_getlist fs k = [].
Proof.
  unfold files_contains, files_getlist. induction fs as [|kf fs IH]; simpl; [reflexivity|].
  destruct (String.eqb k (fst kf)); simpl; [discriminate | exact IH].
Qed.

(** The guards of both upload routes: a request without a valid file is
    answered 400 on the spot; any other goes on to the steps. *)
Lemma upload_guards (B : backend) (req : request) :
  method req <> OPTIONS ->
  let fs := files_getlist (files req) "files" in
  if no_valid_files fs then
    forall w,
      (status (fst (upload_files B req w)) = 400 /\ snd (upload_files B req w) = w) /\
      (status (fst (upload_files_flash B req w)) = 400 /\
       snd (upload_files_flash B req w) = w)
  else
    upload_files B req = try_except (upload_steps B fs) (error_response EmptyString) /\
    upload_files_flash B req = try_except (flash_steps B fs) flash_error.
Proof.
  intros Hm fs. unfold upload_files, upload_files_flash.
  destruct (files_contains (files req) "files") eqn:Hc; cbn [negb].
  - destruct (no_valid_files fs) eqn:Hv; subst fs; rewrite Hv.
    + intros w. unfold try_except; destruct (method req); try contradiction; cbn; auto.
    + destruct (method req); try contradiction; split; reflexivity.
  - subst fs. rewrite (files_getlist_absent _ _ Hc). cbn [no_valid_files].
    intros w. unfold try_except; destruct (method req); try contradiction; cbn; auto.
Qed.

Lemma upload_file_quiet (B : backend) (f : file) :
  quiet (fun _ => False) (upload_file B f).
Proof. unfold upload_file. quiet_steps. Qed.

Lemma flash_file_quiet (B : backend) (f : file) :
  quiet (fun ev => is_generate ev = true) (flash_file B f).
Proof. unfold flash_file. quiet_steps. Qed.

Lemma execute_insert_quiet (B : backend) (pending : list row) (entry : dict) :
  quiet (fun ev => is_insert ev = true) (execute_insert B pending entry).
Proof. unfold execute_insert. quiet_steps. Qed.

Lemma insert_all_quiet (B : backend) (entries : list dict) (pending : list row) :
  quiet (fun ev => is_insert ev = true) (insert_all B pending entries).
Proof.
  revert pending. induction entries as [|entry rest IH]; intros pending; cbn [insert_all].
  - apply quiet_ret.
  - apply quiet_bind; [apply execute_insert_quiet|]. intros [pending1 entry1].
    apply quiet_bind; [apply IH|]. intros [pending2 rest1]. apply quiet_ret.
Qed.

Lemma execute_insert_ok (B : backend) (pending pending' : list row)
    (entry entry' : dict) (w w' : world) :
  execute_insert B pending entry w = (Ok (pending', entry'), w') ->
  exists r, pending' = (pending ++ [r])%list.
Proof.
  unfold execute_insert. intros H.
  apply bind_ok in H. destruct H as (params & w1 & _ & H).
  apply bind_ok in H. destruct H as ([stored fetched] & w2 & _ & H).
  apply bind_ok in H. destruct H as (id & w3 & _ & H).
  inversion H; subst. eauto.
Qed.

(** Each executed [INSERT] adds one row to the transaction. *)
Lemma insert_all_ok (B : backend) (entries entries' : list dict)
    (pending pending' : list row) (w w' : world) :
  insert_all B pending entries w = (Ok (pending', entries'), w') ->
  exists rows, pending' = (pending ++ rows)%list /\
               List.length rows = List.length entries.
Proof.
  revert entries' pending pending' w w'.
  induction entries as [|entry rest IH]; intros entries' pending pending' w w' H;
    cbn [insert_all] in H.
  - inversion H; subst. exists []. now rewrite app_nil_r.
  - apply bind_ok in H. destruct H as ([pending1 entry1] & w1 & H1 & H).
    apply bind_ok in H. destruct H as ([pending2 rest1] & w2 & H2 & H).
    inversion H; subst.
    destruct (execute_insert_ok _ _ _ _ _ _ _ H1) as [r ->].
    destruct (IH _ _ _ _ _ H2) as (rows & -> & L).
    exists (r :: rows). rewrite <- app_assoc. simpl. auto.
Qed.

Lemma publish_quiet (B : backend) (prefix : string) (records : list pyval) :
  quiet (fun ev => is_publish ev = true) (publish B prefix records).
Proof. unfold publish. quiet_steps. Qed.

Lemma for_each_length {A B} (f : A -> M B) (l : list A) (w w' : world) (ys : list B) :
  for_each f l w = (Ok ys, w') -> List.length ys = List.length l.
Proof.
  intros H. exact (proj1 (for_each_ok (fun _ => True) f l (fun _ _ _ _ _ => I) _ _ _ H)).
Qed.

(** How a run of the storing steps ends: connect, insert every entry,
    commit. Either nothing is committed and the newest call is one to the
    database, or all the rows are. *)
Lemma store_run {A} (B : backend) (entries : list dict) (k : list dict -> M A)
    (w w' : world) (r : result A) :
  (conn <- get_db_connection B ;;
   ' (pending, data_entries) <- insert_all B conn entries ;;
   _ <- commit B pending ;;
   k data_entries) w = (r, w') ->
  (exists e ev rest,
      r = Raise e /\ table_name w' = table_name w /\
      journal w' = (ev :: rest ++ journal w)%list /\
      (ev = Connect \/ is_insert ev = true \/ ev = Commit)) \/
  (exists rows entries' w4 evs,
      List.length rows = List.length entries /\
      table_name w4 = (table_name w ++ rows)%list /\
      journal w4 = (Commit :: evs ++ journal w)%list /\
      k entries' w4 = (r, w')).
Proof.
  intros H.
  apply bind_inv in H. rewrite get_db_connection_run in H.
  destruct H as [(conn & w1 & H1 & H)|(e & H1 & ->)].
  2:{ left. inversion H1; subst. exists e, Connect, []. cbn. repeat split; auto. }
  destruct (db_connect B (journal w)); inversion H1; subst; clear H1.
  apply bind_inv in H. destruct H as [([pending entries'] & w2 & H2 & H)|(e & H2 & ->)].
  2:{ left. destruct (insert_all_quiet _ _ _ _ _ _ H2) as (T & evs & J & F).
      destruct evs as [|ev evs].
      - exists e, Connect, []. rewrite T, J. cbn. repeat split; auto.
      - exists e, ev, (evs ++ [Connect])%list. rewrite T, J. cbn.
        rewrite <- app_assoc. inversion F; subst. repeat split; auto. }
  destruct (insert_all_quiet _ _ _ _ _ _ H2) as (T & evs & J & F).
  destruct (insert_all_ok _ _ _ _ _ _ _ H2) as (rows & -> & L).
  apply bind_inv in H. rewrite commit_run in H.
  destruct H as [([] & w3 & H3 & H)|(e & H3 & ->)].
  - right. destruct (db_commit B (journal w2)); inversion H3; subst; clear H3.
    exists rows, entries', (publish_table (table_name w ++ rows) (log Commit w2)),
      (evs ++ [Connect])%list.
    cbn. rewrite J. cbn. rewrite <- app_assoc. repeat split; auto.
  - left. destruct (db_commit B (journal w2)); inversion H3; subst; clear H3.
    exists e, Commit, (evs ++ [Connect])%list. cbn. rewrite T, J. cbn.
    rewrite <- app_assoc. repeat split; auto.
Qed.

(** How a run of the upload-and-publish steps ends: the extraction of
    some file failed and only the model was called; or a database call
    failed and nothing is committed; or one row per file is committed,
    and the steps ended in the publish stage or with the answer 200. *)
Lemma flash_run (B : backend) (fs : list file) (w w' : world) (r : result response) :
  flash_steps B fs w = (r, w') ->
  (exists e evs,
      r = Raise e /\ table_name w' = table_name w /\
      journal w' = (evs ++ journal w)%list /\
      Forall (fun ev => is_generate ev = true) evs) \/
  (exists e ev rest,
      r = Raise e /\ table_name w' = table_name w /\
      journal w' = (ev :: rest ++ journal w)%list /\
      (ev = Connect \/ is_insert ev = true \/ ev = Commit)) \/
  (exists rows evs rest,
      List.length rows = List.length fs /\
      table_name w' = (table_name w ++ rows)%list /\
      journal w' = (evs ++ Commit :: rest ++ journal w)%list /\
      Forall (fun ev => is_publish ev = true) evs /\
      ((exists e, r = Raise e) \/ (exists resp, r = Ok resp /\ status resp = 200))).
Proof.
  unfold flash_steps. intros H.
  apply bind_inv in H. destruct H as [(entries & w1 & H1 & H)|(e & H1 & ->)].
  2:{ left. destruct (quiet_for_each _ _ fs (flash_file_quiet B) _ _ _ H1)
        as (T & evs & J & F). exists e, evs. auto. }
  destruct (quiet_for_each _ _ fs (flash_file_quiet B) _ _ _ H1) as (T1 & evs1 & J1 & _).
  pose proof (for_each_length _ _ _ _ _ H1) as L1.
  apply (store_run B entries
           (fun data_entries =>
              sheet_url <- publish B "Upload_" (map PyDict data_entries) ;;
              ret (json_response
                     [("message", PyStr "Files processed and new spreadsheet created");
                      ("sheet_url", PyStr sheet_url)] 200))) in H.
  destruct H as [(e & ev & rest & -> & T & J & Hev)
                |(rows & entries' & w4 & evs & L & T & J & H)].
  - right; left. exists e, ev, (rest ++ evs1)%list.
    rewrite T, T1, J, J1, <- app_assoc. auto.
  - right; right.
    apply bind_inv in H. destruct H as [(url & w5 & H5 & H)|(e & H5 & ->)];
      destruct (publish_quiet _ _ _ _ _ _ H5) as (T5 & evs5 & J5 & F5).
    + inversion H; subst. exists rows, evs5, (evs ++ evs1)%list.
      rewrite T5, T, T1, J5, J, J1, <- app_assoc, L, L1. cbn.
      repeat split; auto. right. eexists. split; reflexivity.
    + exists rows, evs5, (evs ++ evs1)%list.
      rewrite T5, T, T1, J5, J, J1, <- app_assoc, L, L1. cbn.
      repeat split; auto. left. eauto.
Qed.

(** ** C5: uploads without a valid file *)

Lemma no_valid_files_empty_names (fs : list file) :
  Forall (fun f => filename f = EmptyString) fs -> no_valid_files fs = true.
Proof.
  intros H. unfold no_valid_files. destruct fs; [reflexivity|].
  apply forallb_forall. intros x Hin.
  rewrite Forall_forall in H. rewrite (H x Hin). reflexivity.
Qed.

(** C5. When every file sent under [files] has an empty filename, which
    includes the request that carries no such file at all, both upload
    routes answer 400 and leave the world as it was: no row is inserted
    and no call is made. *)
Theorem C5_no_files_rejected (B : backend) (req : request) (w : world) :
  method req <> OPTIONS ->
  Forall (fun f => filename f = EmptyString) (files_getlist (files req) "files") ->
  (status (fst (upload_files B req w)) = 400 /\ snd (upload_files B req w) = w) /\
  (status (fst (upload_files_flash B req w)) = 400 /\
   snd (upload_files_flash B req w) = w).
Proof.
  intros Hm Hf. apply no_valid_files_empty_names in Hf.
  pose proof (upload_guards B req Hm) as G. cbv zeta in G.
  rewrite Hf in G. apply G.
Qed.

(** ** C4: one row per file *)

(** C4. When an upload through either route succeeds (answer 200 to a
    request that is not a preflight), the committed table is the old one
    followed by new rows, one for each file sent under [files]. *)
Theorem C4_one_row_per_file (B : backend) (req : request) (w w' : world)
    (resp : response) :
  method req <> OPTIONS ->
  status resp = 200 ->
  upload_files B req w = (resp, w') \/ upload_files_flash B req w = (resp, w') ->
  exists rows,
    table_name w' = (table_name w ++ rows)%list /\
    List.length rows = List.length (files_getlist (files req) "files").
Proof.
  intros Hm Hs H.
  pose proof (upload_guards B req Hm) as G. cbv zeta in G.
  destruct (no_valid_files (files_getlist (files req) "files")).
  { destruct (G w) as [[S1 _] [S2 _]].
    destruct H as [H|H]; rewrite H in *; cbn in *; congruence. }
  destruct G as [G1 G2]. destruct H as [H|H].
  - rewrite G1 in H. apply try_except_inv in H.
    destruct H as [H|(e & _ & ->)]; [|discriminate Hs].
    unfold upload_steps in H.
    apply bind_ok in H. destruct H as (entries & w1 & H1 & H).
    destruct (quiet_for_each _ _ _ (upload_file_quiet B) _ _ _ H1) as (T1 & _).
    pose proof (for_each_length _ _ _ _ _ H1) as L1.
    apply (store_run B entries
             (fun _ => ret (json_response [("message", PyStr "Files processed")] 200)))
      in H.
    destruct H as [(e & ev & rest & R & _)|(rows & entries' & w4 & evs & L & T & J & H)];
      [discriminate R|].
    inversion H; subst. exists rows. rewrite T, T1, L, L1. auto.
  - rewrite G2 in H. apply try_except_inv in H.
    destruct H as [H|(e & _ & ->)]; [|discriminate Hs].
    apply flash_run in H.
    destruct H as [(e & evs & R & _)|[(e & ev & rest & R & _)
                  |(rows & evs & rest & L & T & _)]]; try discriminate R.
    exists rows. auto.
Qed.

(** ** C3: the invariant at creation *)

Lemma quiet_logs {A} (P : event -> Prop) (m : M A) : quiet P m -> logs P m.
Proof. intros H w r w' Hm. exact (proj2 (H _ _ _ Hm)). Qed.

Lemma logs_weaken {A} (P Q : event -> Prop) (m : M A) :
  (forall ev, P ev -> Q ev) -> logs P m -> logs Q m.
Proof.
  intros HPQ H w r w' Hm. destruct (H _ _ _ Hm) as (evs & J & F).
  exists evs. split; [exact J|]. eapply Forall_impl; eauto.
Qed.

Lemma logs_ret {A} (P : event -> Prop) (a : A) : logs P (ret a).
Proof. apply quiet_logs, quiet_ret. Qed.

Lemma logs_bind {A B} (P : event -> Prop) (m : M A) (k : A -> M B) :
  logs P m ->
  (forall a w w1, m w = (Ok a, w1) -> logs P (k a)) ->
  logs P (bind m k).
Proof.
  intros Hm Hk w r w' H.
  destruct (bind_inv _ _ _ _ _ H) as [(a & w1 & H1 & H2)|(e & H1 & _)].
  - destruct (Hm _ _ _ H1) as (evs1 & J1 & F1).
    destruct (Hk a _ _ H1 _ _ _ H2) as (evs2 & J2 & F2).
    exists (evs2 ++ evs1)%list. split.
    + rewrite J2, J1. now rewrite app_assoc.
    + apply Forall_app. now split.
  - exact (Hm _ _ _ H1).
Qed.

Lemma get_db_connection_logs (B : backend) (P : event -> Prop) :
  P Connect -> logs P (get_db_connection B).
Proof.
  intros HP w r w' H. rewrite get_db_connection_run in H. inversion H; subst.
  exists [Connect]. split; [reflexivity|]. now constructor.
Qed.

Lemma commit_logs (B : backend) (P : event -> Prop) (pending : list row) :
  P Commit -> logs P (commit B pending).
Proof.
  intros HP w r w' H. rewrite commit_run in H.
  exists [Commit]. split; [|now constructor].
  destruct (db_commit B (journal w)); inversion H; subst; reflexivity.
Qed.

Lemma bind_lift_ok {A B} (x : A) (k : A -> M B) : bind (lift (Ok x)) k = k x.
Proof. reflexivity. Qed.

Lemma execute_insert_fresh (B : backend) (pending : list row) (entry : dict) :
  fresh_entry entry -> quiet insert_is_fresh (execute_insert B pending entry).
Proof.
  intros (date & p & b & q & a & ->). unfold execute_insert.
  replace (rmap (py_getitem (PyDict (new_entry date p b q a))) columns)
    with (Ok [PyStr date; p; b; q; PyFloat a; PyInt 0; PyFloat zero_float; q; PyFloat a])
    by reflexivity.
  rewrite bind_lift_ok.
  apply quiet_bind.
  - apply quiet_call. cbn. unfold fresh_params. eauto 10.
  - intros [stored fetched]. apply quiet_bind; [apply quiet_lift|].
    intros id. apply quiet_ret.
Qed.

Lemma insert_all_fresh (B : backend) (entries : list dict) (pending : list row) :
  Forall fresh_entry entries -> quiet insert_is_fresh (insert_all B pending entries).
Proof.
  intros F. revert pending.
  induction F as [|entry rest He _ IH]; intros pending; cbn [insert_all].
  - apply quiet_ret.
  - apply quiet_bind; [now apply execute_insert_fresh|]. intros [pending1 entry1].
    apply quiet_bind; [apply IH|]. intros [pending2 rest1]. apply quiet_ret.
Qed.

Lemma upload_file_fresh (B : backend) (f : file) (w : world) (entry : dict)
    (w' : world) :
  upload_file B f w = (Ok entry, w') -> fresh_entry entry.
Proof.
  unfold upload_file. intros H. apply bind_ok in H.
  destruct H as (date & w1 & _ & H). unfold lift in H.
  rewrite upload_entry_empty in H. inversion H; subst.
  unfold fresh_entry. eauto 10.
Qed.

Lemma flash_file_fresh (B : backend) (f : file) (w : world) (entry : dict)
    (w' : world) :
  flash_file B f w = (Ok entry, w') -> fresh_entry entry.
Proof.
  unfold flash_file. intros H.
  apply bind_ok in H. destruct H as (text & w1 & _ & H).
  apply bind_ok in H. destruct H as (data & w2 & _ & H).
  apply bind_ok in H. destruct H as (date & w3 & _ & H).
  unfold lift in H. injection H as H1 _.
  destruct (flash_entry_shape _ _ _ H1) as (p & b & q & a & ->).
  unfold fresh_entry. eauto 10.
Qed.

Lemma fresh_entry_invariant (entry : dict) :
  fresh_entry entry -> creation_invariant entry.
Proof. intros (date & p & b & q & a & ->). apply new_entry_invariant. Qed.

Lemma insert_is_fresh_other (P : event -> bool) :
  (forall params, P (Insert params) = false) ->
  forall ev, P ev = true -> insert_is_fresh ev.
Proof.
  intros HP ev H. destruct ev; cbn; auto. rewrite HP in H. discriminate H.
Qed.

Lemma upload_steps_logs (B : backend) (fs : list file) :
  logs insert_is_fresh (upload_steps B fs).
Proof.
  unfold upload_steps. apply logs_bind.
  - apply (logs_weaken (fun _ => False)); [contradiction|].
    apply quiet_logs, quiet_for_each, upload_file_quiet.
  - intros entries w w1 H1.
    pose proof (proj2 (for_each_ok _ _ _ (upload_file_fresh B) _ _ _ H1)) as F.
    apply logs_bind; [now apply get_db_connection_logs|]. intros conn _ _ _.
    apply logs_bind; [now apply quiet_logs, insert_all_fresh|].
    intros [pending entries'] _ _ _.
    apply logs_bind; [now apply commit_logs|]. intros _ _ _ _. apply logs_ret.
Qed.

Lemma flash_steps_logs (B : backend) (fs : list file) :
  logs insert_is_fresh (flash_steps B fs).
Proof.
  unfold flash_steps. apply logs_bind.
  - apply (logs_weaken (fun ev => is_generate ev = true)).
    + apply (insert_is_fresh_other is_generate). reflexivity.
    + apply quiet_logs, quiet_for_each, flash_file_quiet.
  - intros entries w w1 H1.
    pose proof (proj2 (for_each_ok _ _ _ (flash_file_fresh B) _ _ _ H1)) as F.
    apply logs_bind; [now apply get_db_connection_logs|]. intros conn _ _ _.
    apply logs_bind; [now apply quiet_logs, insert_all_fresh|].
    intros [pending entries'] _ _ _.
    apply logs_bind; [now apply commit_logs|]. intros _ _ _ _.
    apply logs_bind; [|intros; apply logs_ret].
    apply (logs_weaken (fun ev => is_publish ev = true)).
    + apply (insert_is_fresh_other is_publish). reflexivity.
    + apply quiet_logs, publish_quiet.
Qed.

Lemma try_except_logs (P : event -> Prop) (m : M response) (h : exn -> response) :
  logs P m ->
  forall w resp w', try_except m h w = (resp, w') ->
    exists evs, journal w' = (evs ++ journal w)%list /\ Forall P evs.
Proof.
  intros Hm w resp w' H. apply try_except_inv in H.
  destruct H as [H|(e & H & _)]; exact (Hm _ _ _ H).
Qed.

(** Every [INSERT] that either upload route issues carries the
    parameters of a fresh entry. *)
Lemma upload_inserts_fresh (B : backend) (req : request) (w w' : world)
    (resp : response) :
  upload_files B req w = (resp, w') \/ upload_files_flash B req w = (resp, w') ->
  exists evs, journal w' = (evs ++ journal w)%list /\ Forall insert_is_fresh evs.
Proof.
  intros H.
  assert (Hsame : w' = w ->
            exists evs, journal w' = (evs ++ journal w)%list /\ Forall insert_is_fresh evs).
  { intros ->. now exists []. }
  destruct (method req) eqn:Em.
  3:{ apply Hsame. unfold upload_files, upload_files_flash in H. rewrite Em in H.
      destruct H as [H|H]; inversion H; reflexivity. }
  all: assert (Hm : method req <> OPTIONS) by (rewrite Em; discriminate);
    pose proof (upload_guards B req Hm) as G; cbv zeta in G;
    destruct (no_valid_files (files_getlist (files req) "files"));
    [ apply Hsame; destruct (G w) as [[_ S1] [_ S2]];
      destruct H as [H|H]; rewrite H in *; cbn in *; congruence
    | destruct G as [G1 G2]; destruct H as [H|H];
      [ rewrite G1 in H; exact (try_except_logs _ _ _ (upload_steps_logs B _) _ _ _ H)
      | rewrite G2 in H; exact (try_except_logs _ _ _ (flash_steps_logs B _) _ _ _ H) ] ].
Qed.

(** C3. Every entry that the first loop of [/upload] or of
    [/upload-flash] builds has its balance quantity equal to its receipts
    quantity, its balance amount equal to its receipts amount (the same
    binary64 datum), issued quantity 0 and issued amount 0.0; and every
    [INSERT] that a run of either route issues carries such values: the
    balance parameters repeat the receipts parameters and the issued
    parameters are 0 and 0.0. *)
Theorem C3_creation_invariant (B : backend) :
  (forall fs w w' entries,
     for_each (upload_file B) fs w = (Ok entries, w') \/
     for_each (flash_file B) fs w = (Ok entries, w') ->
     Forall creation_invariant entries) /\
  (forall req w w' resp evs params,
     upload_files B req w = (resp, w') \/ upload_files_flash B req w = (resp, w') ->
     journal w' = (evs ++ journal w)%list ->
     In (Insert params) evs ->
     fresh_params params).
Proof.
  split.
  - intros fs w w' entries H.
    assert (F : Forall fresh_entry entries).
    { destruct H as [H|H].
      - exact (proj2 (for_each_ok _ _ _ (upload_file_fresh B) _ _ _ H)).
      - exact (proj2 (for_each_ok _ _ _ (flash_file_fresh B) _ _ _ H)). }
    eapply Forall_impl; [|exact F]. exact fresh_entry_invariant.
  - intros req w w' resp evs params H Hj Hin.
    destruct (upload_inserts_fresh _ _ _ _ _ H) as (evs' & J & F).
    rewrite Hj in J. apply app_inv_tail in J. subst evs'.
    rewrite Forall_forall in F. exact (F _ Hin).
Qed.

(** ** C8: what a failed step leaves behind *)

Lemma flash_file_journal (B : backend) (f : file) (w w' : world) (r : result dict) :
  flash_file B f w = (r, w') -> journal w' = Generate f :: journal w.
Proof.
  unfold flash_file, bind, call, lift, now.
  destruct (generate_content B (journal w) f) as [text|e]; [|intros H; now inversion H].
  destruct (parse_gemini_result text) as [data|e]; [|intros H; now inversion H].
  intros H. now inversion H.
Qed.

(** The model is asked about the files in their order, up to the first
    one whose extraction fails. *)
Lemma for_each_flash_journal (B : backend) (fs : list file) (w w' : world)
    (r : result (list dict)) :
  for_each (flash_file B) fs w = (r, w') ->
  exists k,
    journal w' = (rev (map Generate (firstn k fs)) ++ journal w)%list /\
    (forall entries, r = Ok entries -> firstn k fs = fs).
Proof.
  revert w w' r. induction fs as [|f fs IH]; intros w w' r H; cbn [for_each] in H.
  - inversion H; subst. exists 0%nat. split; [reflexivity | reflexivity].
  - apply bind_inv in H. destruct H as [(y & w1 & H1 & H)|(e & H1 & ->)].
    + pose proof (flash_file_journal _ _ _ _ _ H1) as J1.
      apply bind_inv in H. destruct H as [(ys & w2 & H2 & H)|(e & H2 & ->)].
      * destruct (IH _ _ _ H2) as (k & J2 & K). inversion H; subst.
        exists (S k). cbn [firstn map rev]. rewrite J2, J1, <- app_assoc. cbn.
        split; [reflexivity|]. intros entries _. now rewrite (K ys eq_refl).
      * destruct (IH _ _ _ H2) as (k & J2 & K).
        exists (S k). cbn [firstn map rev]. rewrite J2, J1, <- app_assoc. cbn.
        split; [reflexivity | discriminate].
    + exists 1%nat. cbn. rewrite (flash_file_journal _ _ _ _ _ H1).
      split; [reflexivity | discriminate].
Qed.

Lemma flash_after_extraction_logs (B : backend) (entries : list dict) :
  logs (fun ev => is_generate ev = false)
    (conn <- get_db_connection B ;;
     ' (pending, data_entries) <- insert_all B conn entries ;;
     _ <- commit B pending ;;
     sheet_url <- publish B "Upload_" (map PyDict data_entries) ;;
     ret (json_response
            [("message", PyStr "Files processed and new spreadsheet created");
             ("sheet_url", PyStr sheet_url)] 200)).
Proof.
  apply logs_bind; [now apply get_db_connection_logs|]. intros conn _ _ _.
  apply logs_bind.
  { apply (logs_weaken (fun ev => is_insert ev = true)).
    - intros ev. now destruct ev.
    - apply quiet_logs, insert_all_quiet. }
  intros [pending entries'] _ _ _.
  apply logs_bind; [now apply commit_logs|]. intros _ _ _ _.
  apply logs_bind; [|intros; apply logs_ret].
  apply (logs_weaken (fun ev => is_publish ev = true)).
  - intros ev. now destruct ev.
  - apply quiet_logs, publish_quiet.
Qed.

(** The calls of the first loop, split at the newest one. *)
Lemma generate_calls_split (fs : list file) (k : nat) (ev : event) (rest : list event) :
  (ev :: rest)%list = rev (map Generate (firstn k fs)) ->
  exists pre f post,
    fs = (pre ++ f :: post)%list /\ ev = Generate f /\ rest = rev (map Generate pre).
Proof.
  intros H.
  assert (E : map Generate (firstn k fs) = (rev rest ++ [ev])%list).
  { rewrite <- (rev_involutive (map Generate (firstn k fs))), <- H. reflexivity. }
  apply map_eq_app in E. destruct E as (pre & last & E & Hpre & Hlast).
  destruct last as [|f [|? ?]]; try discriminate Hlast.
  injection Hlast as <-.
  exists pre, f, (skipn k fs). split; [|split].
  - rewrite <- (firstn_skipn k fs) at 1. rewrite E, <- app_assoc. reflexivity.
  - reflexivity.
  - rewrite Hpre. symmetry. apply rev_involutive.
Qed.

(** C8, refuted as stated: the case of a later file's extraction failing
    behind inserted rows does not exist. In an upload of two files where
    the first text is extracted and the second is a torn JSON object, the
    route answers 500, the only calls made are the two calls to the
    model, no [INSERT] was issued, and the table holds no row for the
    first file. *)
Lemma C8_counterexample :
  (exists entry w1,
     flash_file (with_generate (sample_backend pen_text true) torn_reply) sample_file
       (world_with [sample_row 1]) = (Ok entry, w1)) /\
  fst (upload_files_flash (with_generate (sample_backend pen_text true) torn_reply)
         (request_with POST [sample_file; torn_file] no_json)
         (world_with [sample_row 1])) = flash_error JSONDecodeError /\
  journal (snd (upload_files_flash (with_generate (sample_backend pen_text true) torn_reply)
                  (request_with POST [sample_file; torn_file] no_json)
                  (world_with [sample_row 1]))) =
    [Generate torn_file; Generate sample_file] /\
  table_name (snd (upload_files_flash (with_generate (sample_backend pen_text true) torn_reply)
                     (request_with POST [sample_file; torn_file] no_json)
                     (world_with [sample_row 1]))) = [sample_row 1].
Proof.
  split; [|vm_compute; repeat split; reflexivity].
  eexists. eexists. vm_compute. reflexivity.
Qed.

(** C8, amended. Take a run of [/upload-flash] that ends with the answer
    500 and whose newest external call is [ev], the step that failed;
    the response then carries the error. When [ev] is a call to the
    model (the extraction of some file failed, the first or a later
    one), the calls before it are the calls to the model for the earlier
    files and nothing else: no row was inserted, and the table is as it
    was. When [ev] is a publish call, the commit was made before it and
    the rows stay committed: the table is the old one followed by one
    row per file. *)
Theorem C8_rows_kept_only_after_commit (B : backend) (req : request) (w w' : world)
    (resp : response) (ev : event) (rest : list event) :
  method req <> OPTIONS ->
  upload_files_flash B req w = (resp, w') ->
  status resp = 500 ->
  journal w' = (ev :: rest ++ journal w)%list ->
  (exists e, resp = flash_error e) /\
  (is_generate ev = true ->
   table_name w' = table_name w /\
   exists pre f post,
     files_getlist (files req) "files" = (pre ++ f :: post)%list /\
     ev = Generate f /\ rest = rev (map Generate pre)) /\
  (is_publish ev = true ->
   In Commit rest /\
   exists rows,
     table_name w' = (table_name w ++ rows)%list /\
     List.length rows = List.length (files_getlist (files req) "files")).
Proof.
  intros Hm H Hs Hj.
  pose proof (upload_guards B req Hm) as G. cbv zeta in G.
  destruct (no_valid_files (files_getlist (files req) "files")).
  { destruct (G w) as [_ [S2 _]]. rewrite H in S2. cbn in S2. congruence. }
  destruct G as [_ G2]. rewrite G2 in H. apply try_except_inv in H.
  destruct H as [H|(e & H & ->)].
  { exfalso. apply flash_run in H.
    destruct H as [(e & evs & R & _)|[(e & ev' & rest' & R & _)
                  |(rows & evs & rest' & _ & _ & _ & _ & [(e & R)|(resp' & R & S)])]];
      try discriminate R.
    injection R as <-. congruence. }
  split; [now exists e|].
  pose proof H as Hrun. apply flash_run in H.
  destruct H as [(e1 & evs & _ & T & J & F)|[(e1 & ev' & rest' & _ & T & J & Hev')
                |(rows & evs & rest' & L & T & J & F & _)]].
  - assert (E : evs = (ev :: rest)%list).
    { apply (app_inv_tail (journal w)). rewrite <- J. exact Hj. }
    subst evs. split.
    + intros _. split; [exact T|].
      unfold flash_steps in Hrun. apply bind_inv in Hrun.
      destruct Hrun as [(entries & w1 & H1 & H2)|(e2 & H1 & _)].
      * destruct (for_each_flash_journal _ _ _ _ _ H1) as (k & J1 & _).
        destruct (flash_after_extraction_logs B entries _ _ _ H2) as (later & J2 & F2).
        rewrite J1, app_assoc in J2. rewrite Hj in J2.
        apply (app_inv_tail (journal w) (ev :: rest)) in J2.
        destruct later as [|l0 later].
        -- exact (generate_calls_split _ k ev rest J2).
        -- exfalso. cbn in J2. injection J2 as <- _.
           inversion F as [|? ? G0 _]. inversion F2 as [|? ? G1 _]. congruence.
      * destruct (for_each_flash_journal _ _ _ _ _ H1) as (k & J1 & _).
        rewrite Hj in J1. apply (app_inv_tail (journal w) (ev :: rest)) in J1.
        exact (generate_calls_split _ k ev rest J1).
    + intros Hp. exfalso. inversion F as [|? ? G0 _]. destruct ev; discriminate.
  - assert (E : (ev' :: rest')%list = (ev :: rest)%list).
    { apply (app_inv_tail (journal w)). cbn [app]. rewrite <- J. exact Hj. }
    injection E as -> ->.
    split; intros Hk; exfalso;
      destruct Hev' as [->|[E| ->]]; try discriminate Hk; destruct ev; discriminate.
  - assert (E : (ev :: rest)%list = (evs ++ Commit :: rest')%list).
    { apply (app_inv_tail (journal w)). rewrite <- app_assoc. cbn.
      rewrite <- J. symmetry. exact Hj. }
    split.
    + intros Hg. exfalso. destruct evs as [|ev5 evs]; cbn in E; injection E as -> _.
      * discriminate Hg.
      * inversion F as [|? ? G0 _]. destruct ev5; discriminate.
    + intros Hp. split; [|exists rows; auto].
      destruct evs as [|ev5 evs]; cbn in E; injection E as E0 E1.
      * subst ev. discriminate Hp.
      * subst rest. apply in_or_app. right. now left.
Qed.

(** ** C2: malformed JSON is not absorbed *)

Lemma for_each_raise_at {A B} (f : A -> M B) (pre post : list A) (x : A)
    (w w1 w2 : world) (ys : list B) (e : exn) :
  for_each f pre w = (Ok ys, w1) ->
  f x w1 = (Raise e, w2) ->
  for_each f (pre ++ x :: post) w = (Raise e, w2).
Proof.
  revert w ys. induction pre as [|a pre IH]; intros w ys Hpre Hx; cbn [for_each app] in *.
  - inversion Hpre; subst. unfold bind. now rewrite Hx.
  - apply bind_ok in Hpre. destruct Hpre as (y & wa & Ha & Hpre).
    apply bind_ok in Hpre. destruct Hpre as (ys' & wb & Hb & Hr).
    inversion Hr; subst.
    unfold bind at 1. rewrite Ha. unfold bind at 1. now rewrite (IH _ _ Hb Hx).
Qed.

Lemma flash_file_raise (B : backend) (f : file) (w : world) (text : string) (e : exn) :
  generate_content B (journal w) f = Ok text ->
  parse_gemini_result text = Raise e ->
  flash_file B f w = (Raise e, log (Generate f) w).
Proof.
  intros Hg Hp. unfold flash_file, bind, call, lift. now rewrite Hg, Hp.
Qed.

Lemma flash_file_freeform (B : backend) (f : file) (w : world) (text : string) :
  generate_content B (journal w) f = Ok text ->
  startswith text "{" = false ->
  exists w2,
    flash_file B f w =
    (Ok (new_entry (strftime_now B (ticks w) "%Y-%m-%d")
           (PyStr text) (PyStr "N/A") (PyInt 0) zero_float), w2).
Proof.
  intros Hg Hs. unfold flash_file, bind, call, lift, parse_gemini_result.
  rewrite Hg, Hs. cbn. eexists. reflexivity.
Qed.

(** C2, refuted as stated: the text [{oops] begins with a brace and is not
    JSON; [json.loads] raises, nothing falls back, and the request of a
    single file answered with this text ends with 500 and an empty
    table. *)
Lemma C2_counterexample :
  startswith "{oops" "{" = true /\
  json_loads "{oops" = Raise JSONDecodeError /\
  extract_entry "2024-01-01" "{oops" = Raise JSONDecodeError /\
  fst (upload_files_flash (sample_backend "{oops" true)
         (request_with POST [sample_file] no_json) (world_with [])) =
    flash_error JSONDecodeError /\
  table_name (snd (upload_files_flash (sample_backend "{oops" true)
                     (request_with POST [sample_file] no_json) (world_with []))) = [].
Proof. vm_compute. repeat split; reflexivity. Qed.

(** C2, amended. A response text that does not begin with a brace never
    makes the extraction raise: the text becomes the description and the
    other fields take their defaults. A text that begins with a brace
    and is not valid JSON is not absorbed: the error of [json.loads]
    reaches the [except] clause, the route answers 500 with it, and no
    row is committed. *)
Theorem C2_malformed_json_fails_request (B : backend) (req : request) (w w1 : world)
    (pre post : list file) (f : file) (entries : list dict) (text : string) :
  method req <> OPTIONS ->
  files_getlist (files req) "files" = (pre ++ f :: post)%list ->
  no_valid_files (pre ++ f :: post) = false ->
  for_each (flash_file B) pre w = (Ok entries, w1) ->
  generate_content B (journal w1) f = Ok text ->
  (startswith text "{" = false ->
   exists w2,
     flash_file B f w1 =
     (Ok (new_entry (strftime_now B (ticks w1) "%Y-%m-%d")
            (PyStr text) (PyStr "N/A") (PyInt 0) zero_float), w2)) /\
  (forall e,
     startswith text "{" = true ->
     json_loads text = Raise e ->
     exists w',
       upload_files_flash B req w = (flash_error e, w') /\
       table_name w' = table_name w).
Proof.
  intros Hm Hfs Hv Hpre Hg. split.
  - now apply flash_file_freeform.
  - intros e Hs Hj.
    pose proof (upload_guards B req Hm) as G. cbv zeta in G.
    rewrite Hfs, Hv in G. destruct G as [_ G2]. rewrite G2.
    assert (Hp : parse_gemini_result text = Raise e).
    { unfold parse_gemini_result. now rewrite Hs. }
    pose proof (for_each_raise_at _ _ post _ _ _ _ _ _ Hpre
                  (flash_file_raise B f w1 text e Hg Hp)) as Hrun.
    exists (log (Generate f) w1). split.
    + unfold try_except, flash_steps, bind. now rewrite Hrun.
    + destruct (quiet_for_each _ _ _ (flash_file_quiet B) _ _ _ Hpre) as (T & _).
      exact T.
Qed.

(** ** The bulk update *)

Lemma execute_update_run (B : backend) (pending : list row) (u : pyval) (w : world) :
  execute_update B pending u w =
  match update_params u with
  | Raise e => (Raise e, w)
  | Ok params =>
      (match db_update B (journal w) params with
       | Ok (hit, stored) => Ok (map (set_cells hit stored) pending)
       | Raise e => Raise e
       end, log (Update params) w)
  end.
Proof.
  unfold execute_update, bind, lift, call.
  destruct (update_params u) as [params|e]; [|reflexivity].
  destruct (db_update B (journal w) params) as [[hit stored]|e]; reflexivity.
Qed.

Lemma execute_update_quiet (B : backend) (pending : list row) (u : pyval) :
  quiet (fun ev => is_update ev = true) (execute_update B pending u).
Proof. unfold execute_update. quiet_steps. Qed.

Lemma apply_updates_quiet (B : backend) (updates : list pyval) (pending : list row) :
  quiet (fun ev => is_update ev = true) (apply_updates B pending updates).
Proof.
  revert pending. induction updates as [|u rest IH]; intros pending; cbn [apply_updates].
  - apply quiet_ret.
  - apply quiet_bind; [apply execute_update_quiet|]. intros p. apply IH.
Qed.

(** A loop that ran to its end executed one statement per record. *)
Lemma apply_updates_ok (B : backend) (updates : list pyval) (pending final : list row)
    (w w' : world) :
  apply_updates B pending updates w = (Ok final, w') ->
  exists ups,
    journal w' = (ups ++ journal w)%list /\
    Forall (fun ev => is_update ev = true) ups /\
    List.length ups = List.length updates.
Proof.
  revert pending w. induction updates as [|u rest IH]; intros pending w H;
    cbn [apply_updates] in H.
  - inversion H; subst. now exists [].
  - apply bind_ok in H. destruct H as (p1 & w1 & H1 & H).
    rewrite execute_update_run in H1.
    destruct (update_params u) as [params|e]; [|discriminate H1].
    injection H1 as _ Hw. subst w1.
    destruct (IH _ _ H) as (ups & J & F & L).
    exists (ups ++ [Update params])%list. rewrite J. cbn. rewrite <- app_assoc.
    split; [reflexivity|]. split.
    + apply Forall_app. split; [exact F|]. now repeat constructor.
    + rewrite length_app. cbn. lia.
Qed.

Lemma apply_updates_app (B : backend) (pre post : list pyval) (pending : list row)
    (w : world) :
  apply_updates B pending (pre ++ post) w =
  bind (apply_updates B pending pre) (fun p => apply_updates B p post) w.
Proof.
  revert pending w. induction pre as [|u pre IH]; intros pending w; cbn [apply_updates app].
  - reflexivity.
  - unfold bind.
    destruct (execute_update B pending u w) as [[p1|e] w1]; [|reflexivity].
    rewrite IH. reflexivity.
Qed.

Lemma update_data_steps (B : backend) (req : request) :
  update_data B req = try_except (update_steps B req) (error_response EmptyString).
Proof. reflexivity. Qed.

(** How a run of the update steps ends. Before the commit only the
    connect and the update statements were issued and the table is
    untouched; the commit is the newest call of any run that reaches
    it. *)
Lemma update_run (B : backend) (req : request) (w w' : world) (r : result response) :
  update_steps B req w = (r, w') ->
  (exists e ups,
      r = Raise e /\ table_name w' = table_name w /\
      Forall (fun ev => is_update ev = true) ups /\
      (journal w' = journal w \/ journal w' = (ups ++ Connect :: journal w)%list)) \/
  (exists items ups,
      rbind (json req) py_iter = Ok items /\
      journal w' = (Commit :: ups ++ Connect :: journal w)%list /\
      Forall (fun ev => is_update ev = true) ups /\
      List.length ups = List.length items /\
      ((exists e, r = Raise e /\ table_name w' = table_name w) \/
       r = Ok (json_response [("message", PyStr "Data updated")] 200))).
Proof.
  unfold update_steps. intros H.
  apply bind_inv in H. destruct H as [(updates & w0 & H0 & H)|(e & H0 & ->)].
  2:{ left. inversion H0; subst. exists e, []. auto. }
  injection H0 as Hj Hw. subst w0.
  apply bind_inv in H. rewrite get_db_connection_run in H.
  destruct H as [(conn & w1 & H1 & H)|(e & H1 & ->)].
  2:{ left. inversion H1; subst. exists e, []. cbn. auto. }
  destruct (db_connect B (journal w)); inversion H1; subst; clear H1.
  apply bind_inv in H. destruct H as [(items & w2 & H2 & H)|(e & H2 & ->)].
  2:{ left. inversion H2; subst. exists e, []. cbn. auto. }
  injection H2 as Hi Hw. subst w2.
  apply bind_inv in H. destruct H as [(pending & w3 & H3 & H)|(e & H3 & ->)].
  2:{ left. destruct (apply_updates_quiet _ _ _ _ _ _ H3) as (T & ups & J & F).
      exists e, ups. rewrite T, J. cbn. auto. }
  destruct (apply_updates_quiet _ _ _ _ _ _ H3) as (T & _).
  destruct (apply_updates_ok _ _ _ _ _ _ H3) as (ups & J & F & L).
  right. exists items, ups. rewrite Hj. cbn [rbind].
  apply bind_inv in H. rewrite commit_run in H.
  destruct H as [([] & w4 & H4 & H)|(e & H4 & ->)];
    destruct (db_commit B (journal w3)); inversion H4; subst; clear H4.
  - inversion H; subst. cbn. rewrite J. cbn. auto 10.
  - cbn. rewrite J, T. cbn. repeat split; auto. left. eauto.
Qed.

(** ** C10: one commit, after every statement *)

(** C10. In every run of [/update], a commit, if there is one, is the
    newest call and comes after the connect and one update statement per
    record of the request, so it happens once and after all of them; a
    request that does not end with 200 leaves the committed table as it
    was. In particular, when the statement of some record fails after the
    records before it went through, the route answers 500 with that
    error and the table is unchanged: the earlier updates are not
    committed either. *)
Theorem C10_commit_once_at_end (B : backend) (req : request) (w : world) :
  (forall resp w' evs,
     update_data B req w = (resp, w') ->
     journal w' = (evs ++ journal w)%list ->
     (status resp = 200 \/ status resp = 500) /\
     (status resp <> 200 -> table_name w' = table_name w) /\
     (status resp = 200 -> In Commit evs) /\
     (In Commit evs ->
      exists items ups,
        rbind (json req) py_iter = Ok items /\
        evs = (Commit :: ups ++ [Connect])%list /\
        Forall (fun ev => is_update ev = true) ups /\
        List.length ups = List.length items)) /\
  (forall updates pre u post pending w1 e w2,
     json req = Ok updates ->
     py_iter updates = Ok (pre ++ u :: post)%list ->
     db_connect B (journal w) = Ok tt ->
     apply_updates B (table_name w) pre (log Connect w) = (Ok pending, w1) ->
     execute_update B pending u w1 = (Raise e, w2) ->
     update_data B req w = (error_response EmptyString e, w2) /\
     table_name w2 = table_name w /\
     (forall evs, journal w2 = (evs ++ journal w)%list -> ~ In Commit evs)).
Proof.
  split.
  { intros resp w' evs H Hj. rewrite update_data_steps in H. apply try_except_inv in H.
  assert (Hr : exists r, update_steps B req w = (r, w') /\
                 (r = Ok resp \/ exists e, r = Raise e /\ resp = error_response EmptyString e)).
  { destruct H as [H|(e & H & ->)]; eexists; split; eauto. }
  clear H. destruct Hr as (r & H & Hr).
  apply update_run in H.
  destruct H as [(e & ups & -> & T & F & J)|(items & ups & Hi & J & F & L & R)].
  - destruct Hr as [Hr|(e' & _ & ->)]; [discriminate Hr|].
    assert (Hno : ~ In Commit evs).
    { destruct J as [J|J]; rewrite Hj in J.
      - apply (app_inv_tail _ evs []) in J. subst evs. intros [].
      - assert (J' : (evs ++ journal w = (ups ++ [Connect]) ++ journal w)%list)
          by (rewrite <- app_assoc; exact J).
        apply app_inv_tail in J'. subst evs.
        intros Hin. apply in_app_or in Hin. destruct Hin as [Hin|[Hin|[]]].
        + rewrite Forall_forall in F. specialize (F _ Hin). discriminate F.
        + discriminate Hin. }
    cbn. repeat split; auto; try discriminate. intros Hin. contradiction.
  - assert (E : evs = (Commit :: ups ++ [Connect])%list).
    { apply (app_inv_tail (journal w)). cbn. rewrite <- app_assoc. cbn.
      rewrite <- J. symmetry. exact Hj. }
    assert (Hc : In Commit evs) by (rewrite E; now left).
    destruct R as [(e & -> & T)| ->].
    + destruct Hr as [Hr|(e' & _ & ->)]; [discriminate Hr|].
      cbn. repeat split; auto; try discriminate. intros _. eauto 10.
    + destruct Hr as [Hr|(e' & Hr & _)]; [|discriminate Hr].
      inversion Hr; subst resp. cbn.
      repeat split; auto; try contradiction. intros _. eauto 10. }
  intros updates pre u post pending w1 e w2 Hj Hi Hc Hpre Hx.
  destruct (apply_updates_quiet _ _ _ _ _ _ Hpre) as (T1 & ups & J1 & F1).
  destruct (execute_update_quiet _ _ _ _ _ _ Hx) as (T2 & evs2 & J2 & F2).
  split; [|split].
  - rewrite update_data_steps. unfold try_except, update_steps.
    unfold bind at 1. unfold lift at 1. rewrite Hj.
    unfold bind at 1. rewrite get_db_connection_run, Hc.
    unfold bind at 1. unfold lift at 1. rewrite Hi.
    unfold bind at 1. rewrite apply_updates_app. unfold bind at 1. rewrite Hpre.
    cbn [apply_updates]. unfold bind at 1. now rewrite Hx.
  - rewrite T2, T1. reflexivity.
  - intros evs Hevs. rewrite J2, J1 in Hevs. cbn [journal log] in Hevs.
    assert (E : ((evs2 ++ ups ++ [Connect]) ++ journal w = evs ++ journal w)%list)
      by (rewrite <- Hevs; now rewrite <- !app_assoc).
    apply app_inv_tail in E. subst evs.
    intros Hin. apply in_app_or in Hin. destruct Hin as [Hin|Hin].
    + rewrite Forall_forall in F2. specialize (F2 _ Hin). discriminate F2.
    + apply in_app_or in Hin. destruct Hin as [Hin|[Hin|[]]].
      * rewrite Forall_forall in F1. specialize (F1 _ Hin). discriminate F1.
      * discriminate Hin.
Qed.

(** ** C6: an update that matches no row *)

Lemma set_cells_miss (hit : Z -> bool) (stored : list pyval) (pending : list row) :
  (forall r, In r pending -> hit (Entry_ID r) = false) ->
  map (set_cells hit stored) pending = pending.
Proof.
  intros H. induction pending as [|r pending IH]; cbn; [reflexivity|].
  unfold set_cells at 1. rewrite (H r (or_introl eq_refl)).
  rewrite IH; [reflexivity|]. intros r' Hin. apply H. now right.
Qed.

(** C6. In a bulk update, take a record [u] that the loop reaches, whose
    statement the database accepts and whose identifier matches no row.
    Executing it raises nothing and leaves the rows of the transaction
    as they were; the loop goes on with the remaining records from the
    same rows; and when they and the commit go through, the route
    answers 200 and commits exactly what the remaining records made of
    those rows. *)
Theorem C6_unmatched_update_is_noop (B : backend) (req : request) (w w1 : world)
    (pre post : list pyval) (u : pyval) (pending : list row)
    (params stored : list pyval) (hit : Z -> bool) :
  json req = Ok (PyList (pre ++ u :: post)) ->
  db_connect B (journal w) = Ok tt ->
  apply_updates B (table_name w) pre (log Connect w) = (Ok pending, w1) ->
  update_params u = Ok params ->
  db_update B (journal w1) params = Ok (hit, stored) ->
  (forall r, In r pending -> hit (Entry_ID r) = false) ->
  execute_update B pending u w1 = (Ok pending, log (Update params) w1) /\
  apply_updates B (table_name w) (pre ++ u :: post) (log Connect w) =
    apply_updates B pending post (log (Update params) w1) /\
  (forall final w2,
     apply_updates B pending post (log (Update params) w1) = (Ok final, w2) ->
     db_commit B (journal w2) = Ok tt ->
     update_data B req w =
       (json_response [("message", PyStr "Data updated")] 200,
        publish_table final (log Commit w2))).
Proof.
  intros Hj Hc Hpre Hp Hu Hmiss.
  assert (Hx : execute_update B pending u w1 = (Ok pending, log (Update params) w1)).
  { rewrite execute_update_run, Hp, Hu. now rewrite set_cells_miss. }
  assert (Hloop : apply_updates B (table_name w) (pre ++ u :: post) (log Connect w) =
                  apply_updates B pending post (log (Update params) w1)).
  { rewrite apply_updates_app. unfold bind at 1. rewrite Hpre.
    cbn [apply_updates]. unfold bind at 1. now rewrite Hx. }
  split; [exact Hx|]. split; [exact Hloop|].
  intros final w2 Hpost Hcommit.
  rewrite update_data_steps. unfold try_except, update_steps.
  unfold bind at 1. unfold lift at 1. rewrite Hj.
  unfold bind at 1. rewrite get_db_connection_run, Hc.
  unfold bind at 1. unfold lift at 1. cbn [py_iter].
  unfold bind at 1. rewrite Hloop, Hpost.
  unfold bind at 1. rewrite commit_run, Hcommit. reflexivity.
Qed.

(** ** Concrete runs *)

Lemma not_options_post : POST <> OPTIONS.
Proof. discriminate. Defined.

Lemma C9_witness :
  args_get (args (request_with GET [] no_json)) "spreadsheet_id" = None /\
  get_sheet_data (sample_backend "some prose" true) (request_with GET [] no_json)
    (world_with [sample_row 1]) =
  ({| payload := Json (PyDict [("error", PyStr "Missing spreadsheet_id")]);
      status := 400 |}, world_with [sample_row 1]).
Proof.
  split; [reflexivity|].
  apply (C9_missing_spreadsheet_id (sample_backend "some prose" true)
           (request_with GET [] no_json) (world_with [sample_row 1])).
  reflexivity.
Defined.

Lemma C5_witness :
  let B := sample_backend "some prose" true in
  let req := request_with POST [unnamed_file; unnamed_file] no_json in
  let w := world_with [sample_row 1] in
  Forall (fun f => filename f = EmptyString) (files_getlist (files req) "files") /\
  (status (fst (upload_files B req w)) = 400 /\ snd (upload_files B req w) = w) /\
  (status (fst (upload_files_flash B req w)) = 400 /\
   snd (upload_files_flash B req w) = w).
Proof.
  intros B req w.
  assert (H : Forall (fun f => filename f = EmptyString)
                (files_getlist (files req) "files")).
  { repeat constructor. }
  split; [exact H|].
  exact (C5_no_files_rejected B req w not_options_post H).
Defined.

Lemma C4_witness :
  let B := sample_backend pen_text true in
  let req := request_with POST [sample_file; unnamed_file] no_json in
  let w := world_with [sample_row 1] in
  status (fst (upload_files_flash B req w)) = 200 /\
  exists rows,
    table_name (snd (upload_files_flash B req w)) = (table_name w ++ rows)%list /\
    List.length rows = List.length (files_getlist (files req) "files").
Proof.
  intros B req w.
  assert (H : status (fst (upload_files_flash B req w)) = 200).
  { vm_compute. reflexivity. }
  split; [exact H|].
  apply (C4_one_row_per_file B req w (snd (upload_files_flash B req w))
           (fst (upload_files_flash B req w)) not_options_post H).
  right. apply surjective_pairing.
Defined.

Lemma C3_witness :
  let B := sample_backend pen_text true in
  let run := for_each (flash_file B) [sample_file; unnamed_file] (world_with []) in
  fst run = Ok (value_of [] (fst run)) /\
  List.length (value_of [] (fst run)) = 2%nat /\
  Forall creation_invariant (value_of [] (fst run)) /\
  fresh_params [PyStr "2024-01-01"; PyStr "Pen"; PyStr "B1"; PyInt 5; PyFloat float_12_5;
                PyInt 0; PyFloat zero_float; PyInt 5; PyFloat float_12_5].
Proof.
  intros B run.
  assert (H : run = (Ok (value_of [] (fst run)), snd run)).
  { vm_compute. reflexivity. }
  split; [vm_compute; reflexivity|]. split; [vm_compute; reflexivity|]. split.
  - apply (proj1 (C3_creation_invariant B) [sample_file; unnamed_file] (world_with [])
             (snd run)).
    right. exact H.
  - pose (req := request_with POST [sample_file] no_json).
    pose (out := upload_files_flash B req (world_with [])).
    apply (proj2 (C3_creation_invariant B) req (world_with []) (snd out) (fst out)
             (journal (snd out))).
    + right. apply surjective_pairing.
    + vm_compute. reflexivity.
    + vm_compute. right. right. right. left. reflexivity.
Defined.

Lemma C7_witness :
  let B := sample_backend pen_text true in
  let w := world_with [sample_row 3; sample_row 1; sample_row 2] in
  exists data,
    fst (get_results B (request_with GET [] no_json) w) =
      {| payload := Json (PyList (map row_dict data)); status := 200 |} /\
    Permutation data (table_name w) /\
    Sorted id_le data /\
    (table_name w = [] -> data = []).
Proof.
  intros B w.
  apply (C7_results_sorted B (request_with GET [] no_json) w); reflexivity.
Defined.

Lemma C8_witness :
  let req := request_with POST [sample_file; torn_file] no_json in
  let w := world_with [sample_row 1] in
  let torn := upload_files_flash (with_generate (sample_backend pen_text true) torn_reply)
                req w in
  let unpublished := upload_files_flash (sample_backend pen_text false) req w in
  (status (fst torn) = 500 /\
   hd Connect (journal (snd torn)) = Generate torn_file /\
   table_name (snd torn) = table_name w) /\
  (status (fst unpublished) = 500 /\
   hd Connect (journal (snd unpublished)) = SheetsCreate "Upload_20240101_120000" /\
   exists rows,
     table_name (snd unpublished) = (table_name w ++ rows)%list /\
     List.length rows = 2%nat).
Proof.
  intros req w torn unpublished.
  assert (Hs1 : status (fst torn) = 500) by (vm_compute; reflexivity).
  assert (Hj1 : journal (snd torn) =
                (hd Connect (journal (snd torn)) :: tl (journal (snd torn)) ++ journal w)%list)
    by (vm_compute; reflexivity).
  assert (Hs2 : status (fst unpublished) = 500) by (vm_compute; reflexivity).
  assert (Hj2 : journal (snd unpublished) =
                (hd Connect (journal (snd unpublished))
                 :: tl (journal (snd unpublished)) ++ journal w)%list)
    by (vm_compute; reflexivity).
  split.
  - split; [exact Hs1|]. split; [vm_compute; reflexivity|].
    exact (proj1 (proj1 (proj2 (C8_rows_kept_only_after_commit _ req w (snd torn) (fst torn)
                                  _ _ not_options_post (surjective_pairing torn) Hs1 Hj1))
                    eq_refl)).
  - split; [exact Hs2|]. split; [vm_compute; reflexivity|].
    exact (proj2 (proj2 (proj2 (C8_rows_kept_only_after_commit _ req w (snd unpublished)
                                  (fst unpublished) _ _ not_options_post
                                  (surjective_pairing unpublished) Hs2 Hj2))
                    eq_refl)).
Defined.

Lemma C10_witness :
  let B := sample_backend pen_text true in
  let req := update_request [update_record (PyInt 1) "Ink"; PyInt 3] in
  let w := world_with [sample_row 1] in
  let reached := apply_updates B (table_name w) [update_record (PyInt 1) "Ink"]
                   (log Connect w) in
  execute_update B (value_of [] (fst reached)) (PyInt 3) (snd reached) =
    (Raise TypeError, snd reached) /\
  update_data B req w = (error_response EmptyString TypeError, snd reached) /\
  table_name (snd reached) = table_name w.
Proof.
  intros B req w reached.
  assert (Hx : execute_update B (value_of [] (fst reached)) (PyInt 3) (snd reached) =
               (Raise TypeError, snd reached)) by reflexivity.
  split; [exact Hx|].
  destruct (proj2 (C10_commit_once_at_end B req w)
              (PyList [update_record (PyInt 1) "Ink"; PyInt 3])
              [update_record (PyInt 1) "Ink"] (PyInt 3) []
              (value_of [] (fst reached)) (snd reached) TypeError (snd reached))
    as (R & T & _).
  - reflexivity.
  - reflexivity.
  - reflexivity.
  - vm_compute. reflexivity.
  - exact Hx.
  - split; [exact R | exact T].
Defined.

Lemma C6_witness :
  let B := sample_backend pen_text true in
  let pre := [update_record (PyInt 1) "Ink"] in
  let u := update_record (PyInt 99) "Nib" in
  let post := [update_record (PyInt 2) "Cap"] in
  let req := update_request (pre ++ u :: post) in
  let w := world_with [sample_row 2; sample_row 1] in
  let reached := apply_updates B (table_name w) pre (log Connect w) in
  let pending := value_of [] (fst reached) in
  let params := value_of [] (update_params u) in
  execute_update B pending u (snd reached) =
    (Ok pending, log (Update params) (snd reached)) /\
  status (fst (update_data B req w)) = 200 /\
  map Entry_ID (table_name (snd (update_data B req w))) = [2; 1].
Proof.
  intros B pre u post req w reached pending params.
  pose (rest := apply_updates B pending post (log (Update params) (snd reached))).
  destruct (C6_unmatched_update_is_noop B req w (snd reached) pre post u pending
              params (firstn 9 params) (Z.eqb 99)) as (X & _ & F).
  - reflexivity.
  - reflexivity.
  - vm_compute. reflexivity.
  - vm_compute. reflexivity.
  - vm_compute. reflexivity.
  - intros r Hin. vm_compute in Hin.
    destruct Hin as [<-|[<-|[]]]; reflexivity.
  - split; [exact X|].
    rewrite (F (value_of [] (fst rest)) (snd rest)).
    + split; vm_compute; reflexivity.
    + vm_compute. reflexivity.
    + reflexivity.
Defined.

Lemma C2_witness :
  let B := sample_backend "{oops" true in
  let req := request_with POST [sample_file] no_json in
  let w := world_with [sample_row 1] in
  startswith "{oops" "{" = true /\
  json_loads "{oops" = Raise JSONDecodeError /\
  exists w',
    upload_files_flash B req w = (flash_error JSONDecodeError, w') /\
    table_name w' = table_name w.
Proof.
  intros B req w.
  assert (Hs : startswith "{oops" "{" = true) by reflexivity.
  assert (Hj : json_loads "{oops" = Raise JSONDecodeError) by (vm_compute; reflexivity).
  split; [exact Hs|]. split; [exact Hj|].
  destruct (C2_malformed_json_fails_request B req w w [] [] sample_file [] "{oops"
              not_options_post eq_refl eq_refl eq_refl eq_refl) as [_ H].
  exact (H JSONDecodeError Hs Hj).
Defined.

(** ** Further properties of the routes *)

(** *** [/get-sheet-data] *)

(** X1. [/get-sheet-data] answers 400 exactly when [spreadsheet_id] is
    missing or empty; it then makes no call and answers with the body
    [{"error": "Missing spreadsheet_id"}]. *)
Theorem X1_sheet_data_400_iff (B : backend) (req : request) (w : world) :
  (status (fst (get_sheet_data B req w)) = 400 <->
   args_get (args req) "spreadsheet_id" = None \/
   args_get (args req) "spreadsheet_id" = Some EmptyString) /\
  (status (fst (get_sheet_data B req w)) = 400 ->
   get_sheet_data B req w =
   (json_response [("error", PyStr "Missing spreadsheet_id")] 400, w)).
Proof.
  unfold get_sheet_data, try_except.
  destruct (args_get (args req) "spreadsheet_id") as [[|c id]|] eqn:E.
  - cbn. split; [split; auto|reflexivity].
  - unfold bind, call, lift.
    destruct (sheets_get B (journal w) _ _) as [result|e]; cbn.
    + destruct (py_get result "values" (PyList [])); cbn;
        (split; [split; [discriminate | intros [H|H]; discriminate H] | discriminate]).
    + split; [split; [discriminate | intros [H|H]; discriminate H] | discriminate].
  - cbn. split; [split; auto|reflexivity].
Qed.

(** X2. With a non-empty [spreadsheet_id], [/get-sheet-data] makes exactly
    one call, a read of that spreadsheet over the requested range or over
    [Sheet1!A1:J] when none is given. An error of the backend is answered
    500 with that error; a result is answered 200 with its [values], or
    with the empty list when the result has none. *)
Theorem X2_sheet_data_one_call (B : backend) (req : request) (w : world) (id : string) :
  args_get (args req) "spreadsheet_id" = Some id ->
  id <> EmptyString ->
  snd (get_sheet_data B req w) = log (SheetsGet id (requested_range req)) w /\
  (forall e,
     sheets_get B (journal w) id (requested_range req) = Raise e ->
     fst (get_sheet_data B req w) = error_response EmptyString e) /\
  (forall d,
     sheets_get B (journal w) id (requested_range req) = Ok (PyDict d) ->
     fst (get_sheet_data B req w) =
     json_response [("values", field d "values" (PyList []))] 200).
Proof.
  intros E Hid. unfold get_sheet_data, try_except, requested_range. rewrite E.
  destruct id as [|c id]; [contradiction|].
  unfold bind, call, lift.
  destruct (sheets_get B (journal w) _ _) as [result|e]; cbn.
  - destruct (py_get result "values" (PyList [])) eqn:G; cbn;
      (split; [reflexivity|]); (split; [discriminate|]);
      intros d Hd; injection Hd as ->; cbn in G; unfold field; congruence.
  - split; [reflexivity|]. split; [congruence | discriminate].
Qed.

(** *** The guards of the upload routes *)

Lemma no_valid_files_named (fs : list file) :
  no_valid_files fs = negb (has_named_file fs).
Proof.
  unfold no_valid_files, has_named_file. destruct fs as [|f fs]; [reflexivity|].
  generalize (f :: fs). intros l. induction l as [|x l IH]; cbn; [reflexivity|].
  rewrite IH. now destruct (String.eqb (filename x) EmptyString), (existsb _ l).
Qed.

(** The three ways a request to an upload route is handled. *)
Lemma upload_cases (B : backend) (req : request) :
  let fs := files_getlist (files req) "files" in
  (method req = OPTIONS /\
   forall w,
     upload_files B req w = ({| payload := Empty; status := 200 |}, w) /\
     upload_files_flash B req w = ({| payload := Empty; status := 200 |}, w)) \/
  (method req <> OPTIONS /\ has_named_file fs = false /\
   forall w,
     (status (fst (upload_files B req w)) = 400 /\ snd (upload_files B req w) = w) /\
     (status (fst (upload_files_flash B req w)) = 400 /\
      snd (upload_files_flash B req w) = w)) \/
  (method req <> OPTIONS /\ has_named_file fs = true /\
   upload_files B req = try_except (upload_steps B fs) (error_response EmptyString) /\
   upload_files_flash B req = try_except (flash_steps B fs) flash_error).
Proof.
  intros fs. destruct (method req) eqn:Em.
  3:{ left. split; [reflexivity|]. intros w.
      unfold upload_files, upload_files_flash. rewrite Em. split; reflexivity. }
  all: right;
    assert (Hm : method req <> OPTIONS) by (rewrite Em; discriminate);
    pose proof (upload_guards B req Hm) as G; cbv zeta in G;
    fold fs in G; rewrite no_valid_files_named in G;
    destruct (has_named_file fs); cbn [negb] in G; [right | left]; rewrite <- Em; auto.
Qed.

Lemma try_except_status (m : M response) (prefix : string) (w : world) :
  (forall resp w', m w = (Ok resp, w') -> status resp = 200) ->
  status (fst (try_except m (error_response prefix) w)) = 200 \/
  status (fst (try_except m (error_response prefix) w)) = 500.
Proof.
  intros H. unfold try_except. destruct (m w) as [[resp|e] w'] eqn:E; cbn.
  - left. eapply H. reflexivity.
  - now right.
Qed.

(** How a run of the steps of [/upload] ends. *)
Lemma upload_run (B : backend) (fs : list file) (w w' : world) (r : result response) :
  upload_steps B fs w = (r, w') ->
  (exists e, r = Raise e /\ table_name w' = table_name w) \/
  (exists rows,
      r = Ok (json_response [("message", PyStr "Files processed")] 200) /\
      table_name w' = (table_name w ++ rows)%list /\
      List.length rows = List.length fs).
Proof.
  unfold upload_steps. intros H.
  apply bind_inv in H. destruct H as [(entries & w1 & H1 & H)|(e & H1 & ->)].
  2:{ left. exists e. split; [reflexivity|].
      exact (proj1 (quiet_for_each _ _ fs (upload_file_quiet B) _ _ _ H1)). }
  destruct (quiet_for_each _ _ fs (upload_file_quiet B) _ _ _ H1) as (T1 & _).
  pose proof (for_each_length _ _ _ _ _ H1) as L1.
  apply (store_run B entries
           (fun _ => ret (json_response [("message", PyStr "Files processed")] 200)))
    in H.
  destruct H as [(e & ev & rest & -> & T & _)|(rows & entries' & w4 & evs & L & T & J & H)].
  - left. exists e. split; [reflexivity | congruence].
  - right. inversion H; subst. exists rows. rewrite T, T1, L, L1. auto.
Qed.

(** X3. Either upload route answers 400 exactly when the request is not a
    preflight and no file under [files] carries a filename. *)
Theorem X3_upload_400_iff (B : backend) (req : request) (w : world) :
  (status (fst (upload_files B req w)) = 400 <->
   method req <> OPTIONS /\
   has_named_file (files_getlist (files req) "files") = false) /\
  (status (fst (upload_files_flash B req w)) = 400 <->
   method req <> OPTIONS /\
   has_named_file (files_getlist (files req) "files") = false).
Proof.
  destruct (upload_cases B req) as [(Hm & H)|[(Hm & Hn & H)|(Hm & Hn & G1 & G2)]].
  - destruct (H w) as [-> ->]. cbn.
    split; (split; [discriminate | intros [Hc _]; contradiction]).
  - destruct (H w) as [[S1 _] [S2 _]]. split; (split; [auto | intros _; assumption]).
  - rewrite G1, G2. split.
    + destruct (try_except_status (upload_steps B (files_getlist (files req) "files"))
                  EmptyString w) as [S|S].
      * intros resp w' Hr. apply upload_run in Hr.
        destruct Hr as [(e & Hr & _)|(rows & Hr & _)]; [discriminate Hr|].
        injection Hr as ->. reflexivity.
      * rewrite S. split; [discriminate | intros [_ Hc]; congruence].
      * rewrite S. split; [discriminate | intros [_ Hc]; congruence].
    + destruct (try_except_status (flash_steps B (files_getlist (files req) "files"))
                  "Failed to process files: " w) as [S|S].
      * intros resp w' Hr. apply flash_run in Hr.
        destruct Hr as [(e & evs & Hr & _)|[(e & ev & rest & Hr & _)
                       |(rows & evs & rest & _ & _ & _ & _ & [(e & Hr)|(resp' & Hr & S)])]];
          try discriminate Hr.
        injection Hr as ->. exact S.
      * unfold flash_error. rewrite S. split; [discriminate | intros [_ Hc]; congruence].
      * unfold flash_error. rewrite S. split; [discriminate | intros [_ Hc]; congruence].
Qed.

(** *** [/results] *)

(** X11. [/results] only reads: whatever the database answers, the table
    is left as it was and the only calls are the connection and, once
    connected, the [SELECT]. A failure of either is answered 500 with
    the error; after a failed connection no [SELECT] is issued. *)
Theorem X11_results_read_only (B : backend) (req : request) (w : world) :
  table_name (snd (get_results B req w)) = table_name w /\
  (forall e,
     db_connect B (journal w) = Raise e ->
     get_results B req w = (error_response EmptyString e, log Connect w)) /\
  (forall u,
     db_connect B (journal w) = Ok u ->
     journal (snd (get_results B req w)) = Select :: Connect :: journal w /\
     forall e,
       db_select B (Connect :: journal w) = Raise e ->
       fst (get_results B req w) = error_response EmptyString e).
Proof.
  unfold get_results, try_except, bind. rewrite get_db_connection_run.
  destruct (db_connect B (journal w)) as [u|e] eqn:Hc.
  - unfold call. cbn.
    destruct (db_select B (Connect :: journal w)) as [u'|e'] eqn:Hs; cbn.
    + split; [reflexivity|]. split; [discriminate|]. intros _ _.
      split; [reflexivity | discriminate].
    + split; [reflexivity|]. split; [discriminate|]. intros _ _.
      split; [reflexivity | congruence].
  - cbn. split; [reflexivity|]. split; [congruence | discriminate].
Qed.

(** *** [/upload] *)

Lemma execute_insert_calls (B : backend) (P : event -> Prop) (pending : list row)
    (entry : dict) (params : list pyval) :
  rmap (py_getitem (PyDict entry)) columns = Ok params ->
  P (Insert params) ->
  quiet P (execute_insert B pending entry).
Proof.
  intros Hp HP. unfold execute_insert. rewrite Hp, bind_lift_ok.
  apply quiet_bind; [now apply quiet_call|]. intros [stored fetched].
  apply quiet_bind; [apply quiet_lift|]. intros id. apply quiet_ret.
Qed.

Lemma insert_all_calls (B : backend) (P : event -> Prop) (entries : list dict) :
  Forall (fun entry =>
            exists params,
              rmap (py_getitem (PyDict entry)) columns = Ok params /\
              P (Insert params)) entries ->
  forall pending, quiet P (insert_all B pending entries).
Proof.
  induction 1 as [|entry rest (params & Hp & HP) _ IH]; intros pending; cbn [insert_all].
  - apply quiet_ret.
  - apply quiet_bind; [now apply (execute_insert_calls B P pending entry params)|].
    intros [pending1 entry1]. apply quiet_bind; [apply IH|].
    intros [pending2 rest1]. apply quiet_ret.
Qed.

Lemma upload_file_default (B : backend) (f : file) (w : world) (entry : dict)
    (w' : world) :
  upload_file B f w = (Ok entry, w') ->
  exists params,
    rmap (py_getitem (PyDict entry)) columns = Ok params /\
    is_default_insert (Insert params).
Proof.
  unfold upload_file. intros H. apply bind_ok in H.
  destruct H as (date & w1 & _ & H). unfold lift in H.
  rewrite upload_entry_empty in H. injection H as <- _.
  exists (default_params date). split; [reflexivity|]. cbn. now exists date.
Qed.

Lemma upload_steps_default (B : backend) (fs : list file) :
  logs is_default_insert (upload_steps B fs).
Proof.
  unfold upload_steps. apply logs_bind.
  - apply (logs_weaken (fun _ => False)); [contradiction|].
    apply quiet_logs, quiet_for_each, upload_file_quiet.
  - intros entries w w1 H1.
    pose proof (proj2 (for_each_ok _ _ _ (upload_file_default B) _ _ _ H1)) as F.
    apply logs_bind; [now apply get_db_connection_logs|]. intros conn _ _ _.
    apply logs_bind; [now apply quiet_logs, insert_all_calls|].
    intros [pending entries'] _ _ _.
    apply logs_bind; [now apply commit_logs|]. intros _ _ _ _. apply logs_ret.
Qed.

(** X4. [/upload] never looks at what it is sent: in any run its only
    calls are to the database (connect, insert, commit), never to the
    model or to the spreadsheet backend, and every [INSERT] carries the
    same defaults, description "Processed File", bill number "N/A" and
    zero quantities and amounts, for some date. *)
Theorem X4_upload_inserts_defaults (B : backend) (req : request) (w : world) :
  exists evs,
    journal (snd (upload_files B req w)) = (evs ++ journal w)%list /\
    Forall is_default_insert evs.
Proof.
  destruct (upload_cases B req) as [(Hm & H)|[(Hm & Hn & H)|(Hm & Hn & G1 & G2)]].
  - destruct (H w) as [-> _]. now exists [].
  - destruct (H w) as [[_ ->] _]. now exists [].
  - rewrite G1.
    apply (try_except_logs _ _ (error_response EmptyString)
             (upload_steps_default B (files_getlist (files req) "files")) w
             (fst (try_except (upload_steps B (files_getlist (files req) "files"))
                     (error_response EmptyString) w))).
    apply surjective_pairing.
Qed.

(** X5. An upload never commits part of a batch: after any run of either
    route the table is as it was or is the old table followed by exactly
    one row per file; and [/upload] leaves it as it was whenever it does
    not answer 200. *)
Theorem X5_batch_all_or_nothing (B : backend) (req : request) (w : world) :
  (forall resp w',
     upload_files B req w = (resp, w') \/ upload_files_flash B req w = (resp, w') ->
     table_name w' = table_name w \/
     exists rows,
       table_name w' = (table_name w ++ rows)%list /\
       List.length rows = List.length (files_getlist (files req) "files")) /\
  (forall resp w',
     upload_files B req w = (resp, w') ->
     status resp <> 200 ->
     table_name w' = table_name w).
Proof.
  destruct (upload_cases B req) as [(Hm & H)|[(Hm & Hn & H)|(Hm & Hn & G1 & G2)]].
  - destruct (H w) as [E1 E2]. split.
    + intros resp w' [R|R]; left; congruence.
    + intros resp w' R _. congruence.
  - destruct (H w) as [[_ E1] [_ E2]]. split.
    + intros resp w' [R|R]; left; rewrite R in *; cbn in *; congruence.
    + intros resp w' R _. rewrite R in E1. cbn in E1. congruence.
  - rewrite G1, G2. split.
    + intros resp w' [R|R]; apply try_except_inv in R.
      * assert (Hr : exists r, upload_steps B (files_getlist (files req) "files") w = (r, w'))
          by (destruct R as [R|(e & R & _)]; eauto).
        destruct Hr as (r & Hr). apply upload_run in Hr.
        destruct Hr as [(e & _ & T)|(rows & _ & T & L)]; [now left | right; eauto].
      * assert (Hr : exists r, flash_steps B (files_getlist (files req) "files") w = (r, w'))
          by (destruct R as [R|(e & R & _)]; eauto).
        destruct Hr as (r & Hr). apply flash_run in Hr.
        destruct Hr as [(e & evs & _ & T & _)|[(e & ev & rest & _ & T & _)
                       |(rows & evs & rest & L & T & _)]]; [now left | now left | right; eauto].
    + intros resp w' R Hs. apply try_except_inv in R.
      destruct R as [R|(e & R & _)]; apply upload_run in R;
        destruct R as [(e' & _ & T)|(rows & Hr & _)]; try exact T; try discriminate Hr.
      injection Hr as ->. contradiction Hs. reflexivity.
Qed.

(** *** [/upload-flash] *)

(** X6. In any run of [/upload-flash] the calls to the model come first:
    they are made for the files in the order of the request, one each,
    and every other call (database, spreadsheet) is made only after the
    model has answered for all the files. *)
Theorem X6_model_called_first (B : backend) (req : request) (w : world) :
  let fs := files_getlist (files req) "files" in
  exists k later,
    journal (snd (upload_files_flash B req w)) =
      (later ++ rev (map Generate (firstn k fs)) ++ journal w)%list /\
    Forall (fun ev => is_generate ev = false) later /\
    (later <> [] -> firstn k fs = fs).
Proof.
  intros fs.
  destruct (upload_cases B req) as [(Hm & H)|[(Hm & Hn & H)|(Hm & Hn & G1 & G2)]].
  - destruct (H w) as [_ ->]. exists 0%nat, []. cbn.
    split; [reflexivity|]. split; [constructor | intros Hc; now contradiction Hc].
  - destruct (H w) as [_ [_ ->]]. exists 0%nat, []. cbn.
    split; [reflexivity|]. split; [constructor | intros Hc; now contradiction Hc].
  - rewrite G2. fold fs.
    remember (snd (try_except (flash_steps B fs) flash_error w)) as w' eqn:Ew.
    assert (Hr : exists r, flash_steps B fs w = (r, w')).
    { subst w'. unfold try_except.
      destruct (flash_steps B fs w) as [[resp|e] w']; cbn; eauto. }
    clear Ew. destruct Hr as (r & Hr). unfold flash_steps in Hr.
    apply bind_inv in Hr. destruct Hr as [(entries & w1 & H1 & H2)|(e & H1 & _)].
    + destruct (for_each_flash_journal _ _ _ _ _ H1) as (k & J1 & K).
      destruct (flash_after_extraction_logs B entries _ _ _ H2) as (later & J2 & F).
      exists k, later. rewrite J2, J1. split; [reflexivity|]. split; [exact F|].
      intros _. exact (K entries eq_refl).
    + destruct (for_each_flash_journal _ _ _ _ _ H1) as (k & J1 & _).
      exists k, []. rewrite J1. cbn. split; [reflexivity|]. split; [constructor|].
      intros Hc. now contradiction Hc.
Qed.

(** X7. When the extraction of some file fails in [/upload-flash], for
    whatever reason (the model's error, malformed JSON, a quantity or an
    amount that does not convert), the whole batch is dropped: the route
    answers 500 with that error, the table is unchanged, and no call was
    made except to the model, for the files up to the failing one. *)
Theorem X7_extraction_failure_drops_batch (B : backend) (req : request) (w w1 : world)
    (e : exn) :
  method req <> OPTIONS ->
  has_named_file (files_getlist (files req) "files") = true ->
  for_each (flash_file B) (files_getlist (files req) "files") w = (Raise e, w1) ->
  upload_files_flash B req w = (flash_error e, w1) /\
  table_name w1 = table_name w /\
  exists k,
    journal w1 =
    (rev (map Generate (firstn k (files_getlist (files req) "files"))) ++ journal w)%list.
Proof.
  intros Hm Hn H.
  destruct (upload_cases B req) as [(Hm' & _)|[(_ & Hn' & _)|(_ & _ & _ & G2)]];
    [contradiction | congruence |].
  split; [|split].
  - rewrite G2. unfold try_except, flash_steps, bind. now rewrite H.
  - exact (proj1 (quiet_for_each _ _ _ (flash_file_quiet B) _ _ _ H)).
  - destruct (for_each_flash_journal _ _ _ _ _ H) as (k & J & _). eauto.
Qed.

(** X8. In [/upload-flash] a quantity or an amount that the JSON object
    lacks takes its default, 0 or 0.0; one that is present but null does
    not: the entry is not built and an error is raised, [TypeError] for
    a null quantity. *)
Theorem X8_null_is_not_missing (date : string) (d : dict) :
  (lookup "quantity" d = None -> lookup "amount" d = None ->
   flash_entry date (PyDict d) =
   Ok (new_entry date (field d "description" (PyStr "Processed File"))
         (field d "bill_no" (PyStr "N/A")) (PyInt 0) zero_float)) /\
  (lookup "quantity" d = Some PyNone ->
   flash_entry date (PyDict d) = Raise TypeError) /\
  (lookup "amount" d = Some PyNone ->
   exists e, flash_entry date (PyDict d) = Raise e).
Proof.
  rewrite flash_entry_fields. unfold entry_of_fields.
  cbn [quantity amount description billNo]. unfold field.
  split; [|split].
  - intros -> ->. reflexivity.
  - intros ->. reflexivity.
  - intros ->. destruct (lookup "quantity" d) as [v|]; cbn [rbind py_float].
    + destruct (py_int v) as [q|e]; cbn [rbind]; eauto.
    + cbn. eauto.
Qed.

Lemma new_entry_typed (date : string) (p b : pyval) (q : Z) (a : spec_float) :
  typed_entry (new_entry date p b (PyInt q) a).
Proof. exists q, a. repeat split; reflexivity. Qed.

Lemma flash_file_typed (B : backend) (f : file) (w : world) (entry : dict)
    (w' : world) :
  flash_file B f w = (Ok entry, w') -> typed_entry entry.
Proof.
  unfold flash_file. intros H.
  apply bind_ok in H. destruct H as (text & w1 & _ & H).
  apply bind_ok in H. destruct H as (data & w2 & _ & H).
  apply bind_ok in H. destruct H as (date & w3 & _ & H).
  unfold lift in H. injection H as H1 _.
  destruct (flash_entry_shape _ _ _ H1) as (p & b & q & a & ->).
  apply new_entry_typed.
Qed.

(** X9. Whatever JSON types the model used, the entries that
    [/upload-flash] builds carry integers as receipts and balance
    quantity and floats as receipts and balance amount: a quantity or an
    amount given as a string, a boolean or a number of the other kind has
    been converted. *)
Theorem X9_flash_entries_typed (B : backend) (fs : list file) (w w' : world)
    (entries : list dict) :
  for_each (flash_file B) fs w = (Ok entries, w') ->
  Forall typed_entry entries.
Proof.
  intros H. exact (proj2 (for_each_ok _ _ _ (flash_file_typed B) _ _ _ H)).
Qed.

Lemma execute_insert_entry (B : backend) (pending pending' : list row)
    (entry entry' : dict) (w w' : world) :
  execute_insert B pending entry w = (Ok (pending', entry'), w') ->
  exists id, entry' = dict_set entry "Entry_ID" id.
Proof.
  unfold execute_insert. intros H.
  apply bind_ok in H. destruct H as (params & w1 & _ & H).
  apply bind_ok in H. destruct H as ([stored fetched] & w2 & _ & H).
  apply bind_ok in H. destruct H as (id & w3 & _ & H).
  inversion H; subst. eauto.
Qed.

Lemma insert_all_entries (B : backend) (entries entries' : list dict)
    (pending pending' : list row) (w w' : world) :
  insert_all B pending entries w = (Ok (pending', entries'), w') ->
  Forall fresh_entry entries ->
  Forall inserted_entry entries' /\ List.length entries' = List.length entries.
Proof.
  revert entries' pending pending' w w'.
  induction entries as [|entry rest IH]; intros entries' pending pending' w w' H F;
    cbn [insert_all] in H.
  - inversion H; subst. split; [constructor | reflexivity].
  - apply bind_ok in H. destruct H as ([pending1 entry1] & w1 & H1 & H).
    apply bind_ok in H. destruct H as ([pending2 rest1] & w2 & H2 & H).
    inversion H; subst. inversion F as [|? ? Fe Fr]; subst.
    destruct (execute_insert_entry _ _ _ _ _ _ _ H1) as [id ->].
    destruct (IH _ _ _ _ _ H2 Fr) as [Fi L].
    split; [|cbn; congruence]. constructor; [|exact Fi].
    exists entry, id. auto.
Qed.

Lemma sheet_line_inserted (entry : dict) :
  inserted_entry entry ->
  exists line, sheet_line (PyDict entry) = Ok line /\ published_line line.
Proof.
  intros (fresh & id & (date & p & b & q & a & ->) & ->).
  exists [id; PyStr date; p; b; q; PyFloat a; PyInt 0; PyFloat zero_float; q; PyFloat a].
  split; [reflexivity|]. eexists _, _. split; [reflexivity|].
  unfold fresh_params. eauto 10.
Qed.

Lemma sheet_lines_inserted (entries : list dict) (lines : list (list pyval)) :
  Forall inserted_entry entries ->
  rmap sheet_line (map PyDict entries) = Ok lines ->
  Forall published_line lines /\ List.length lines = List.length entries.
Proof.
  intros F. revert lines.
  induction F as [|entry rest He _ IH]; intros lines H; cbn [rmap map] in H.
  - inversion H; subst. split; [constructor | reflexivity].
  - destruct (sheet_line_inserted _ He) as (line & Hl & Pl).
    rewrite Hl in H. cbn [rbind] in H.
    destruct (rmap sheet_line (map PyDict rest)) as [lines'|e]; [|discriminate H].
    cbn in H. inversion H; subst. destruct (IH _ eq_refl) as [Fl L].
    split; [now constructor | cbn; congruence].
Qed.

(** What a successful publish did. *)
Lemma publish_ok (B : backend) (prefix url : string) (records : list pyval)
    (w w' : world) :
  publish B prefix records w = (Ok url, w') ->
  exists id values,
    url = sheet_url_of id /\
    sheet_values records = Ok values /\
    sheets_create B (journal w)
      (prefix ++ strftime_now B (ticks w) "%Y%m%d_%H%M%S") = Ok id /\
    journal w' =
      SheetsUpdate id values
        :: SheetsCreate (prefix ++ strftime_now B (ticks w) "%Y%m%d_%H%M%S")
        :: journal w.
Proof.
  unfold publish, bind, now, call, lift. cbn.
  destruct (sheets_create B (journal w) _) as [id|e] eqn:Hc; [|discriminate].
  destruct (sheet_values records) as [values|e]; [|discriminate].
  destruct (sheets_update B _ id values); [|discriminate].
  intros H. inversion H; subst. exists id, values. auto.
Qed.

(** X10. When [/upload-flash] answers 200, its last two calls created a
    spreadsheet and wrote to it the header line followed by one line per
    file, each line being an identifier followed by the nine values of a
    fresh entry (the balance repeats the receipts, nothing is issued);
    the [sheet_url] of the answer is the address of that spreadsheet. *)
Theorem X10_published_sheet (B : backend) (req : request) (w : world) :
  method req <> OPTIONS ->
  status (fst (upload_files_flash B req w)) = 200 ->
  exists id title lines older,
    journal (snd (upload_files_flash B req w)) =
      SheetsUpdate id (map PyStr headers :: lines) :: SheetsCreate title :: older /\
    List.length lines = List.length (files_getlist (files req) "files") /\
    Forall published_line lines /\
    payload (fst (upload_files_flash B req w)) =
      Json (PyDict [("message", PyStr "Files processed and new spreadsheet created");
                    ("sheet_url", PyStr (sheet_url_of id))]).
Proof.
  intros Hm Hs.
  destruct (upload_cases B req) as [(Hm' & _)|[(_ & _ & H)|(_ & _ & _ & G2)]];
    [contradiction | destruct (H w) as [_ [S _]]; congruence |].
  rewrite G2 in *. unfold try_except in *.
  destruct (flash_steps B (files_getlist (files req) "files") w) as [[resp|e] w'] eqn:R;
    cbn in *; [|discriminate Hs].
  unfold flash_steps in R.
  apply bind_ok in R. destruct R as (entries & w1 & H1 & R).
  apply bind_ok in R. destruct R as (conn & w2 & H2 & R).
  apply bind_ok in R. destruct R as ([pending entries'] & w3 & H3 & R).
  apply bind_ok in R. destruct R as ([] & w4 & H4 & R).
  apply bind_ok in R. destruct R as (url & w5 & H5 & R).
  inversion R; subst. clear R.
  pose proof (proj2 (for_each_ok _ _ _ (flash_file_fresh B) _ _ _ H1)) as F.
  pose proof (for_each_length _ _ _ _ _ H1) as L1.
  destruct (insert_all_entries _ _ _ _ _ _ _ H3 F) as [Fi L3].
  destruct (publish_ok _ _ _ _ _ _ H5) as (id & values & -> & Hv & _ & J).
  unfold sheet_values in Hv.
  destruct (rmap sheet_line (map PyDict entries')) as [lines|e] eqn:Hl; [|discriminate Hv].
  cbn in Hv. injection Hv as <-.
  destruct (sheet_lines_inserted _ _ Fi Hl) as [Fl Ll].
  eexists id, _, lines, (journal w4). cbn.
  split; [exact J|]. split; [congruence|]. split; [exact Fl | reflexivity].
Qed.

(** *** [/update] *)

Lemma set_cells_id (hit : Z -> bool) (stored : list pyval) (r : row) :
  Entry_ID (set_cells hit stored r) = Entry_ID r.
Proof. unfold set_cells. now destruct (hit (Entry_ID r)). Qed.

Lemma execute_update_ids (B : backend) (pending final : list row) (u : pyval)
    (w w' : world) :
  execute_update B pending u w = (Ok final, w') ->
  map Entry_ID final = map Entry_ID pending.
Proof.
  rewrite execute_update_run.
  destruct (update_params u) as [params|e]; [|discriminate].
  destruct (db_update B (journal w) params) as [[hit stored]|e]; [|discriminate].
  intros H. injection H as <- _. rewrite map_map.
  apply map_ext. intros r. apply set_cells_id.
Qed.

Lemma apply_updates_ids (B : backend) (updates : list pyval) (pending final : list row)
    (w w' : world) :
  apply_updates B pending updates w = (Ok final, w') ->
  map Entry_ID final = map Entry_ID pending.
Proof.
  revert pending w. induction updates as [|u rest IH]; intros pending w H;
    cbn [apply_updates] in H.
  - now inversion H.
  - apply bind_ok in H. destruct H as (p1 & w1 & H1 & H).
    rewrite (IH _ _ H). eapply execute_update_ids; eauto.
Qed.

(** The table after a run of the update steps: untouched, or what the
    loop made of it. *)
Lemma update_table (B : backend) (req : request) (w w' : world) (r : result response) :
  update_steps B req w = (r, w') ->
  table_name w' = table_name w \/
  exists items final w3,
    apply_updates B (table_name w) items (log Connect w) = (Ok final, w3) /\
    table_name w' = final.
Proof.
  unfold update_steps. intros H.
  apply bind_inv in H. destruct H as [(updates & w0 & H0 & H)|(e & H0 & ->)].
  2:{ left. now inversion H0. }
  injection H0 as _ Hw. subst w0.
  apply bind_inv in H. rewrite get_db_connection_run in H.
  destruct H as [(conn & w1 & H1 & H)|(e & H1 & ->)].
  2:{ left. now inversion H1. }
  destruct (db_connect B (journal w)); inversion H1; subst; clear H1.
  apply bind_inv in H. destruct H as [(items & w2 & H2 & H)|(e & H2 & ->)].
  2:{ left. now inversion H2. }
  injection H2 as _ Hw. subst w2.
  apply bind_inv in H. destruct H as [(final & w3 & H3 & H)|(e & H3 & ->)].
  2:{ left. exact (proj1 (apply_updates_quiet _ _ _ _ _ _ H3)). }
  destruct (apply_updates_quiet _ _ _ _ _ _ H3) as (T & _).
  apply bind_inv in H. rewrite commit_run in H.
  destruct H as [([] & w4 & H4 & H)|(e & H4 & ->)];
    destruct (db_commit B (journal w3)); inversion H4; subst; clear H4.
  - right. inversion H; subst. exists items, final, w3. auto.
  - left. exact T.
Qed.

(** X12. [/update] never adds, removes, reorders or renumbers rows: after
    any run the table holds the same identifiers in the same order as
    before. *)
Theorem X12_update_keeps_identifiers (B : backend) (req : request) (w : world) :
  map Entry_ID (table_name (snd (update_data B req w))) = map Entry_ID (table_name w).
Proof.
  rewrite update_data_steps.
  assert (Hr : exists r, update_steps B req w =
                         (r, snd (try_except (update_steps B req)
                                    (error_response EmptyString) w))).
  { unfold try_except. destruct (update_steps B req w) as [[resp|e] w']; cbn; eauto. }
  destruct Hr as (r & Hr). apply update_table in Hr.
  destruct Hr as [T|(items & final & w3 & Ha & T)]; rewrite T; [reflexivity|].
  exact (apply_updates_ids _ _ _ _ _ _ Ha).
Qed.

(** X13. The last record of a bulk update wins: when the records before
    it went through, its statement is accepted and the commit succeeds,
    the route answers 200 and every row the statement matches holds
    exactly the cells the database stored for that record, whatever the
    earlier records wrote there and whether or not balance and receipts
    agree; rows it does not match are as the earlier records left
    them. *)
Theorem X13_last_update_wins (B : backend) (req : request) (w w1 : world)
    (body u : pyval) (pre : list pyval) (pending : list row)
    (params stored : list pyval) (hit : Z -> bool) :
  json req = Ok body ->
  py_iter body = Ok (pre ++ [u])%list ->
  db_connect B (journal w) = Ok tt ->
  apply_updates B (table_name w) pre (log Connect w) = (Ok pending, w1) ->
  update_params u = Ok params ->
  db_update B (journal w1) params = Ok (hit, stored) ->
  db_commit B (Update params :: journal w1) = Ok tt ->
  status (fst (update_data B req w)) = 200 /\
  table_name (snd (update_data B req w)) = map (set_cells hit stored) pending /\
  (forall r, In r (table_name (snd (update_data B req w))) ->
     (hit (Entry_ID r) = true -> cells r = stored) /\
     (hit (Entry_ID r) = false -> In r pending)).
Proof.
  intros Hj Hi Hc Hpre Hp Hu Hcommit.
  assert (Hrun : update_data B req w =
                 (json_response [("message", PyStr "Data updated")] 200,
                  publish_table (map (set_cells hit stored) pending)
                    (log Commit (log (Update params) w1)))).
  { rewrite update_data_steps. unfold try_except, update_steps.
    unfold bind at 1. unfold lift at 1. rewrite Hj.
    unfold bind at 1. rewrite get_db_connection_run, Hc.
    unfold bind at 1. unfold lift at 1. rewrite Hi.
    unfold bind at 1. rewrite apply_updates_app. unfold bind at 1. rewrite Hpre.
    cbn [apply_updates]. unfold bind at 1. rewrite execute_update_run, Hp, Hu.
    unfold ret at 1. unfold bind at 1. rewrite commit_run. cbn [journal log].
    rewrite Hcommit. reflexivity. }
  rewrite Hrun. cbn. split; [reflexivity|]. split; [reflexivity|].
  intros r Hin. apply in_map_iff in Hin. destruct Hin as (r0 & <- & Hin).
  unfold set_cells. destruct (hit (Entry_ID r0)) eqn:Hh; cbn.
  - split; [reflexivity | congruence].
  - split; [congruence | intros _; exact Hin].
Qed.

Lemma getitem_first_missing (d : dict) (keys : list string) (k : string) :
  In k keys -> lookup k d = None ->
  exists before k' after,
    keys = (before ++ k' :: after)%list /\
    Forall (fun x => lookup x d <> None) before /\
    lookup k' d = None /\
    rmap (py_getitem (PyDict d)) keys = Raise (KeyError k').
Proof.
  induction keys as [|x rest IH]; intros Hin Hk; [contradiction|].
  destruct (lookup x d) as [v|] eqn:Hx.
  - destruct Hin as [->|Hin]; [congruence|].
    destruct (IH Hin Hk) as (before & k' & after & -> & F & Hk' & Hr).
    exists (x :: before), k', after. split; [reflexivity|].
    split; [constructor; [congruence | exact F]|]. split; [exact Hk'|].
    cbn [rmap py_getitem]. rewrite Hx. cbn [rbind].
    cbn [py_getitem] in Hr. rewrite Hr. reflexivity.
  - exists [], x, rest. split; [reflexivity|]. split; [constructor|].
    split; [exact Hx|]. cbn [rmap py_getitem]. rewrite Hx. reflexivity.
Qed.

(** X14. An update record that lacks one of the ten keys of the statement
    raises [KeyError] for the first key it lacks, in the order of the
    statement; no statement is issued for it and the world is left as it
    was. *)
Theorem X14_update_missing_key (B : backend) (d : dict) (k : string)
    (pending : list row) (w : world) :
  In k update_keys ->
  lookup k d = None ->
  exists before k' after,
    update_keys = (before ++ k' :: after)%list /\
    Forall (fun x => lookup x d <> None) before /\
    lookup k' d = None /\
    execute_update B pending (PyDict d) w = (Raise (KeyError k'), w).
Proof.
  intros Hin Hk.
  destruct (getitem_first_missing d update_keys k Hin Hk)
    as (before & k' & after & E & F & Hk' & Hr).
  exists before, k', after. repeat split; auto.
  rewrite execute_update_run. unfold update_params. fold update_keys.
  now rewrite Hr.
Qed.

(** X15. A body of [/update] that holds no records: when the body cannot
    be read the route answers 500 without any call; when it is read but
    cannot be iterated (a number, a boolean, null) the connection is
    opened, no statement and no commit is issued, and the answer is 500;
    when it iterates to nothing (an empty list, object or string) the
    route connects, commits at once, answers 200 and leaves the table as
    it was. *)
Theorem X15_update_without_records (B : backend) (req : request) (w : world) :
  (forall e, json req = Raise e ->
     update_data B req w = (error_response EmptyString e, w)) /\
  (forall body e,
     json req = Ok body -> py_iter body = Raise e ->
     db_connect B (journal w) = Ok tt ->
     update_data B req w = (error_response EmptyString e, log Connect w)) /\
  (forall body,
     json req = Ok body -> py_iter body = Ok [] ->
     db_connect B (journal w) = Ok tt ->
     db_commit B (Connect :: journal w) = Ok tt ->
     update_data B req w =
       (json_response [("message", PyStr "Data updated")] 200,
        publish_table (table_name w) (log Commit (log Connect w)))).
Proof.
  rewrite update_data_steps. unfold try_except, update_steps. split; [|split].
  - intros e Hj. unfold bind at 1. unfold lift at 1. now rewrite Hj.
  - intros body e Hj Hi Hc.
    unfold bind at 1. unfold lift at 1. rewrite Hj.
    unfold bind at 1. rewrite get_db_connection_run, Hc.
    unfold bind at 1. unfold lift at 1. now rewrite Hi.
  - intros body Hj Hi Hc Hcommit.
    unfold bind at 1. unfold lift at 1. rewrite Hj.
    unfold bind at 1. rewrite get_db_connection_run, Hc.
    unfold bind at 1. unfold lift at 1. rewrite Hi.
    unfold bind at 1. cbn [apply_updates]. unfold ret at 1.
    unfold bind at 1. rewrite commit_run. cbn [journal log].
    rewrite Hcommit. reflexivity.
Qed.

(** *** [/export-to-sheet] *)

Lemma export_to_sheet_steps (B : backend) (req : request) :
  export_to_sheet B req = try_except (export_steps B req) (error_response EmptyString).
Proof. reflexivity. Qed.

Lemma export_steps_quiet (B : backend) (req : request) :
  quiet (fun ev => is_publish ev = true) (export_steps B req).
Proof. unfold export_steps. quiet_steps. Qed.

(** X16. [/export-to-sheet] never touches the database: in any run the
    table is left as it was and the only calls are the creation of a
    spreadsheet and the write to it. *)
Theorem X16_export_never_touches_store (B : backend) (req : request) (w : world) :
  table_name (snd (export_to_sheet B req w)) = table_name w /\
  exists evs,
    journal (snd (export_to_sheet B req w)) = (evs ++ journal w)%list /\
    Forall (fun ev => is_publish ev = true) evs.
Proof.
  rewrite export_to_sheet_steps.
  assert (Hr : exists r, export_steps B req w =
                         (r, snd (try_except (export_steps B req)
                                    (error_response EmptyString) w))).
  { unfold try_except. destruct (export_steps B req w) as [[resp|e] w']; cbn; eauto. }
  destruct Hr as (r & Hr). exact (export_steps_quiet B req _ _ _ Hr).
Qed.

Lemma rmap_raise_at {A B} (f : A -> result B) (pre post : list A) (x : A)
    (ys : list B) (e : exn) :
  rmap f pre = Ok ys -> f x = Raise e -> rmap f (pre ++ x :: post) = Raise e.
Proof.
  revert ys. induction pre as [|a pre IH]; intros ys Hpre Hx; cbn [rmap app] in *.
  - now rewrite Hx.
  - destruct (f a) as [y|e']; [|discriminate Hpre]. cbn [rbind] in *.
    destruct (rmap f pre) as [ys'|e']; [|discriminate Hpre].
    now rewrite (IH _ eq_refl Hx).
Qed.

(** A record that cannot be turned into a line stops the export after the
    spreadsheet has been created. *)
Lemma export_record_raises (B : backend) (req : request) (w : world)
    (data : pyval) (pre post : list pyval) (lines : list (list pyval))
    (x : pyval) (e : exn) (id : string) :
  let title := "Exported_Results_" ++ strftime_now B (ticks w) "%Y%m%d_%H%M%S" in
  json req = Ok data ->
  py_iter data = Ok (pre ++ x :: post)%list ->
  rmap sheet_line pre = Ok lines ->
  sheet_line x = Raise e ->
  sheets_create B (journal w) title = Ok id ->
  export_to_sheet B req w =
    (error_response EmptyString e, log (SheetsCreate title) (tick w)).
Proof.
  intros title Hj Hi Hpre Hx Hc.
  rewrite export_to_sheet_steps. unfold try_except, export_steps.
  unfold bind at 1. unfold lift at 1. rewrite Hj.
  unfold bind at 1. unfold now at 1.
  unfold bind at 1. unfold call at 1. cbn [journal]. fold title. rewrite Hc.
  unfold bind at 1. unfold lift at 1. rewrite Hi.
  unfold bind at 1. unfold lift at 1. unfold sheet_values.
  rewrite (rmap_raise_at sheet_line pre post x lines e Hpre Hx).
  reflexivity.
Qed.

(** X17. [/export-to-sheet] creates the spreadsheet before it reads the
    records: when a record lacks one of the ten columns (the records
    before it being complete), the route answers 500 with the [KeyError]
    of the first column it lacks, in the order of the header line, after
    the spreadsheet has been created and without anything written to
    it. *)
Theorem X17_export_leaves_empty_sheet (B : backend) (req : request) (w : world)
    (data : pyval) (pre post : list pyval) (lines : list (list pyval))
    (d : dict) (k id : string) :
  let title := "Exported_Results_" ++ strftime_now B (ticks w) "%Y%m%d_%H%M%S" in
  json req = Ok data ->
  py_iter data = Ok (pre ++ PyDict d :: post)%list ->
  rmap sheet_line pre = Ok lines ->
  In k headers ->
  lookup k d = None ->
  sheets_create B (journal w) title = Ok id ->
  exists before k' after,
    headers = (before ++ k' :: after)%list /\
    Forall (fun x => lookup x d <> None) before /\
    lookup k' d = None /\
    export_to_sheet B req w =
      (error_response EmptyString (KeyError k'), log (SheetsCreate title) (tick w)).
Proof.
  intros title Hj Hi Hpre Hin Hk Hc.
  destruct (getitem_first_missing d headers k Hin Hk)
    as (before & k' & after & E & F & Hk' & Hr).
  exists before, k', after. split; [exact E|]. split; [exact F|].
  split; [exact Hk'|].
  exact (export_record_raises B req w data pre post lines (PyDict d) (KeyError k') id
           Hj Hi Hpre Hr Hc).
Qed.

Lemma lookup_absent (k : string) (d : dict) :
  ~ In k (map fst d) -> lookup k d = None.
Proof.
  induction d as [|[k' v] d IH]; intros H; cbn [lookup]; [reflexivity|].
  destruct (String.eqb_spec k k') as [->|_].
  - exfalso. apply H. now left.
  - apply IH. intros Hin. apply H. now right.
Qed.

Lemma combine_keys {A} (ks : list string) (vs : list A) :
  incl (map fst (combine ks vs)) ks.
Proof.
  revert vs. induction ks as [|k ks IH]; intros vs x Hin; [contradiction|].
  destruct vs as [|v vs]; [contradiction|].
  destruct Hin as [<-|Hin]; [now left | right; exact (IH vs x Hin)].
Qed.

(** No record of [/results] has the key under which the export reads the
    identifier. *)
Lemma row_dict_keys (r : row) : ~ In "Entry_ID" (keys_of (row_dict r)).
Proof.
  unfold row_dict, keys_of. cbn [map fst]. intros [H|H]; [discriminate H|].
  apply combine_keys in H. vm_compute in H.
  repeat (destruct H as [H|H]; [discriminate H|]). exact H.
Qed.

(** X18. What [/results] returns cannot be exported as it is. A row comes
    back from the database keyed by the column names in lower case, while
    [/export-to-sheet] reads [d['Entry_ID']]: when the first record of the
    body has no key besides those of a listed row, whatever its values,
    the route creates the spreadsheet, writes nothing to it and answers
    500 with [KeyError('Entry_ID')]. *)
Theorem X18_results_not_exportable (B : backend) (req : request) (w : world)
    (data : pyval) (d : dict) (rest : list pyval) (r : row) (id : string) :
  let title := "Exported_Results_" ++ strftime_now B (ticks w) "%Y%m%d_%H%M%S" in
  json req = Ok data ->
  py_iter data = Ok (PyDict d :: rest) ->
  incl (keys_of (PyDict d)) (keys_of (row_dict r)) ->
  sheets_create B (journal w) title = Ok id ->
  export_to_sheet B req w =
    (error_response EmptyString (KeyError "Entry_ID"),
     log (SheetsCreate title) (tick w)).
Proof.
  intros title Hj Hi Hk Hc.
  assert (Hl : lookup "Entry_ID" d = None).
  { apply lookup_absent. intros Hin. exact (row_dict_keys r (Hk _ Hin)). }
  apply (export_record_raises B req w data [] rest [] (PyDict d) (KeyError "Entry_ID") id
           Hj Hi eq_refl); [|exact Hc].
  unfold sheet_line, headers. cbn [rmap py_getitem]. now rewrite Hl.
Qed.

(** *** [get_db_connection] *)

(** The first loop of [/upload] cannot fail and makes no call. *)
Lemma for_each_upload_file (B : backend) (fs : list file) (w : world) :
  exists entries w1,
    for_each (upload_file B) fs w = (Ok entries, w1) /\
    journal w1 = journal w /\ table_name w1 = table_name w.
Proof.
  revert w. induction fs as [|f fs IH]; intros w; cbn [for_each].
  - exists [], w. auto.
  - unfold bind at 1. unfold upload_file at 1. unfold bind at 1, now at 1, lift at 1.
    rewrite upload_entry_empty.
    destruct (IH (tick w)) as (entries & w1 & H & J & T).
    unfold tick in H. unfold bind at 1. rewrite H.
    eexists _, w1. split; [reflexivity|]. auto.
Qed.

(** X19. When the database refuses the connection, [/update] and
    [/upload] answer 500 with the error that [get_db_connection] raised
    again; the connection attempt is their only call and the table is
    unchanged. *)
Theorem X19_database_down (B : backend) (req : request) (w : world) (e : exn) :
  db_connect B (journal w) = Raise e ->
  (forall body, json req = Ok body ->
     update_data B req w = (error_response EmptyString e, log Connect w)) /\
  (method req <> OPTIONS ->
   has_named_file (files_getlist (files req) "files") = true ->
   fst (upload_files B req w) = error_response EmptyString e /\
   journal (snd (upload_files B req w)) = Connect :: journal w /\
   table_name (snd (upload_files B req w)) = table_name w).
Proof.
  intros Hc. split.
  - intros body Hj. rewrite update_data_steps. unfold try_except, update_steps.
    unfold bind at 1. unfold lift at 1. rewrite Hj.
    unfold bind at 1. now rewrite get_db_connection_run, Hc.
  - intros Hm Hn.
    destruct (upload_cases B req) as [(Hm' & _)|[(_ & Hn' & _)|(_ & _ & G1 & _)]];
      [contradiction | congruence |].
    destruct (for_each_upload_file B (files_getlist (files req) "files") w)
      as (entries & w1 & H & J & T).
    assert (Hrun : upload_steps B (files_getlist (files req) "files") w =
                   (Raise e, log Connect w1)).
    { unfold upload_steps. unfold bind at 1. rewrite H.
      unfold bind at 1. now rewrite get_db_connection_run, J, Hc. }
    rewrite G1. unfold try_except. rewrite Hrun. cbn. rewrite J, T. auto.
Qed.

(** *** The identifier of an inserted row *)

Lemma execute_insert_folded (B : backend) (pending : list row) (entry : dict)
    (w w' : world) (r : result (list row * dict)) :
  folded_reply B ->
  execute_insert B pending entry w = (r, w') ->
  (exists e, r = Raise e) /\
  (forall params, rmap (py_getitem (PyDict entry)) columns = Ok params ->
     forall x, db_insert B (journal w) pending params = Ok x ->
     r = Raise (KeyError "Entry_ID")).
Proof.
  intros HB H. unfold execute_insert in H.
  destruct (rmap (py_getitem (PyDict entry)) columns) as [params|e] eqn:Hp0.
  2:{ unfold bind, lift in H. injection H as <- _.
      split; [eauto | intros params Hp; discriminate Hp]. }
  rewrite bind_lift_ok in H.
  apply bind_inv in H. destruct H as [([stored fetched] & w2 & H2 & H)|(e & H2 & ->)].
  2:{ split; [eauto|]. intros params' Hp x Hx. unfold call in H2.
      injection Hp as <-. congruence. }
  unfold call in H2. injection H2 as H2 _.
  destruct (HB _ _ _ _ _ H2) as (id & ->).
  apply bind_inv in H. destruct H as [(v & w3 & H3 & _)|(e & H3 & ->)].
  - unfold lift in H3. discriminate H3.
  - unfold lift in H3. injection H3 as <- _. split; [eauto | reflexivity].
Qed.

Lemma insert_all_folded (B : backend) (pending : list row) (entries : list dict)
    (w w' : world) (r : result (list row * list dict)) :
  folded_reply B ->
  entries <> [] ->
  insert_all B pending entries w = (r, w') ->
  exists e, r = Raise e.
Proof.
  intros HB Hne H. destruct entries as [|entry rest]; [contradiction|].
  cbn [insert_all] in H.
  apply bind_inv in H. destruct H as [(x & w1 & H1 & _)|(e & _ & ->)]; [|eauto].
  destruct (proj1 (execute_insert_folded _ _ _ _ _ _ HB H1)) as (e & He). discriminate He.
Qed.

Lemma store_run_folded {A} (B : backend) (entries : list dict) (k : list dict -> M A)
    (w w' : world) (r : result A) :
  folded_reply B ->
  entries <> [] ->
  (conn <- get_db_connection B ;;
   ' (pending, data_entries) <- insert_all B conn entries ;;
   _ <- commit B pending ;;
   k data_entries) w = (r, w') ->
  exists e, r = Raise e /\ table_name w' = table_name w.
Proof.
  intros HB Hne H.
  apply bind_inv in H. rewrite get_db_connection_run in H.
  destruct H as [(conn & w1 & H1 & H)|(e & H1 & ->)].
  2:{ exists e. injection H1 as _ <-. split; reflexivity. }
  injection H1 as _ <-.
  apply bind_inv in H. destruct H as [(x & w2 & H2 & _)|(e & H2 & ->)].
  - destruct (insert_all_folded _ _ _ _ _ _ HB Hne H2) as (e & He). discriminate He.
  - exists e. split; [reflexivity|].
    exact (proj1 (insert_all_quiet _ _ _ _ _ _ H2)).
Qed.

Lemma named_file_nonempty (fs : list file) : has_named_file fs = true -> fs <> [].
Proof. destruct fs; [discriminate | discriminate]. Qed.

Lemma for_each_nonempty {A B} (f : A -> M B) (l : list A) (w w' : world) (ys : list B) :
  l <> [] -> for_each f l w = (Ok ys, w') -> ys <> [].
Proof.
  intros Hne H. apply for_each_length in H.
  destruct ys; [|discriminate]. destruct l; [contradiction | discriminate H].
Qed.

(** X20. Both upload routes read the identifier of a new row as
    [cur.fetchone()['Entry_ID']]. When the database answers
    [RETURNING Entry_ID] with a row keyed by the column name in lower
    case, as it keys the rows of [/results], no upload succeeds: every
    request that passes the guards is answered 500 and leaves the table
    as it was, and once an [INSERT] has been accepted the error is
    [KeyError('Entry_ID')]. *)
Theorem X20_folded_reply_blocks_uploads (B : backend) (req : request) (w : world) :
  folded_reply B ->
  method req <> OPTIONS ->
  has_named_file (files_getlist (files req) "files") = true ->
  (status (fst (upload_files B req w)) = 500 /\
   table_name (snd (upload_files B req w)) = table_name w) /\
  (status (fst (upload_files_flash B req w)) = 500 /\
   table_name (snd (upload_files_flash B req w)) = table_name w) /\
  (forall pending entry w1 r w2 params x,
     execute_insert B pending entry w1 = (r, w2) ->
     rmap (py_getitem (PyDict entry)) columns = Ok params ->
     db_insert B (journal w1) pending params = Ok x ->
     r = Raise (KeyError "Entry_ID")).
Proof.
  intros HB Hm Hn.
  pose proof (named_file_nonempty _ Hn) as Hne.
  destruct (upload_cases B req) as [(Hm' & _)|[(_ & Hn' & _)|(_ & _ & G1 & G2)]];
    [contradiction | congruence |].
  rewrite G1, G2. unfold try_except. split; [|split].
  - destruct (upload_steps B _ w) as [r w'] eqn:H. unfold upload_steps in H.
    apply bind_inv in H. destruct H as [(entries & w1 & H1 & H)|(e & H1 & ->)].
    + pose proof (for_each_nonempty _ _ _ _ _ Hne H1) as Hne'.
      destruct (quiet_for_each _ _ _ (upload_file_quiet B) _ _ _ H1) as (T1 & _).
      apply (store_run_folded B entries
               (fun _ => ret (json_response [("message", PyStr "Files processed")] 200))
               _ _ _ HB Hne') in H.
      destruct H as (e & -> & T). cbn. split; [reflexivity | congruence].
    + cbn. split; [reflexivity|].
      exact (proj1 (quiet_for_each _ _ _ (upload_file_quiet B) _ _ _ H1)).
  - destruct (flash_steps B _ w) as [r w'] eqn:H. unfold flash_steps in H.
    apply bind_inv in H. destruct H as [(entries & w1 & H1 & H)|(e & H1 & ->)].
    + pose proof (for_each_nonempty _ _ _ _ _ Hne H1) as Hne'.
      destruct (quiet_for_each _ _ _ (flash_file_quiet B) _ _ _ H1) as (T1 & _).
      apply (store_run_folded B entries
               (fun data_entries =>
                  sheet_url <- publish B "Upload_" (map PyDict data_entries) ;;
                  ret (json_response
                         [("message", PyStr "Files processed and new spreadsheet created");
                          ("sheet_url", PyStr sheet_url)] 200))
               _ _ _ HB Hne') in H.
      destruct H as (e & -> & T). cbn. split; [reflexivity | congruence].
    + cbn. split; [reflexivity|].
      exact (proj1 (quiet_for_each _ _ _ (flash_file_quiet B) _ _ _ H1)).
  - intros pending entry w1 r w2 params x H Hp Hx.
    exact (proj2 (execute_insert_folded _ _ _ _ _ _ HB H) params Hp x Hx).
Qed.

(** *** Concrete runs of the further properties *)

Lemma X2_witness :
  let B := sample_backend "some prose" true in
  let req := query_request [("spreadsheet_id", "sheet-1")] in
  let w := world_with [sample_row 1] in
  snd (get_sheet_data B req w) = log (SheetsGet "sheet-1" "Sheet1!A1:J") w /\
  fst (get_sheet_data B req w) = json_response [("values", PyList [])] 200.
Proof.
  intros B req w.
  destruct (X2_sheet_data_one_call B req w "sheet-1") as (J & _ & V).
  - reflexivity.
  - discriminate.
  - split; [exact J|]. exact (V [("values", PyList [])] eq_refl).
Defined.

Lemma X7_witness :
  let B := sample_backend null_quantity_text true in
  let req := request_with POST [sample_file; unnamed_file] no_json in
  let w := world_with [sample_row 1] in
  let fs := files_getlist (files req) "files" in
  for_each (flash_file B) fs w = (Raise TypeError, tick (log (Generate sample_file) w)) /\
  upload_files_flash B req w = (flash_error TypeError, tick (log (Generate sample_file) w)).
Proof.
  intros B req w fs.
  assert (H : for_each (flash_file B) fs w =
              (Raise TypeError, tick (log (Generate sample_file) w)))
    by (vm_compute; reflexivity).
  split; [exact H|].
  exact (proj1 (X7_extraction_failure_drops_batch B req w _ TypeError
                  not_options_post eq_refl H)).
Defined.

Lemma X9_witness :
  let B := sample_backend converted_text true in
  let run := for_each (flash_file B) [sample_file] (world_with []) in
  fst run = Ok [new_entry "2024-01-01" (PyStr "Processed File") (PyStr "N/A") (PyInt 7)
                  (float_of_decimal false 3 0)] /\
  Forall typed_entry (value_of [] (fst run)).
Proof.
  intros B run.
  assert (H : run = (Ok (value_of [] (fst run)), snd run)) by (vm_compute; reflexivity).
  split; [vm_compute; reflexivity|].
  exact (X9_flash_entries_typed B [sample_file] (world_with []) (snd run) _ H).
Defined.

Lemma X10_witness :
  let B := sample_backend pen_text true in
  let req := request_with POST [sample_file; unnamed_file] no_json in
  let w := world_with [sample_row 1] in
  status (fst (upload_files_flash B req w)) = 200 /\
  exists id title lines older,
    journal (snd (upload_files_flash B req w)) =
      SheetsUpdate id (map PyStr headers :: lines) :: SheetsCreate title :: older /\
    List.length lines = 2%nat /\
    Forall published_line lines /\
    payload (fst (upload_files_flash B req w)) =
      Json (PyDict [("message", PyStr "Files processed and new spreadsheet created");
                    ("sheet_url", PyStr (sheet_url_of id))]).
Proof.
  intros B req w.
  assert (Hs : status (fst (upload_files_flash B req w)) = 200)
    by (vm_compute; reflexivity).
  split; [exact Hs|].
  exact (X10_published_sheet B req w not_options_post Hs).
Defined.

Lemma X13_witness :
  let B := sample_backend pen_text true in
  let pre := [update_record (PyInt 1) "Ink"] in
  let u := update_record (PyInt 1) "Nib" in
  let req := update_request (pre ++ [u]) in
  let w := world_with [sample_row 2; sample_row 1] in
  let reached := apply_updates B (table_name w) pre (log Connect w) in
  let params := value_of [] (update_params u) in
  status (fst (update_data B req w)) = 200 /\
  table_name (snd (update_data B req w)) =
    [sample_row 2; {| Entry_ID := 1; cells := firstn 9 params |}].
Proof.
  intros B pre u req w reached params.
  destruct (X13_last_update_wins B req w (snd reached) (PyList (pre ++ [u])) u pre
              (value_of [] (fst reached)) params (firstn 9 params) (Z.eqb 1))
    as (S & T & _).
  - reflexivity.
  - reflexivity.
  - reflexivity.
  - vm_compute. reflexivity.
  - vm_compute. reflexivity.
  - vm_compute. reflexivity.
  - reflexivity.
  - split; [exact S|]. rewrite T. vm_compute. reflexivity.
Defined.

Lemma X14_witness :
  let B := sample_backend pen_text true in
  let w := world_with [sample_row 1] in
  lookup "DATE" undated_record = None /\
  exists k',
    lookup k' undated_record = None /\
    execute_update B (table_name w) (PyDict undated_record) w = (Raise (KeyError k'), w).
Proof.
  intros B w.
  assert (Hk : lookup "DATE" undated_record = None) by reflexivity.
  split; [exact Hk|].
  destruct (X14_update_missing_key B undated_record "DATE" (table_name w) w)
    as (before & k' & after & _ & _ & Hk' & Hx).
  - left. reflexivity.
  - exact Hk.
  - exists k'. split; [exact Hk' | exact Hx].
Defined.

Lemma X17_witness :
  let B := sample_backend pen_text true in
  let req := update_request [update_record (PyInt 1) "Ink"; PyDict undated_record] in
  let w := world_with [sample_row 1] in
  lookup "Entry_ID" undated_record <> None /\
  lookup "DATE" undated_record = None /\
  export_to_sheet B req w =
    (error_response EmptyString (KeyError "DATE"),
     log (SheetsCreate "Exported_Results_20240101_120000") (tick w)).
Proof.
  intros B req w.
  destruct (X17_export_leaves_empty_sheet B req w
              (PyList [update_record (PyInt 1) "Ink"; PyDict undated_record])
              [update_record (PyInt 1) "Ink"] []
              (value_of [] (rmap sheet_line [update_record (PyInt 1) "Ink"]))
              undated_record "DATE" "sheet-1")
    as (before & k' & after & E & F & Hk' & Hx).
  - reflexivity.
  - reflexivity.
  - vm_compute. reflexivity.
  - right. left. reflexivity.
  - reflexivity.
  - reflexivity.
  - split; [discriminate|]. split; [reflexivity|].
    destruct before as [|k0 before].
    + cbn in E. injection E as E _. subst k'. discriminate Hk'.
    + cbn in E. injection E as E0 E. subst k0.
      destruct before as [|k1 before].
      * cbn in E. injection E as E _. subst k'. exact Hx.
      * cbn in E. injection E as E1 _. subst k1.
        inversion F as [|? ? _ F']. inversion F' as [|? ? Hd _].
        exfalso. apply Hd. reflexivity.
Defined.

Lemma X18_witness :
  let B := sample_backend pen_text true in
  let rows := [sample_row 2; sample_row 1] in
  let w := world_with rows in
  let listed := map row_dict (order_by_id rows) in
  let req := request_with POST [] (Ok (PyList listed)) in
  payload (fst (get_results B (request_with GET [] no_json) w)) = Json (PyList listed) /\
  export_to_sheet B req w =
    (error_response EmptyString (KeyError "Entry_ID"),
     log (SheetsCreate "Exported_Results_20240101_120000") (tick w)).
Proof.
  intros B rows w listed req. split; [reflexivity|].
  apply (X18_results_not_exportable B req w (PyList listed)
           (combine (map column_name headers) (PyInt 1 :: cells (sample_row 1)))
           [row_dict (sample_row 2)] (sample_row 1) "sheet-1").
  - reflexivity.
  - reflexivity.
  - intros k Hk. exact Hk.
  - reflexivity.
Defined.

Lemma X19_witness :
  let B := with_connect (sample_backend pen_text true) database_down in
  let req := request_with POST [sample_file] (Ok (PyList [update_record (PyInt 1) "Ink"])) in
  let w := world_with [sample_row 1] in
  update_data B req w =
    (error_response EmptyString (ExternalError "OperationalError"), log Connect w) /\
  fst (upload_files B req w) =
    error_response EmptyString (ExternalError "OperationalError") /\
  table_name (snd (upload_files B req w)) = table_name w.
Proof.
  intros B req w.
  destruct (X19_database_down B req w (ExternalError "OperationalError") eq_refl)
    as (U & F).
  split; [exact (U _ eq_refl)|].
  destruct (F not_options_post eq_refl) as (R & _ & T).
  split; [exact R | exact T].
Defined.

Lemma X8_witness :
  flash_entry "2024-01-01" (PyDict [("description", PyStr "Pen"); ("quantity", PyNone)]) =
    Raise TypeError /\
  flash_entry "2024-01-01" (PyDict [("description", PyStr "Pen")]) =
    Ok (new_entry "2024-01-01" (PyStr "Pen") (PyStr "N/A") (PyInt 0) zero_float).
Proof.
  split.
  - exact (proj1 (proj2 (X8_null_is_not_missing "2024-01-01"
                           [("description", PyStr "Pen"); ("quantity", PyNone)])) eq_refl).
  - exact (proj1 (X8_null_is_not_missing "2024-01-01" [("description", PyStr "Pen")])
             eq_refl eq_refl).
Defined.

Lemma X15_witness :
  let B := sample_backend pen_text true in
  let w := world_with [sample_row 1] in
  update_data B (request_with POST [] (Ok (PyInt 3))) w =
    (error_response EmptyString TypeError, log Connect w) /\
  update_data B (update_request []) w =
    (json_response [("message", PyStr "Data updated")] 200,
     publish_table (table_name w) (log Commit (log Connect w))).
Proof.
  intros B w. split.
  - exact (proj1 (proj2 (X15_update_without_records B
                           (request_with POST [] (Ok (PyInt 3))) w))
             (PyInt 3) TypeError eq_refl eq_refl eq_refl).
  - exact (proj2 (proj2 (X15_update_without_records B (update_request []) w))
             (PyList []) eq_refl eq_refl eq_refl eq_refl).
Defined.

Lemma folded_backend_reply : folded_reply folded_backend.
Proof.
  intros h pending params stored fetched H. cbn in H.
  injection H as _ <-. eexists. reflexivity.
Qed.

Lemma X20_witness :
  let req := request_with POST [sample_file] no_json in
  let w := world_with [sample_row 1] in
  fst (upload_files folded_backend req w) =
    error_response EmptyString (KeyError "Entry_ID") /\
  fst (upload_files_flash folded_backend req w) = flash_error (KeyError "Entry_ID") /\
  (status (fst (upload_files folded_backend req w)) = 500 /\
   table_name (snd (upload_files folded_backend req w)) = table_name w) /\
  (status (fst (upload_files_flash folded_backend req w)) = 500 /\
   table_name (snd (upload_files_flash folded_backend req w)) = table_name w).
Proof.
  intros req w.
  split; [vm_compute; reflexivity|]. split; [vm_compute; reflexivity|].
  destruct (X20_folded_reply_blocks_uploads folded_backend req w
              folded_backend_reply not_options_post eq_refl) as (U & F & _).
  split; [exact U | exact F].
Defined.
